(** * Upload flow of the Smart Finance Automator front end

    A shallow embedding of [SmartFinanceApp.upload] and [window.clearFile]
    from [frontend/static/js/main.js], and the properties of the upload
    flow established on it.

    - JavaScript values are an inductive type; numbers are IEEE-754
      binary64 values ([spec_float] at precision 53, [emax] 1024).
    - The page is a finite map from element ids to the element fields the
      handlers read or write.
    - Handlers are computations in a state-and-exception monad: a thrown
      error keeps the writes made before it, as in JavaScript.
    - The asynchronous [handleSubmit] is cut at its [await]: one
      computation up to the request, one for each way the request settles.
      Interval callbacks and request settlements are events of a step
      function.
    - [showToast] is the notification sink: a call is recorded, its own
      DOM work is not followed. [console.error] and [e.preventDefault()]
      leave no trace in the state. *)

From Stdlib Require Import ZArith Lia Bool List Ascii String.
From Stdlib Require Import Floats.SpecFloat.
From stdpp Require Import base option strings gmap list.

Set Warnings "-register-all".

Local Open Scope string_scope.
Local Open Scope Z_scope.

(** ** JavaScript values *)

Module JS.

(** Numbers are binary64. *)
Definition prec : Z := 53.
Definition emax : Z := 1024.

Abbreviation number := spec_float.

Definition of_Z (n : Z) : number := binary_normalize prec emax n 0 false.
Definition mul : number -> number -> number := SFmul prec emax.
Definition add : number -> number -> number := SFadd prec emax.
Definition div : number -> number -> number := SFdiv prec emax.

(** [a >= b]: false when either side is NaN. *)
Definition geb (a b : number) : bool :=
  match SFcompare a b with
  | Some (Gt | Eq) => true
  | _ => false
  end.

(** A decimal literal denotes the binary64 value nearest to it; for a
    literal [p/q] this is the correctly rounded quotient. *)
Definition lit_0_8 : number := Eval vm_compute in div (of_Z 8) (of_Z 10).
Definition lit_0_6 : number := Eval vm_compute in div (of_Z 6) (of_Z 10).
Definition lit_15 : number := Eval vm_compute in of_Z 15.
Definition lit_95 : number := Eval vm_compute in of_Z 95.

(** [Math.floor]. A finite value is [(-1)^s * m * 2^e]. *)
Definition floor (x : number) : number :=
  match x with
  | S754_finite s m e =>
      if 0 <=? e then x
      else
        let q := (if s then Z.neg m else Z.pos m) / 2 ^ (- e) in
        binary_normalize prec emax q 0 s
  | _ => x
  end.

Inductive value :=
| Undefined
| Null
| Bool (b : bool)
| Num (x : number)
| Str (s : string)
| Arr (items : list value)
| Obj (props : list (string * value)).

(** ToBoolean. *)
Definition truthy (v : value) : bool :=
  match v with
  | Undefined | Null => false
  | Bool b => b
  | Num (S754_zero _) | Num S754_nan => false
  | Num _ => true
  | Str s => negb (String.eqb s "")
  | Arr _ | Obj _ => true
  end.

(** [a || b]. *)
Definition or (a b : value) : value := if truthy a then a else b.

(** Whether [ToString(v)], as in a template literal, returns. A primitive
    always has a text. An object made of data has no callable property of
    its own: one with an own [toString] hides [Object.prototype.toString],
    [valueOf] then gives no primitive, and the conversion throws a
    TypeError. An array is joined: [undefined] and [null] items give the
    empty text, every other item is converted in turn. *)
Fixpoint printable (v : value) : bool :=
  match v with
  | Arr items =>
      forallb
        (fun item =>
           match item with
           | Undefined | Null => true
           | _ => printable item
           end)
        items
  | Obj props => negb (existsb (String.eqb "toString") (List.map fst props))
  | _ => true
  end.

Inductive error :=
| TypeError      (* property read on null/undefined, call of a non-function *)
| SyntaxError    (* response body that is not JSON *)
| NetworkError   (* rejected fetch *)
| HttpError (status : Z).   (* new Error('HTTP error! status: ...') *)

Fixpoint assoc (k : string) (props : list (string * value)) : value :=
  match props with
  | [] => Undefined
  | (k', v) :: rest => if String.eqb k k' then v else assoc k rest
  end.

(** [v.k] for the keys [error] and [success], which no prototype
    defines: an own property of an object, [undefined] on any other
    value, a TypeError on [null] and [undefined]. *)
Definition get (v : value) (k : string) : error + value :=
  match v with
  | Undefined | Null => inl TypeError
  | Obj props => inr (assoc k props)
  | _ => inr Undefined
  end.

End JS.

(** ** Strings and the two regular expressions

    A string is a sequence of code units, here of 8 bits. Both patterns
    name ASCII characters only, and a case-insensitive match never
    identifies a non-ASCII unit with an ASCII one, so a wider unit would
    behave as any unit that matches nothing. *)

Module Re.

Definition is_digit (c : ascii) : bool :=
  let n := N_of_ascii c in ((48 <=? n) && (n <=? 57))%N.

(** Canonicalize of a case-insensitive match: the upper-case letter for
    [a]..[z], every other code unit unchanged. *)
Definition canonicalize (c : ascii) : ascii :=
  let n := N_of_ascii c in
  if ((97 <=? n) && (n <=? 122))%N then ascii_of_N (n - 32) else c.

Definition char_eq_ci (a b : ascii) : bool :=
  Ascii.eqb (canonicalize a) (canonicalize b).

(** The whole of [s] equals [pat], ignoring case. *)
Fixpoint equal_ci (pat s : string) : bool :=
  match pat, s with
  | EmptyString, EmptyString => true
  | String p pat', String c s' => char_eq_ci p c && equal_ci pat' s'
  | _, _ => false
  end.

(** [/\.(txt|csv|json)$/i] tried at the start of [s]. *)
Definition ext_here (s : string) : bool :=
  match s with
  | String c rest =>
      Ascii.eqb c "."
      && (equal_ci "txt" rest || equal_ci "csv" rest || equal_ci "json" rest)
  | EmptyString => false
  end.

(** [name.match(/\.(txt|csv|json)$/i)] is not null: the pattern is tried
    at every start position, left to right. *)
Fixpoint ext_match (s : string) : bool :=
  ext_here s
  || match s with
     | String _ rest => ext_match rest
     | EmptyString => false
     end.

Definition lit_transactions : string := " transactions".

(** [(\d+) transactions] tried at the start of [s]: the digits are taken
    greedily, and given back one at a time when the literal does not
    follow. The result is capture group 1. *)
Fixpoint count_here (s : string) : option string :=
  match s with
  | String c rest =>
      if is_digit c then
        match count_here rest with
        | Some ds => Some (String c ds)
        | None =>
            if String.prefix lit_transactions rest
            then Some (String c EmptyString) else None
        end
      else None
  | EmptyString => None
  end.

(** [message.match(/(\d+) transactions/)]: group 1 of the leftmost
    match, or [None] for [null]. *)
Fixpoint count_match (s : string) : option string :=
  match count_here s with
  | Some ds => Some ds
  | None =>
      match s with
      | String _ rest => count_match rest
      | EmptyString => None
      end
  end.

(** The decimal value of a string of digits. *)
Fixpoint decimal_acc (acc : Z) (s : string) : Z :=
  match s with
  | EmptyString => acc
  | String c rest => decimal_acc (10 * acc + (Z.of_N (N_of_ascii c) - 48)) rest
  end.

Definition decimal (s : string) : Z := decimal_acc 0 s.

Definition all_digits (s : string) : bool :=
  forallb is_digit (list_ascii_of_string s).

End Re.

(** ToNumber of a non-empty string of decimal digits: the binary64 value
    nearest to the number written. *)
Definition to_number (digits : string) : JS.number := JS.of_Z (Re.decimal digits).

(** ** The page and the controller state *)

Record File := { name : string; type : string; size : Z }.

(** The element fields the handlers touch. [textContent] and
    [style_width] hold the value assigned, before the DOM turns it into
    text. *)
Record Element := {
  display : string;        (* style.display *)
  disabled : bool;
  checked : bool;
  value : string;
  textContent : JS.value;
  style_width : JS.value   (* style.width, without the '%' suffix *)
}.

Inductive FormValue :=
| FormFile (f : File)
| FormText (s : string).

Abbreviation FormData := (list (string * FormValue)).

Record Toast := { message : JS.value; severity : string }.

Record State := {
  currentFile : option File;               (* upload.currentFile *)
  dom : gmap string Element;               (* document.getElementById *)
  progressBar : option Element;            (* document.querySelector('.progress-bar') *)
  toasts : list Toast;                     (* showToast calls, oldest first *)
  requests : list FormData;                (* fetch('/upload') calls, oldest first *)
  inflight : gset nat;                     (* indices of [requests] not yet settled *)
  timers : gmap nat JS.number;             (* live setInterval handles, each with its [width] *)
  next_timer : nat
}.

(** ** Handlers as computations

    A handler runs on a [State] and either returns or throws; the state
    written before a throw stays written. *)

Definition M (A : Type) : Type := State -> (JS.error + A) * State.

Definition ret {A} (a : A) : M A := fun s => (inr a, s).
Definition throw {A} (e : JS.error) : M A := fun s => (inl e, s).

Definition bind {A B} (m : M A) (k : A -> M B) : M B :=
  fun s =>
    match m s with
    | (inr a, s') => k a s'
    | (inl e, s') => (inl e, s')
    end.

(** [try { body } catch (error) { handler }]. *)
Definition try_catch {A} (body : M A) (handler : JS.error -> M A) : M A :=
  fun s =>
    match body s with
    | (inl e, s') => handler e s'
    | r => r
    end.

Declare Scope js_scope.
Delimit Scope js_scope with js.
Notation "'let*' x ':=' m 'in' k" := (bind m (fun x => k))
  (at level 10, x name, m at level 100, k at level 200) : js_scope.
Notation "m ;; k" := (bind m (fun _ => k))
  (at level 100, k at level 200, right associativity) : js_scope.
Local Open Scope js_scope.

Definition lift {A} (r : JS.error + A) : M A :=
  match r with
  | inl e => throw e
  | inr a => ret a
  end.

Definition gets {A} (f : State -> A) : M A := fun s => (inr (f s), s).
Definition modify (f : State -> State) : M unit := fun s => (inr tt, f s).

(** The state after a handler has run, whether it returned or threw. *)
Definition exec {A} (m : M A) (s : State) : State := snd (m s).
Definition result {A} (m : M A) (s : State) : JS.error + A := fst (m s).

(** *** State updates *)

Definition set_currentFile (f : option File) (s : State) : State :=
  {| currentFile := f; dom := dom s; progressBar := progressBar s;
     toasts := toasts s; requests := requests s; inflight := inflight s;
     timers := timers s; next_timer := next_timer s |}.

Definition set_dom (d : gmap string Element) (s : State) : State :=
  {| currentFile := currentFile s; dom := d; progressBar := progressBar s;
     toasts := toasts s; requests := requests s; inflight := inflight s;
     timers := timers s; next_timer := next_timer s |}.

Definition set_progressBar (p : option Element) (s : State) : State :=
  {| currentFile := currentFile s; dom := dom s; progressBar := p;
     toasts := toasts s; requests := requests s; inflight := inflight s;
     timers := timers s; next_timer := next_timer s |}.

Definition set_toasts (t : list Toast) (s : State) : State :=
  {| currentFile := currentFile s; dom := dom s; progressBar := progressBar s;
     toasts := t; requests := requests s; inflight := inflight s;
     timers := timers s; next_timer := next_timer s |}.

Definition set_requests (r : list FormData) (i : gset nat) (s : State) : State :=
  {| currentFile := currentFile s; dom := dom s; progressBar := progressBar s;
     toasts := toasts s; requests := r; inflight := i;
     timers := timers s; next_timer := next_timer s |}.

Definition set_timers (t : gmap nat JS.number) (n : nat) (s : State) : State :=
  {| currentFile := currentFile s; dom := dom s; progressBar := progressBar s;
     toasts := toasts s; requests := requests s; inflight := inflight s;
     timers := t; next_timer := n |}.

Definition with_display (v : string) (e : Element) : Element :=
  {| display := v; disabled := disabled e; checked := checked e;
     value := value e; textContent := textContent e;
     style_width := style_width e |}.

Definition with_disabled (v : bool) (e : Element) : Element :=
  {| display := display e; disabled := v; checked := checked e;
     value := value e; textContent := textContent e;
     style_width := style_width e |}.

Definition with_value (v : string) (e : Element) : Element :=
  {| display := display e; disabled := disabled e; checked := checked e;
     value := v; textContent := textContent e;
     style_width := style_width e |}.

Definition with_textContent (v : JS.value) (e : Element) : Element :=
  {| display := display e; disabled := disabled e; checked := checked e;
     value := value e; textContent := v;
     style_width := style_width e |}.

Definition with_checked (v : bool) (e : Element) : Element :=
  {| display := display e; disabled := disabled e; checked := v;
     value := value e; textContent := textContent e;
     style_width := style_width e |}.

Definition with_style_width (v : JS.value) (e : Element) : Element :=
  {| display := display e; disabled := disabled e; checked := checked e;
     value := value e; textContent := textContent e;
     style_width := v |}.

(** [document.getElementById(id)]: [None] is [null]. *)
Definition getElementById (id : string) : M (option Element) :=
  gets (fun s => dom s !! id).

(** A write to a field of the element with this id, which exists. *)
Definition update (id : string) (f : Element -> Element) : M unit :=
  modify (fun s => set_dom (alter f id (dom s)) s).

(** [document.getElementById(id).field = v] with no null check: a
    TypeError when the element is missing. *)
Definition update_unchecked (id : string) (f : Element -> Element) : M unit :=
  let* el := getElementById id in
  match el with
  | None => throw JS.TypeError
  | Some _ => update id f
  end.

(** [const el = document.getElementById(id); if (el) el.field = v]. *)
Definition update_if_present (id : string) (f : Element -> Element) : M unit :=
  let* el := getElementById id in
  match el with
  | None => ret tt
  | Some _ => update id f
  end.

(** [SmartFinanceApp.utils.showToast(message, type)]: the notification
    sink, recorded as a log. The message is put into the markup of the
    toast through a template literal, which throws a TypeError, before
    anything is shown, on a value that has no text. *)
Definition showToast (msg : JS.value) (type : string) : M unit :=
  if JS.printable msg
  then modify (fun s =>
         set_toasts (toasts s ++ [{| message := msg; severity := type |}]) s)
  else throw JS.TypeError.

(** ** [SmartFinanceApp.upload] *)

Section Upload.

(** [upload.formatFileSize], which goes through [Math.log] and
    [toFixed]; only the file preview shows its result. *)
Variable formatFileSize : Z -> string.

Definition allowedTypes : list string :=
  ["text/plain"; "text/csv"; "application/json"].

Definition maxSize : Z := 16 * 1024 * 1024.

Definition msg_invalid_type : string :=
  "Please select a valid file type (.txt, .csv, .json)".
Definition msg_too_large : string := "File size must be less than 16MB".
Definition msg_no_file : string := "Please select a file to upload".
Definition msg_upload_failed : string :=
  "An error occurred while processing your file. Please try again.".

(** [Array.prototype.includes] on strings. *)
Definition includes (l : list string) (x : string) : bool :=
  existsb (String.eqb x) l.

Definition validateFile (file : File) : M bool :=
  if negb (includes allowedTypes (type file)) && negb (Re.ext_match (name file))
  then showToast (JS.Str msg_invalid_type) "warning" ;; ret false
  else if size file >? maxSize
  then showToast (JS.Str msg_too_large) "warning" ;; ret false
  else ret true.

Definition showFilePreview (file : File) : M unit :=
  let* preview := getElementById "filePreview" in
  let* fileName := getElementById "fileName" in
  let* fileSize := getElementById "fileSize" in
  match preview, fileName, fileSize with
  | Some _, Some _, Some _ =>
      update "fileName" (with_textContent (JS.Str (name file))) ;;
      update "fileSize" (with_textContent (JS.Str (formatFileSize (size file)))) ;;
      update "filePreview" (with_display "block")
  | _, _, _ => ret tt
  end.

Definition handleFile (file : File) : M unit :=
  let* ok := validateFile file in
  if negb ok then ret tt
  else
    modify (set_currentFile (Some file)) ;;
    showFilePreview file ;;
    update_unchecked "submitBtn" (with_disabled false).

Definition clearInterval (id : nat) : M unit :=
  modify (fun s => set_timers (delete id (timers s)) (next_timer s) s).

(** A write to the variable [width] that the callback of interval [id]
    closes over. *)
Definition set_width (id : nat) (width : JS.number) : M unit :=
  modify (fun s => set_timers (<[id := width]> (timers s)) (next_timer s) s).

(** The callback of [setInterval] in [simulateProgress], for the
    interval [id], with [r] the value [Math.random()] returns. A
    cleared interval does not fire. *)
Definition tick (id : nat) (r : JS.number) : M unit :=
  let* live := gets (fun s => timers s !! id) in
  match live with
  | None => ret tt
  | Some width =>
      let width := JS.add width (JS.mul r JS.lit_15) in
      let* width :=
        if JS.geb width JS.lit_95
        then clearInterval id ;; ret JS.lit_95
        else set_width id width ;; ret width in
      modify (fun s =>
        set_progressBar (with_style_width (JS.Num width) <$> progressBar s) s)
  end.

Definition simulateProgress : M unit :=
  let* progressBar := gets progressBar in
  match progressBar with
  | None => ret tt
  | Some _ =>
      modify (fun s =>
        set_timers (<[next_timer s := JS.of_Z 0]> (timers s)) (S (next_timer s)) s)
  end.

Definition showProcessingState : M unit :=
  update_unchecked "uploadForm" (with_display "none") ;;
  update_unchecked "processingStatus" (with_display "block") ;;
  simulateProgress.

Definition hideProcessingState : M unit :=
  update_unchecked "processingStatus" (with_display "none").

Definition showUploadForm : M unit :=
  update_unchecked "uploadForm" (with_display "block").

(** [message.match(re)] on the value of [data.success || '']: only a
    string has a [match] method. *)
Definition message_match (message : JS.value) : M (option string) :=
  match message with
  | JS.Str m => ret (Re.count_match m)
  | _ => throw JS.TypeError
  end.

Definition showResults (data : JS.value) : M unit :=
  let* resultsDiv := getElementById "processingResults" in
  match resultsDiv with
  | None => ret tt
  | Some _ =>
      let* success := lift (JS.get data "success") in
      let message := JS.or success (JS.Str "") in
      let* processedMatch := message_match message in
      let processedCount :=
        match processedMatch with
        | Some group1 => group1
        | None => "0"
        end in
      let elements :=
        [ ("processedCount", JS.Str processedCount);
          ("categorizedCount",
            JS.Num (JS.floor (JS.mul (to_number processedCount) JS.lit_0_8)));
          ("merchantsFound",
            JS.Num (JS.floor (JS.mul (to_number processedCount) JS.lit_0_6)));
          ("confidenceScore", JS.Str "85%") ] in
      fold_right
        (fun '(id, v) rest => update_if_present id (with_textContent v) ;; rest)
        (ret tt) elements ;;
      update "processingResults" (with_display "block")
  end.

Definition options : list string :=
  ["autoCategories"; "skipDuplicates"; "extractDates"; "detectMerchants"].

(** [formData.append(option, checkbox.checked)]: FormData stores the
    boolean as the string [true] or [false]. *)
Definition bool_text (b : bool) : string := if b then "true" else "false".

(** The [options.forEach] loop of [handleSubmit]. *)
Fixpoint append_options (opts : list string) (formData : FormData) : M FormData :=
  match opts with
  | [] => ret formData
  | option :: rest =>
      let* checkbox := getElementById option in
      match checkbox with
      | Some c => append_options rest (formData ++ [(option, FormText (bool_text (checked c)))])
      | None => append_options rest formData
      end
  end.

(** [fetch('/upload', { method: 'POST', body: formData })]: the request
    leaves and stays in flight until it settles. *)
Definition fetch_upload (formData : FormData) : M unit :=
  modify (fun s =>
    set_requests (requests s ++ [formData])
                 ({[ List.length (requests s) ]} ∪ inflight s) s).

(** [handleSubmit] up to [await fetch(...)]. *)
Definition handleSubmit : M unit :=
  let* currentFile := gets currentFile in
  match currentFile with
  | None => showToast (JS.Str msg_no_file) "warning"
  | Some file =>
      let* formData := append_options options [("file", FormFile file)] in
      showProcessingState ;;
      fetch_upload formData
  end.

(** How a request settles: [fetch] rejects, or a response arrives with
    a status and a body; [None] is a body that is not JSON, on which
    [response.json()] rejects. *)
Inductive Settlement :=
| Rejected
| Responded (status : Z) (body : option JS.value).

(** [handleSubmit] from [await fetch(...)] on: the rest of the [try]
    block and the [catch] block. Nothing runs between the two awaits. *)
Definition handleSubmit_settled (o : Settlement) : M unit :=
  try_catch
    (match o with
     | Rejected => throw JS.NetworkError
     | Responded _ None => throw JS.SyntaxError
     | Responded _ (Some result) =>
         hideProcessingState ;;
         let* error := lift (JS.get result "error") in
         if JS.truthy error then
           showToast error "danger" ;;
           showUploadForm
         else
           showResults result ;;
           let* success := lift (JS.get result "success") in
           showToast success "success"
     end)
    (fun _ =>
       hideProcessingState ;;
       showUploadForm ;;
       showToast (JS.Str msg_upload_failed) "danger").

Definition msg_request_failed : string := "An error occurred. Please try again.".

(** [response.ok]. *)
Definition ok (status : Z) : bool := (200 <=? status) && (status <=? 299).

(** [utils.apiRequest] from the point where its [fetch] settles: the
    wrapper used for the chart data. *)
Definition apiRequest_settled (o : Settlement) : M JS.value :=
  try_catch
    (match o with
     | Rejected => throw JS.NetworkError
     | Responded status body =>
         if negb (ok status) then throw (JS.HttpError status)
         else match body with
              | Some v => ret v
              | None => throw JS.SyntaxError
              end
     end)
    (fun error =>
       showToast (JS.Str msg_request_failed) "danger" ;;
       throw error).

(** [window.clearFile]. *)
Definition clearFile : M unit :=
  update_if_present "fileInput" (with_value "") ;;
  update_if_present "filePreview" (with_display "none") ;;
  update_if_present "submitBtn" (with_disabled true) ;;
  modify (set_currentFile None).

(** *** The event loop *)

Inductive Event :=
| SelectFile (file : File)               (* a drop or a change of the file input *)
| Submit                                 (* submit of the upload form *)
| Tick (id : nat) (r : JS.number)        (* an interval fires; Math.random() = r *)
| Settle (i : nat) (o : Settlement)      (* request [i] settles *)
| ClearFile.

Definition settle (i : nat) (s : State) : State :=
  set_requests (requests s) (inflight s ∖ {[ i ]}) s.

Definition step (s : State) (ev : Event) : State :=
  match ev with
  | SelectFile file => exec (handleFile file) s
  | Submit => exec handleSubmit s
  | Tick id r => exec (tick id r) s
  | Settle i o =>
      if decide (i ∈ inflight s)
      then exec (handleSubmit_settled o) (settle i s)
      else s
  | ClearFile => exec clearFile s
  end.

Definition run (s : State) (evs : list Event) : State := fold_left step evs s.

(** A request is in flight: the controller is submitting. *)
Definition submitting (s : State) : Prop := inflight s ≠ ∅.

End Upload.

(** ** The words of the specification *)

Module Spec.

(** The lower-case form of a code unit: [A]..[Z] mapped to [a]..[z]. *)
Definition to_lower (c : ascii) : ascii :=
  let n := N_of_ascii c in
  if ((65 <=? n) && (n <=? 90))%N then ascii_of_N (n + 32) else c.

Fixpoint lower (s : string) : string :=
  match s with
  | EmptyString => EmptyString
  | String c rest => String (to_lower c) (lower rest)
  end.

(** [name] ends in [ext], compared case-insensitively; [ext] is given
    in lower case. *)
Definition ends_with_ci (name ext : string) : Prop :=
  exists stem suffix, name = stem ++ suffix /\ lower suffix = ext.

Definition allowed_mime (t : string) : Prop :=
  t = "text/plain" \/ t = "text/csv" \/ t = "application/json".

Definition allowed_extension (name : string) : Prop :=
  ends_with_ci name ".txt" \/ ends_with_ci name ".csv" \/ ends_with_ci name ".json".

Definition MiB : Z := 1024 * 1024.

(** The acceptance condition in the words of the specification. *)
Definition acceptable (file : File) : Prop :=
  (allowed_mime (type file) \/ allowed_extension (name file))
  /\ size file <= 16 * MiB.

(** The message contains [<N> transactions]: a non-empty run of decimal
    digits followed by the literal. *)
Definition contains_count (m : string) : Prop :=
  exists pre digits post,
    m = pre ++ digits ++ " transactions" ++ post
    /\ digits <> "" /\ Re.all_digits digits = true.

Definition specified_option_names : list string :=
  ["autoCategorize"; "skipDuplicates"; "extractDates"; "detectMerchants"].

Definition boolean_valued (v : FormValue) : Prop :=
  v = FormText "true" \/ v = FormText "false".

End Spec.

(** ** Views of the state *)

Definition warning (msg : string) : Toast :=
  {| message := JS.Str msg; severity := "warning" |}.

Definition hidden (id : string) (s : State) : Prop :=
  forall e, dom s !! id = Some e -> display e = "none".

Definition submit_disabled (s : State) : Prop :=
  forall e, dom s !! "submitBtn" = Some e -> disabled e = true.

(** The text assigned to the element [id], when it is on the page. *)
Definition text_of (s : State) (id : string) : option JS.value :=
  textContent <$> dom s !! id.

Definition keeps {A B} (proj : State -> B) (m : M A) : Prop :=
  forall s, proj (exec m s) = proj s.

(** The interval [id] has not been cleared. *)
Definition live (s : State) (id : nat) : Prop := is_Some (timers s !! id).

Definition keeps_live {A} (m : M A) : Prop :=
  forall s id, live s id -> live (exec m s) id.

Definition element_of (id : string) (s : State) : option Element := dom s !! id.

(** The upload form is not displayed. *)
Definition form_hidden (s : State) : Prop :=
  display <$> dom s !! "uploadForm" = Some "none".

(** A submit event comes from a form that is displayed. *)
Definition from_visible_form (s : State) (ev : Event) : Prop :=
  ev = Submit -> ~ form_hidden s.

Fixpoint user_events (fmt : Z -> string) (s : State) (evs : list Event) : Prop :=
  match evs with
  | [] => True
  | ev :: rest => from_visible_form s ev /\ user_events fmt (step fmt s ev) rest
  end.

(** No request is in flight, or one is and the form is hidden. *)
Definition one_in_flight (s : State) : Prop :=
  inflight s = ∅ \/ (form_hidden s /\ exists i, inflight s = {[ i ]}).

(** The field [handleSubmit] appends for option [o] on the page of [s]. *)
Definition option_field (s : State) (o : string) : option (string * FormValue) :=
  (fun checkbox => (o, FormText (bool_text (checked checkbox)))) <$> dom s !! o.

(** The multipart body [handleSubmit] builds in state [s] for [file]. *)
Definition payload (s : State) (file : File) : FormData :=
  ("file", FormFile file) :: omap (option_field s) options.

(** The state [showProcessingState] leaves when the form and the
    processing indicator exist. *)
Definition processing (s : State) : State :=
  let s1 :=
    set_dom (alter (with_display "block") "processingStatus"
               (alter (with_display "none") "uploadForm" (dom s))) s in
  match progressBar s with
  | Some _ => set_timers (<[next_timer s := JS.of_Z 0]> (timers s)) (S (next_timer s)) s1
  | None => s1
  end.

(** The failed path: the processing indicator hidden, the form shown
    again, the generic failure notification. *)
Definition failed (s : State) : State :=
  set_toasts
    (toasts s ++ [{| message := JS.Str msg_upload_failed; severity := "danger" |}])
    (set_dom (alter (with_display "block") "uploadForm"
                (alter (with_display "none") "processingStatus" (dom s))) s).

Definition processed_count (m : string) : string :=
  match Re.count_match m with
  | Some group1 => group1
  | None => "0"
  end.

(** The statistics [showResults] derives from capture group 1. *)
Definition elements (processedCount : string) : list (string * JS.value) :=
  [ ("processedCount", JS.Str processedCount);
    ("categorizedCount",
      JS.Num (JS.floor (JS.mul (to_number processedCount) JS.lit_0_8)));
    ("merchantsFound",
      JS.Num (JS.floor (JS.mul (to_number processedCount) JS.lit_0_6)));
    ("confidenceScore", JS.Str "85%") ].

Definition render (els : list (string * JS.value)) (d : gmap string Element)
  : gmap string Element :=
  fold_left (fun d '(id, v) => alter (with_textContent v) id d) els d.

(** ** Example pages and files *)

Definition element0 : Element :=
  {| display := ""; disabled := false; checked := false; value := "";
     textContent := JS.Str ""; style_width := JS.Str "" |}.

(** An upload page: the form with its four option boxes, the panels
    hidden, the submit button disabled, no file staged. *)
Definition page0 : State :=
  {| currentFile := None;
     dom := list_to_map
       [ ("dropZone", element0);
         ("fileInput", element0);
         ("uploadForm", element0);
         ("submitBtn", with_disabled true element0);
         ("filePreview", with_display "none" element0);
         ("fileName", element0);
         ("fileSize", element0);
         ("autoCategories", with_checked true element0);
         ("skipDuplicates", with_checked true element0);
         ("extractDates", element0);
         ("detectMerchants", with_checked true element0);
         ("processingStatus", with_display "none" element0);
         ("processingResults", with_display "none" element0);
         ("processedCount", element0);
         ("categorizedCount", element0);
         ("merchantsFound", element0);
         ("confidenceScore", element0) ];
     progressBar := Some element0;
     toasts := [];
     requests := [];
     inflight := ∅;
     timers := ∅;
     next_timer := 0%nat |}.

Definition statement_csv : File :=
  {| name := "statement.csv"; type := "text/csv"; size := 2048 |}.

Definition no_format : Z -> string := fun _ => "".

(** A page with a file staged. *)
Definition file_staged : State := run no_format page0 [SelectFile statement_csv].

(** The same page once the form was submitted: request 0 is in flight. *)
Definition awaiting_response : State := run no_format file_staged [Submit].

Definition success_42 : JS.value :=
  JS.Obj [("success", JS.Str "42 transactions processed")].

(** The page after a file was chosen, uploaded and answered with a
    success message. *)
Definition after_upload : State :=
  run no_format page0
    [SelectFile statement_csv; Submit; Settle 0 (Responded 200 (Some success_42))].

Definition server_error_body : JS.value :=
  JS.Obj [("message", JS.Str "Internal Server Error")].

Definition sent_for_statement : FormData :=
  [ ("file", FormFile statement_csv);
    ("autoCategories", FormText "true");
    ("skipDuplicates", FormText "true");
    ("extractDates", FormText "false");
    ("detectMerchants", FormText "true") ].

Definition one_half : JS.number := Eval vm_compute in JS.div (JS.of_Z 1) (JS.of_Z 2).

(** ** The specification, where the code differs from it *)

(** What the specification says of [reset()], for a call in state [s]. *)
Definition reset_as_specified (s : State) : Prop :=
  let s' := exec clearFile s in
  currentFile s' = None
  /\ hidden "filePreview" s'
  /\ hidden "processingResults" s'
  /\ submit_disabled s'.

(** What the specification says of [submit()] in a state [s]. *)
Definition submit_ignored_while_submitting (s : State) : Prop :=
  submitting s -> exec handleSubmit s = s.

(** No interval callback changes anything any more. *)
Definition ticker_stopped (s : State) : Prop :=
  forall id r, step no_format s (Tick id r) = s.

(** What the specification says of the ticker when a request of state
    [s] settles. *)
Definition ticker_cancelled_on_settlement (s : State) : Prop :=
  forall i o, i ∈ inflight s -> ticker_stopped (step no_format s (Settle i o)).

(** What the specification says of the body sent for [file]: the file
    under [file], and one boolean-valued field for each option name, no
    more and no fewer. *)
Definition payload_as_specified (file : File) (formData : FormData) : Prop :=
  In ("file", FormFile file) formData
  /\ Permutation (List.map fst formData) ("file" :: Spec.specified_option_names)
  /\ forall o v, In (o, v) formData -> o <> "file" -> Spec.boolean_valued v.

(** What the specification says of the derived statistics, for a
    success message [m] rendered on the page of [s]. *)
Definition derived_as_specified (m : string) (s : State) : Prop :=
  forall digits, Re.count_match m = Some digits ->
    let s' := exec (showResults (JS.Obj [("success", JS.Str m)])) s in
    text_of s' "categorizedCount" = Some (JS.Num (JS.of_Z (8 * Re.decimal digits / 10)))
    /\ text_of s' "merchantsFound" = Some (JS.Num (JS.of_Z (6 * Re.decimal digits / 10))).

(** What the specification says of a success response whose message
    holds no count, rendered on the page of [s]: the summary shows its
    defaults and nothing fails. *)
Definition default_summary_as_specified (data : JS.value) (s : State) : Prop :=
  forall success,
    JS.get data "success" = inr success ->
    (forall m, success = JS.Str m -> ~ Spec.contains_count m) ->
    let s' := exec (showResults data) s in
    result (showResults data) s = inr tt
    /\ text_of s' "processedCount" = Some (JS.Str "0")
    /\ text_of s' "categorizedCount" = Some (JS.Num (JS.of_Z 0))
    /\ text_of s' "merchantsFound" = Some (JS.Num (JS.of_Z 0))
    /\ text_of s' "confidenceScore" = Some (JS.Str "85%").

(** ** Auxiliary definitions *)

Definition all_ascii : list ascii := List.map ascii_of_nat (seq 0 256).

Definition is_lower_letter (c : ascii) : bool :=
  let n := N_of_ascii c in ((97 <=? n) && (n <=? 122))%N.

Definition lower_letters (pat : string) : bool :=
  forallb is_lower_letter (list_ascii_of_string pat).

(** The record after [k] right shifts of [m0]: the quotient, and the
    position of the remainder against half of [2^k]. *)
Definition shifted (m0 : Z) (k : nat) (mrs : shr_record) : Prop :=
  exists rem,
    m0 = shr_m mrs * 2 ^ Z.of_nat k + rem
    /\ 0 <= rem < 2 ^ Z.of_nat k
    /\ (shr_r mrs = true <-> 2 ^ Z.of_nat k <= 2 * rem)
    /\ (shr_s mrs = true <-> rem <> 0 /\ 2 * rem <> 2 ^ Z.of_nat k).

(** Rounding to nearest, ties to even, after [n] right shifts. *)
Definition rne (m0 : Z) (n : positive) : Z :=
  let mrs := SpecFloat.iter_pos shr_1 n (Build_shr_record m0 false false) in
  round_nearest_even (shr_m mrs) (loc_of_shr_record mrs).

Ltac bool_fact H :=
  match type of H with
  | true = true <-> ?P =>
      let H' := fresh in assert (H' : P) by (apply H; reflexivity); clear H
  | false = true <-> ?P =>
      let H' := fresh in
      assert (H' : ~ P) by (let HP := fresh in intros HP; apply H in HP; discriminate HP);
      clear H
  end.

Ltac bool_goal :=
  split; intros; first [reflexivity | discriminate | lia].

(** ** Invariants of the upload flow *)

(** A request body that opens with a file that passes validation. *)
Definition valid_request (formData : FormData) : Prop :=
  exists file fields,
    formData = ("file", FormFile file) :: fields /\ Spec.acceptable file.

(** The staged file and the file of every request sent passed validation. *)
Definition validated (s : State) : Prop :=
  (forall file, currentFile s = Some file -> Spec.acceptable file)
  /\ Forall valid_request (requests s).


Definition danger (msg : JS.value) : Toast :=
  {| message := msg; severity := "danger" |}.

Definition bad_format : JS.value := JS.Obj [("error", JS.Str "bad format")].

(** A body whose [error] is an object with a [toString] that is not a
    function: it has no text. *)
Definition error_without_text : JS.value :=
  JS.Obj [("error", JS.Obj [("toString", JS.Num (JS.of_Z 0))])].

Definition report_pdf : File :=
  {| name := "report.pdf"; type := "application/pdf"; size := 10 |}.

(** A truthy value that is not a string: it has no [match] method. *)
Definition truthy_not_text (v : JS.value) : Prop :=
  JS.truthy v = true /\ forall m, v <> JS.Str m.

Definition success_true : JS.value := JS.Obj [("success", JS.Bool true)].

(** A success message without a count. *)
Definition success_no_count : JS.value :=
  JS.Obj [("success", JS.Str "File processed")].

(** ** Invariants of the progress ticker *)

(** Zero, a positive finite number or plus infinity: neither NaN nor
    negative. *)
Definition nonneg (x : JS.number) : bool :=
  match x with
  | S754_zero _ | S754_finite false _ _ | S754_infinity false => true
  | _ => false
  end.

(** [w <= 95]. *)
Definition at_most_95 (w : JS.number) : Prop := SFleb w JS.lit_95 = true.

(** The [width] of every live interval is not negative. *)
Definition widths_nonneg (s : State) : Prop :=
  forall id w, timers s !! id = Some w -> nonneg w = true.

(** A number assigned to the width of the progress bar is at most 95. *)
Definition bar_within (s : State) : Prop :=
  forall e w, progressBar s = Some e -> style_width e = JS.Num w -> at_most_95 w.

Definition progress_ok (s : State) : Prop := widths_nonneg s /\ bar_within s.

(** [Math.random()] returns neither NaN nor a negative number. *)
Definition random_ticks (evs : list Event) : Prop :=
  forall id r, In (Tick id r) evs -> nonneg r = true.

Definition preserves {A} (P : State -> Prop) (m : M A) : Prop :=
  forall s, P s -> P (exec m s).

(** ** [SmartFinanceApp.utils.formatNumber]

    The regular expression [/\B(?=(\d{3})+(?!\d))/g]. *)

Module Group.

(** [\w]: [A-Za-z0-9_]. *)
Definition is_word (c : ascii) : bool :=
  let n := N_of_ascii c in
  (((48 <=? n) && (n <=? 57)) || ((65 <=? n) && (n <=? 90))
   || ((97 <=? n) && (n <=? 122)) || (n =? 95))%N.

(** Whether the code unit at a position, if there is one, is a word
    character. *)
Definition word_at (c : option ascii) : bool :=
  match c with
  | Some c => is_word c
  | None => false
  end.

Definition head (s : string) : option ascii :=
  match s with
  | String c _ => Some c
  | EmptyString => None
  end.

(** [\B] at the position between [prev] and the head of [s]. *)
Definition not_boundary (prev : option ascii) (s : string) : bool :=
  Bool.eqb (word_at prev) (word_at (head s)).

(** [(?!\d)]. *)
Definition no_digit (s : string) : bool :=
  match s with
  | String c _ => negb (Re.is_digit c)
  | EmptyString => true
  end.

(** [(\d{3})+(?!\d)] at the head of [s]: the greedy [+] takes one more
    group first and gives it back when the rest fails. *)
Fixpoint groups (s : string) : bool :=
  match s with
  | String a (String b (String c rest)) =>
      Re.is_digit a && Re.is_digit b && Re.is_digit c
      && (groups rest || no_digit rest)
  | _ => false
  end.

(** The expression matches, with an empty match, at the position between
    [prev] and [s]. *)
Definition matches (prev : option ascii) (s : string) : bool :=
  not_boundary prev s && groups s.

(** [.replace(re, ",")] with the [g] flag: every position of the text is
    tried once, the end included, and a comma is put at each position that
    matches. [prev] is the code unit before [s]. *)
Fixpoint replace (prev : option ascii) (s : string) : string :=
  let rest :=
    match s with
    | EmptyString => EmptyString
    | String c rest => String c (replace (Some c) rest)
    end in
  if matches prev s then String "," rest else rest.

End Group.

(** [formatNumber(number)], from the text that [number.toString()]
    returns. *)
Definition formatNumber (text : string) : string := Group.replace None text.

(** One step of the replacement, on a text written out. *)
Ltac group_step :=
  cbn [Group.replace Group.groups Group.head Group.word_at Group.no_digit];
  unfold Group.matches, Group.not_boundary;
  cbn [Group.groups Group.head Group.word_at Group.no_digit].

Fixpoint without_commas (s : string) : string :=
  match s with
  | EmptyString => EmptyString
  | String c rest =>
      if Ascii.eqb c "," then without_commas rest else String c (without_commas rest)
  end.

(** ** [SmartFinanceApp.utils.debounce] *)

Module Debounce.

Section Debounce.

(** The argument list of a call. *)
Variable Args : Type.

(** What [debounce(func, wait)] closes over and acts on. *)
Record Closure := {
  timeout : option nat;      (* [let timeout]: undefined, or a timer id *)
  pending : gmap nat Args;   (* timers set and neither fired nor cleared,
                                each with the [args] its [later] closes over *)
  next_id : nat;             (* the id the next [setTimeout] returns *)
  calls : list Args          (* calls of [func], oldest first *)
}.

(** [clearTimeout(timeout)]: nothing happens on [undefined] and on a
    timer that has fired or was cleared. *)
Definition clearTimeout (t : option nat) (p : gmap nat Args) : gmap nat Args :=
  match t with
  | Some id => delete id p
  | None => p
  end.

(** [executedFunction(...args)]. *)
Definition executedFunction (args : Args) (c : Closure) : Closure :=
  let p := clearTimeout (timeout c) (pending c) in
  {| timeout := Some (next_id c);
     pending := <[next_id c := args]> p;
     next_id := S (next_id c);
     calls := calls c |}.

(** The timer [id] comes due: [later] runs, unless the timer was
    cleared. *)
Definition fire (id : nat) (c : Closure) : Closure :=
  match pending c !! id with
  | None => c
  | Some args =>
      {| timeout := timeout c;
         pending := clearTimeout (timeout c) (delete id (pending c));
         next_id := next_id c;
         calls := calls c ++ [args] |}
  end.

Inductive Event :=
| Call (args : Args)   (* the debounced function is called *)
| Fire (id : nat).     (* the wait of timer [id] is over *)

Definition step (c : Closure) (ev : Event) : Closure :=
  match ev with
  | Call args => executedFunction args c
  | Fire id => fire id c
  end.

Definition run (c : Closure) (evs : list Event) : Closure := fold_left step evs c.

(** The closure [debounce] returns, when [setTimeout] is at id [n]. *)
Definition start (n : nat) : Closure :=
  {| timeout := None; pending := ∅; next_id := n; calls := [] |}.

(** One timer is pending, the one [timeout] names, for a call with
    [args]. *)
Definition armed (c : Closure) (id : nat) (args : Args) : Prop :=
  timeout c = Some id /\ pending c = {[ id := args ]}.

Definition at_most_one_pending (c : Closure) : Prop :=
  pending c = ∅ \/ exists id args, armed c id args.

End Debounce.

End Debounce.

(** ** [SmartFinanceApp.dashboard] and [SmartFinanceApp.charts] *)

Module Dashboard.

(** An element that matches [[data-period]]: its [dataset.period], and
    whether its class list holds [active]. *)
Record Button := { period : string; active : bool }.

Definition with_active (v : bool) (b : Button) : Button :=
  {| period := period b; active := v |}.

(** The part of a chart configuration that comes from the response. *)
Record Config := {
  chart_type : string;      (* [type] *)
  chart_labels : JS.value;  (* [data.labels] *)
  chart_data : JS.value     (* [data.datasets[0].data] *)
}.

Definition apiBase : string := "/api".

Section Dashboard.

(** The instances of the chart library. *)
Variable Chart : Type.

Record Dash := {
  page : State;                           (* the elements and the notifications *)
  buttons : list Button;                  (* the period buttons, in document order *)
  spending : option (option Chart);       (* [this.charts.spending]: unset, null or a chart *)
  category : option (option Chart);       (* [this.charts.category] *)
  fetched : list string;                  (* the URLs requested, oldest first *)
  constructed : list (string * Config);   (* calls of [new Chart], with the canvas id *)
  destroyed : list Chart                  (* calls of [chart.destroy()] *)
}.

Definition set_page (p : State) (d : Dash) : Dash :=
  {| page := p; buttons := buttons d; spending := spending d;
     category := category d; fetched := fetched d;
     constructed := constructed d; destroyed := destroyed d |}.

Definition set_buttons (b : list Button) (d : Dash) : Dash :=
  {| page := page d; buttons := b; spending := spending d;
     category := category d; fetched := fetched d;
     constructed := constructed d; destroyed := destroyed d |}.

Definition set_spending (c : option (option Chart)) (d : Dash) : Dash :=
  {| page := page d; buttons := buttons d; spending := c;
     category := category d; fetched := fetched d;
     constructed := constructed d; destroyed := destroyed d |}.

Definition set_category (c : option (option Chart)) (d : Dash) : Dash :=
  {| page := page d; buttons := buttons d; spending := spending d;
     category := c; fetched := fetched d;
     constructed := constructed d; destroyed := destroyed d |}.

Definition set_fetched (f : list string) (d : Dash) : Dash :=
  {| page := page d; buttons := buttons d; spending := spending d;
     category := category d; fetched := f;
     constructed := constructed d; destroyed := destroyed d |}.

Definition set_constructed (c : list (string * Config)) (d : Dash) : Dash :=
  {| page := page d; buttons := buttons d; spending := spending d;
     category := category d; fetched := fetched d;
     constructed := c; destroyed := destroyed d |}.

Definition set_destroyed (c : list Chart) (d : Dash) : Dash :=
  {| page := page d; buttons := buttons d; spending := spending d;
     category := category d; fetched := fetched d;
     constructed := constructed d; destroyed := c |}.

(** *** The period buttons *)

(** [document.querySelector('[data-period].active')?.classList.remove('active')]:
    the first match in document order, if there is one. *)
Fixpoint deactivate_first (bs : list Button) : list Button :=
  match bs with
  | [] => []
  | b :: rest =>
      if active b then with_active false b :: rest
      else b :: deactivate_first rest
  end.

Definition updateSpendingChart (period : string) (d : Dash) : Dash :=
  set_page
    (exec (showToast (JS.Str ("Loading " ++ period ++ " data...")) "info") (page d))
    d.

(** The click listener of [setupEventListeners], for a click on the
    button at index [k]; a button holds text only, so that it is the
    [target] of the event. *)
Definition click (k : nat) (d : Dash) : Dash :=
  match buttons d !! k with
  | None => d
  | Some target =>
      let d := set_buttons (deactivate_first (buttons d)) d in
      let d := set_buttons (alter (with_active true) k (buttons d)) d in
      updateSpendingChart (period target) d
  end.

Definition clicks (ks : list nat) (d : Dash) : Dash :=
  fold_left (fun d k => click k d) ks d.

(** *** The charts *)

(** [utils.apiRequest(endpoint)] up to [await fetch(...)]; what follows
    the await is [apiRequest_settled]. *)
Definition apiRequest (endpoint : string) (d : Dash) : Dash :=
  set_fetched (fetched d ++ [apiBase ++ endpoint]) d.

(** [charts.createSpendingChart(canvasId, data)]. [made] is what
    [new Chart] does if it is called: it throws, or it returns a chart. *)
Definition createSpendingChart (canvasId : string) (data : JS.value)
    (made : JS.error + Chart) (d : Dash) : (JS.error + option Chart) * Dash :=
  match dom (page d) !! canvasId with
  | None => (inr None, d)
  | Some _ =>
      match JS.get data "labels" with
      | inl e => (inl e, d)
      | inr labels =>
          match JS.get data "amounts" with
          | inl e => (inl e, d)
          | inr amounts =>
              let config :=
                {| chart_type := "line";
                   chart_labels := JS.or labels (JS.Arr []);
                   chart_data := JS.or amounts (JS.Arr []) |} in
              let d := set_constructed (constructed d ++ [(canvasId, config)]) d in
              match made with
              | inl e => (inl e, d)
              | inr chart => (inr (Some chart), d)
              end
          end
      end
  end.

(** [charts.createCategoryChart(canvasId, data)]. *)
Definition createCategoryChart (canvasId : string) (data : JS.value)
    (made : JS.error + Chart) (d : Dash) : (JS.error + option Chart) * Dash :=
  match dom (page d) !! canvasId with
  | None => (inr None, d)
  | Some _ =>
      match JS.get data "categories" with
      | inl e => (inl e, d)
      | inr categories =>
          match JS.get data "amounts" with
          | inl e => (inl e, d)
          | inr amounts =>
              let config :=
                {| chart_type := "doughnut";
                   chart_labels := JS.or categories (JS.Arr []);
                   chart_data := JS.or amounts (JS.Arr []) |} in
              let d := set_constructed (constructed d ++ [(canvasId, config)]) d in
              match made with
              | inl e => (inl e, d)
              | inr chart => (inr (Some chart), d)
              end
          end
      end
  end.

(** [loadDashboardData] up to its first await. *)
Definition loadDashboardData (d : Dash) : Dash :=
  apiRequest "/spending-chart" d.

(** [loadDashboardData] from the first await to the second, once the
    request for the spending data has settled with [o]. The boolean tells
    whether the second await was reached; every error ends in the [catch]
    block, which writes to the console only. *)
Definition loadDashboardData_spending (o : Settlement) (made : JS.error + Chart)
    (d : Dash) : bool * Dash :=
  match apiRequest_settled o (page d) with
  | (inl _, p) => (false, set_page p d)
  | (inr spendingData, p) =>
      match createSpendingChart "spendingTrendsChart" spendingData made (set_page p d) with
      | (inl _, d) => (false, d)
      | (inr chart, d) =>
          (true, apiRequest "/category-chart" (set_spending (Some chart) d))
      end
  end.

(** [loadDashboardData] from the second await on. *)
Definition loadDashboardData_category (o : Settlement) (made : JS.error + Chart)
    (d : Dash) : Dash :=
  match apiRequest_settled o (page d) with
  | (inl _, p) => set_page p d
  | (inr categoryData, p) =>
      match createCategoryChart "categoryChart" categoryData made (set_page p d) with
      | (inl _, d) => d
      | (inr chart, d) => set_category (Some chart) d
      end
  end.

(** [loadDashboardData] from its first await to its end: the requests
    settle with [o1] and [o2], the chart library answers [made1] and
    [made2]. *)
Definition loadDashboardData_settled (o1 : Settlement) (made1 : JS.error + Chart)
    (o2 : Settlement) (made2 : JS.error + Chart) (d : Dash) : Dash :=
  let '(more, d) := loadDashboardData_spending o1 made1 d in
  if more then loadDashboardData_category o2 made2 d else d.

(** A whole run of [loadDashboardData]. *)
Definition load (o1 : Settlement) (made1 : JS.error + Chart)
    (o2 : Settlement) (made2 : JS.error + Chart) (d : Dash) : Dash :=
  loadDashboardData_settled o1 made1 o2 made2 (loadDashboardData d).

(** [Object.values(this.charts)]. *)
Definition charts_values (d : Dash) : list (option Chart) :=
  omap (fun chart => chart) [spending d; category d].

(** [dashboard.refresh], up to the await its call of [loadDashboardData]
    stops at: the charts that are not null are destroyed, the reload
    starts, the notification is shown. *)
Definition refresh (d : Dash) : Dash :=
  let d := set_destroyed (destroyed d ++ omap (fun chart => chart) (charts_values d)) d in
  let d := loadDashboardData d in
  set_page (exec (showToast (JS.Str "Dashboard refreshed") "success") (page d)) d.

End Dashboard.

(** The buttons of [bs] with the one at index [k] active and no other. *)
Definition selected (k : nat) (bs : list Button) : list Button :=
  imap (fun j b => {| period := period b; active := bool_decide (j = k) |}) bs.

Definition count_active (bs : list Button) : nat :=
  List.length (List.filter active bs).

End Dashboard.

(** What [apiRequest] returns for a settlement: the body of a response
    with a status from 200 to 299 that is JSON. *)
Definition json (o : Settlement) : option JS.value :=
  match o with
  | Responded status (Some v) => if ok status then Some v else None
  | _ => None
  end.

Definition request_failed : Toast := danger (JS.Str msg_request_failed).

Definition spending_data : JS.value :=
  JS.Obj [("labels", JS.Arr [JS.Str "Jan"; JS.Str "Feb"]);
          ("amounts", JS.Arr [JS.Num (JS.of_Z 120); JS.Num (JS.of_Z 80)])].

Definition category_data : JS.value :=
  JS.Obj [("categories", JS.Arr [JS.Str "Food"; JS.Str "Rent"]);
          ("amounts", JS.Arr [JS.Num (JS.of_Z 50); JS.Num (JS.of_Z 150)])].

Definition refreshed : Toast :=
  {| message := JS.Str "Dashboard refreshed"; severity := "success" |}.

Definition info (msg : string) : Toast :=
  {| message := JS.Str msg; severity := "info" |}.

Definition period_buttons : list Dashboard.Button :=
  [ {| Dashboard.period := "week"; Dashboard.active := false |};
    {| Dashboard.period := "month"; Dashboard.active := true |};
    {| Dashboard.period := "year"; Dashboard.active := false |} ].

(** A dashboard page before anything was loaded. *)
Definition dashboard0 : Dashboard.Dash unit :=
  {| Dashboard.page :=
       set_dom (list_to_map [("spendingTrendsChart", element0);
                             ("categoryChart", element0)]) page0;
     Dashboard.buttons := period_buttons;
     Dashboard.spending := None;
     Dashboard.category := None;
     Dashboard.fetched := [];
     Dashboard.constructed := [];
     Dashboard.destroyed := [] |}.

(** The configuration [createSpendingChart] builds from the properties of
    a response body. *)
Definition spending_config (props : list (string * JS.value)) : Dashboard.Config :=
  {| Dashboard.chart_type := "line";
     Dashboard.chart_labels := JS.or (JS.assoc "labels" props) (JS.Arr []);
     Dashboard.chart_data := JS.or (JS.assoc "amounts" props) (JS.Arr []) |}.

Definition category_config (props : list (string * JS.value)) : Dashboard.Config :=
  {| Dashboard.chart_type := "doughnut";
     Dashboard.chart_labels := JS.or (JS.assoc "categories" props) (JS.Arr []);
     Dashboard.chart_data := JS.or (JS.assoc "amounts" props) (JS.Arr []) |}.

(** What a submit reports when it sends nothing. *)
Definition submit_refused (s : State) : Prop :=
  (currentFile s = None
   /\ handleSubmit s = (inr tt, set_toasts (toasts s ++ [warning msg_no_file]) s))
  \/ (is_Some (currentFile s)
      /\ (dom s !! "uploadForm" = None \/ dom s !! "processingStatus" = None)
      /\ result handleSubmit s = inl JS.TypeError
      /\ toasts (exec handleSubmit s) = toasts s).

(** The preview panel, where the page has its three elements, shows the
    name and the size of the staged file. *)
Definition preview_shows_staged (fmt : Z -> string) (s : State) : Prop :=
  forall file preview fileName fileSize,
    currentFile s = Some file ->
    dom s !! "filePreview" = Some preview ->
    dom s !! "fileName" = Some fileName ->
    dom s !! "fileSize" = Some fileSize ->
    display preview = "block"
    /\ textContent fileName = JS.Str (name file)
    /\ textContent fileSize = JS.Str (fmt (size file)).

(** The upload is over: nothing is in flight and the form is hidden, as
    after a response that was taken as a success. *)
Definition upload_done (s : State) : Prop :=
  inflight s = ∅ /\ form_hidden s.

(** * Properties *)

(** ** Validation *)

(** *** Every code unit, for case analyses by computation *)

Lemma in_all_ascii (c : ascii) : In c all_ascii.
Proof.
  rewrite <- (ascii_nat_embedding c).
  apply List.in_map, in_seq.
  pose proof (nat_ascii_bounded c). lia.
Qed.

Lemma forall_ascii (P : ascii -> bool) :
  forallb P all_ascii = true -> forall c, P c = true.
Proof.
  intros H c. rewrite forallb_forall in H. apply H, in_all_ascii.
Qed.

Lemma char_eq_ci_lower (p c : ascii) :
  is_lower_letter p = true ->
  Re.char_eq_ci p c = true <-> Spec.to_lower c = p.
Proof.
  intros Hp.
  pose (check := fun p c =>
    implb (is_lower_letter p)
          (Bool.eqb (Re.char_eq_ci p c) (Ascii.eqb (Spec.to_lower c) p))).
  assert (Hall : forallb (fun p => forallb (check p) all_ascii) all_ascii = true)
    by (vm_compute; reflexivity).
  pose proof (forall_ascii _ (forall_ascii _ Hall p) c) as H.
  unfold check in H. rewrite Hp in H. simpl in H.
  apply Bool.eqb_prop in H. rewrite H. apply Ascii.eqb_eq.
Qed.

Lemma to_lower_dot (c : ascii) : Spec.to_lower c = "."%char <-> c = "."%char.
Proof.
  pose (check := fun c =>
    Bool.eqb (Ascii.eqb (Spec.to_lower c) ".") (Ascii.eqb c ".")).
  assert (Hall : forallb check all_ascii = true) by (vm_compute; reflexivity).
  pose proof (forall_ascii _ Hall c) as H. unfold check in H.
  apply Bool.eqb_prop in H. rewrite <- !Ascii.eqb_eq. rewrite H. reflexivity.
Qed.

Lemma equal_ci_lower (pat : string) :
  lower_letters pat = true ->
  forall s, Re.equal_ci pat s = true <-> Spec.lower s = pat.
Proof.
  unfold lower_letters.
  induction pat as [|p pat IH]; intros Hpat s.
  - destruct s; simpl; split; congruence.
  - simpl in Hpat. apply andb_prop in Hpat as [Hp Hpat].
    destruct s as [|c s]; simpl.
    + split; congruence.
    + rewrite andb_true_iff, (char_eq_ci_lower p c Hp), (IH Hpat s).
      split; [intros [-> ->]; reflexivity | intros [= -> ->]; auto].
Qed.

(** *** The extension pattern *)

Lemma ext_here_spec (s : string) :
  Re.ext_here s = true <->
  Spec.lower s = ".txt" \/ Spec.lower s = ".csv" \/ Spec.lower s = ".json".
Proof.
  destruct s as [|c rest]; unfold Re.ext_here; cbn [Spec.lower].
  - split; [congruence | intros [H|[H|H]]; discriminate H].
  - rewrite andb_true_iff, !orb_true_iff, Ascii.eqb_eq.
    rewrite !equal_ci_lower by reflexivity.
    split.
    + intros [-> [[H|H]|H]]; rewrite H; auto.
    + intros [H|[H|H]]; injection H as Hc Hr;
        apply (proj1 (to_lower_dot c)) in Hc; auto.
Qed.

Lemma append_empty (s : string) : EmptyString ++ s = s.
Proof. reflexivity. Qed.

Lemma append_String (c : ascii) (s t : string) :
  String c s ++ t = String c (s ++ t).
Proof. reflexivity. Qed.

Lemma ext_match_spec (s : string) :
  Re.ext_match s = true <->
  exists stem suffix, s = stem ++ suffix /\ Re.ext_here suffix = true.
Proof.
  induction s as [|c s IH].
  - simpl. split; [congruence|].
    intros (stem & suffix & Heq & H).
    destruct stem; [rewrite append_empty in Heq | discriminate Heq].
    subst suffix. discriminate H.
  - change (Re.ext_match (String c s))
      with (Re.ext_here (String c s) || Re.ext_match s).
    rewrite orb_true_iff, IH. split.
    + intros [H | (stem & suffix & -> & H)].
      * exists EmptyString, (String c s). auto.
      * exists (String c stem), suffix. auto.
    + intros (stem & suffix & Heq & H).
      destruct stem as [|c' stem].
      * rewrite append_empty in Heq. subst suffix. auto.
      * rewrite append_String in Heq. injection Heq as -> ->. right. eauto.
Qed.

Lemma ext_match_allowed (name : string) :
  Re.ext_match name = true <-> Spec.allowed_extension name.
Proof.
  rewrite ext_match_spec. unfold Spec.allowed_extension, Spec.ends_with_ci.
  split.
  - intros (stem & suffix & Heq & H). apply ext_here_spec in H.
    destruct H as [H|[H|H]]; [left | right; left | right; right]; eauto.
  - intros [H|[H|H]]; destruct H as (stem & suffix & Heq & H);
      exists stem, suffix; rewrite ext_here_spec; auto.
Qed.

(** *** [validateFile] *)

Lemma includes_allowed (t : string) :
  includes allowedTypes t = true <-> Spec.allowed_mime t.
Proof.
  unfold includes, allowedTypes, Spec.allowed_mime. simpl.
  rewrite !orb_true_iff, !String.eqb_eq. intuition congruence.
Qed.

Lemma maxSize_MiB : maxSize = 16 * Spec.MiB.
Proof. reflexivity. Qed.

(** What [validateFile] returns and shows, case by case. *)
Lemma validateFile_cases (file : File) (s : State) :
  let type_ok := includes allowedTypes (type file) || Re.ext_match (name file) in
  validateFile file s =
    if negb type_ok then (inr false, set_toasts (toasts s ++ [warning msg_invalid_type]) s)
    else if size file >? maxSize
    then (inr false, set_toasts (toasts s ++ [warning msg_too_large]) s)
    else (inr true, s).
Proof.
  unfold validateFile. cbv zeta.
  destruct (includes allowedTypes (type file)), (Re.ext_match (name file));
    cbn [negb andb orb]; try reflexivity;
    destruct (size file >? maxSize); reflexivity.
Qed.

Example csv_accepted :
  validateFile statement_csv page0 = (inr true, page0).
Proof. reflexivity. Qed.

Example upper_case_extension_accepted :
  result (validateFile {| name := "EXPORT.TXT"; type := ""; size := 10 |}) page0
  = inr true.
Proof. reflexivity. Qed.

Example pdf_rejected :
  validateFile {| name := "report.pdf"; type := "application/pdf"; size := 10 |} page0
  = (inr false, set_toasts [warning msg_invalid_type] page0).
Proof. reflexivity. Qed.

Example large_csv_rejected :
  validateFile {| name := "all.csv"; type := "text/csv"; size := 16 * 1024 * 1024 + 1 |} page0
  = (inr false, set_toasts [warning msg_too_large] page0).
Proof. reflexivity. Qed.

Example exactly_16_MiB_accepted :
  result (validateFile {| name := "all.csv"; type := "text/csv"; size := 16 * 1024 * 1024 |}) page0
  = inr true.
Proof. reflexivity. Qed.

Lemma type_ok_spec (file : File) :
  includes allowedTypes (type file) || Re.ext_match (name file) = true
  <-> Spec.allowed_mime (type file) \/ Spec.allowed_extension (name file).
Proof.
  rewrite <- includes_allowed, <- ext_match_allowed, orb_true_iff. reflexivity.
Qed.

(** C6: [validateFile] accepts a file exactly when its MIME type is one of
    text/plain, text/csv, application/json or its name ends in .txt, .csv
    or .json ignoring case, and its size is at most 16 MiB; every other file
    is rejected and one warning notification is shown. *)
Theorem validateFile_accepts_iff (file : File) (s : State) :
  (result (validateFile file) s = inr true <-> Spec.acceptable file)
  /\ (~ Spec.acceptable file ->
      result (validateFile file) s = inr false
      /\ exists msg,
           toasts (exec (validateFile file) s) = (toasts s ++ [warning msg])%list).
Proof.
  unfold result, exec, Spec.acceptable. rewrite validateFile_cases. cbv zeta.
  rewrite <- type_ok_spec, <- maxSize_MiB.
  destruct (includes _ _ || Re.ext_match _) eqn:Htype; simpl.
  - destruct (size file >? maxSize) eqn:Hsize; simpl.
    + apply Z.gtb_lt in Hsize. split.
      * split; [discriminate | lia].
      * intros _. eauto.
    + rewrite Z.gtb_ltb in Hsize. apply Z.ltb_ge in Hsize. split.
      * tauto.
      * intros H. exfalso. apply H. auto.
  - split.
    + split; [discriminate | intros [H _]; discriminate H].
    + intros _. eauto.
Qed.

(** C7: a file whose type or extension is allowed and whose size exceeds
    16 MiB is rejected with the size message; a file whose type and
    extension are both disallowed is rejected with the type message, whatever
    its size; a rejected attempt shows exactly one of the two messages and an
    accepted one shows none. *)
Theorem validateFile_one_reason (file : File) (s : State) :
  let r := result (validateFile file) s in
  let shown := toasts (exec (validateFile file) s) in
  (Spec.allowed_mime (type file) \/ Spec.allowed_extension (name file) ->
   size file > 16 * Spec.MiB ->
   r = inr false /\ shown = (toasts s ++ [warning msg_too_large])%list)
  /\ (~ (Spec.allowed_mime (type file) \/ Spec.allowed_extension (name file)) ->
      r = inr false /\ shown = (toasts s ++ [warning msg_invalid_type])%list)
  /\ (r = inr false ->
      shown = (toasts s ++ [warning msg_invalid_type])%list
      \/ shown = (toasts s ++ [warning msg_too_large])%list)
  /\ (r = inr true -> shown = toasts s).
Proof.
  unfold result, exec. rewrite validateFile_cases. cbv zeta.
  rewrite <- type_ok_spec, <- maxSize_MiB.
  destruct (includes _ _ || Re.ext_match _) eqn:Htype; simpl.
  - destruct (size file >? maxSize) eqn:Hsize; simpl.
    + intuition (discriminate || auto).
    + rewrite Z.gtb_ltb in Hsize. apply Z.ltb_ge in Hsize.
      intuition (discriminate || lia || auto).
  - intuition (discriminate || auto).
Qed.

(** ** Frame properties

    Which parts of the state a handler leaves alone. *)

Section Frame.
Context {B : Type} (proj : State -> B).

Lemma keeps_ret {A} (a : A) : keeps proj (ret a).
Proof. intros s. reflexivity. Qed.

Lemma keeps_throw {A} (e : JS.error) : keeps proj (@throw A e).
Proof. intros s. reflexivity. Qed.

Lemma keeps_gets {A} (f : State -> A) : keeps proj (gets f).
Proof. intros s. reflexivity. Qed.

Lemma keeps_lift {A} (r : JS.error + A) : keeps proj (lift r).
Proof. destruct r; intros s; reflexivity. Qed.

Lemma keeps_bind {A C} (m : M A) (k : A -> M C) :
  keeps proj m -> (forall a, keeps proj (k a)) -> keeps proj (bind m k).
Proof.
  intros Hm Hk s. specialize (Hm s). unfold exec, bind in *.
  destruct (m s) as [[e|a] s1]; simpl in *; [exact Hm|].
  rewrite <- Hm. apply Hk.
Qed.

Lemma keeps_try_catch {A} (body : M A) (handler : JS.error -> M A) :
  keeps proj body -> (forall e, keeps proj (handler e)) ->
  keeps proj (try_catch body handler).
Proof.
  intros Hb Hh s. specialize (Hb s). unfold exec, try_catch in *.
  destruct (body s) as [[e|a] s1]; simpl in *; [|exact Hb].
  rewrite <- Hb. apply Hh.
Qed.

Lemma keeps_modify (f : State -> State) :
  (forall s, proj (f s) = proj s) -> keeps proj (modify f).
Proof. intros H s. apply H. Qed.

Lemma keeps_if {A} (b : bool) (m1 m2 : M A) :
  keeps proj m1 -> keeps proj m2 -> keeps proj (if b then m1 else m2).
Proof. destruct b; auto. Qed.

(** Handlers that write the page only. *)
Hypothesis proj_dom : forall d s, proj (set_dom d s) = proj s.

Lemma keeps_getElementById (id : string) : keeps proj (getElementById id).
Proof. apply keeps_gets. Qed.

Lemma keeps_update (id : string) (f : Element -> Element) :
  keeps proj (update id f).
Proof. apply keeps_modify. intros s. apply proj_dom. Qed.

Lemma keeps_update_unchecked (id : string) (f : Element -> Element) :
  keeps proj (update_unchecked id f).
Proof.
  apply keeps_bind; [apply keeps_getElementById|].
  intros [e|]; [apply keeps_update | apply keeps_throw].
Qed.

Lemma keeps_update_if_present (id : string) (f : Element -> Element) :
  keeps proj (update_if_present id f).
Proof.
  apply keeps_bind; [apply keeps_getElementById|].
  intros [e|]; [apply keeps_update | apply keeps_ret].
Qed.

Lemma keeps_showFilePreview fmt (file : File) :
  keeps proj (showFilePreview fmt file).
Proof.
  unfold showFilePreview.
  repeat (apply keeps_bind; [apply keeps_getElementById | intros ?]).
  repeat match goal with
         | |- context [match ?x with Some _ => _ | None => _ end] => destruct x
         end;
    repeat (apply keeps_bind; [apply keeps_update | intros ?]);
    auto using keeps_update, keeps_ret.
Qed.

Lemma keeps_hideProcessingState : keeps proj hideProcessingState.
Proof. apply keeps_update_unchecked. Qed.

Lemma keeps_showUploadForm : keeps proj showUploadForm.
Proof. apply keeps_update_unchecked. Qed.

Lemma keeps_message_match (v : JS.value) : keeps proj (message_match v).
Proof. destruct v; first [apply keeps_ret | apply keeps_throw]. Qed.

Lemma keeps_showResults (data : JS.value) : keeps proj (showResults data).
Proof.
  unfold showResults.
  apply keeps_bind; [apply keeps_getElementById | intros [e|]]; [|apply keeps_ret].
  apply keeps_bind; [apply keeps_lift | intros success].
  apply keeps_bind; [apply keeps_message_match | intros processedMatch].
  apply keeps_bind; [|intros _; apply keeps_update].
  cbn [fold_right].
  repeat (apply keeps_bind; [apply keeps_update_if_present | intros _]).
  apply keeps_ret.
Qed.

End Frame.

(** ** Running handlers *)

Lemma exec_bind {A B} (m : M A) (k : A -> M B) (s : State) :
  exec (bind m k) s =
  match m s with
  | (inr a, s') => exec (k a) s'
  | (inl _, s') => s'
  end.
Proof. unfold exec, bind. destruct (m s) as [[e|a] s']; reflexivity. Qed.

Lemma bind_run {A B} (m : M A) (k : A -> M B) (s s' : State) (a : A) :
  m s = (inr a, s') -> bind m k s = k a s'.
Proof. intros H. unfold bind. rewrite H. reflexivity. Qed.

Lemma bind_throw {A B} (m : M A) (k : A -> M B) (s s' : State) (e : JS.error) :
  m s = (inl e, s') -> bind m k s = (inl e, s').
Proof. intros H. unfold bind. rewrite H. reflexivity. Qed.

Lemma set_dom_same (s : State) : set_dom (dom s) s = s.
Proof. destruct s; reflexivity. Qed.

Lemma showToast_run (msg : JS.value) (type : string) (s : State) :
  JS.printable msg = true ->
  showToast msg type s
  = (inr tt, set_toasts (toasts s ++ [{| message := msg; severity := type |}]) s).
Proof. intros H. unfold showToast. rewrite H. reflexivity. Qed.

Lemma showToast_throws (msg : JS.value) (type : string) (s : State) :
  JS.printable msg = false -> showToast msg type s = (inl JS.TypeError, s).
Proof. intros H. unfold showToast. rewrite H. reflexivity. Qed.

(** A falsy value is a primitive. *)
Lemma falsy_printable (v : JS.value) : JS.truthy v = false -> JS.printable v = true.
Proof. destruct v; try reflexivity; discriminate. Qed.

Lemma update_if_present_run (id : string) (f : Element -> Element) (s : State) :
  update_if_present id f s = (inr tt, set_dom (alter f id (dom s)) s).
Proof.
  unfold update_if_present, bind, getElementById, gets, update, modify, ret.
  destruct (dom s !! id) eqn:Hid; [reflexivity|].
  rewrite alter_id' by exact Hid. rewrite set_dom_same. reflexivity.
Qed.

Lemma update_unchecked_run (id : string) (f : Element -> Element) (s : State) :
  is_Some (dom s !! id) ->
  update_unchecked id f s = (inr tt, set_dom (alter f id (dom s)) s).
Proof.
  intros [e He].
  unfold update_unchecked, bind, getElementById, gets. rewrite He. reflexivity.
Qed.

(** ** Staging and clearing a file *)

Lemma validateFile_decides (file : File) (s : State) :
  (Spec.acceptable file /\ validateFile file s = (inr true, s))
  \/ (~ Spec.acceptable file
      /\ exists msg,
           validateFile file s
           = (inr false, set_toasts (toasts s ++ [warning msg]) s)).
Proof.
  rewrite validateFile_cases. cbv zeta. unfold Spec.acceptable.
  rewrite <- type_ok_spec, <- maxSize_MiB.
  destruct (includes _ _ || Re.ext_match _) eqn:Htype; simpl.
  - destruct (size file >? maxSize) eqn:Hsize.
    + apply Z.gtb_lt in Hsize. right. split; [lia | eauto].
    + rewrite Z.gtb_ltb in Hsize. apply Z.ltb_ge in Hsize. left. auto.
  - right. split; [intros [H _]; discriminate H | eauto].
Qed.

(** C8: the controller holds the staged file in the one slot
    [currentFile]: selecting a file that fails validation leaves the slot as
    it was, and selecting an acceptable file puts that file in the slot, in
    place of whatever was there. *)
Theorem handleFile_staged (formatFileSize : Z -> string) (file : File) (s : State) :
  (~ Spec.acceptable file ->
   currentFile (exec (handleFile formatFileSize file) s) = currentFile s)
  /\ (Spec.acceptable file ->
      currentFile (exec (handleFile formatFileSize file) s) = Some file).
Proof.
  unfold handleFile. rewrite exec_bind.
  destruct (validateFile_decides file s) as [[Hok Hv] | [Hbad [msg Hv]]];
    rewrite Hv; cbn [negb]; split; intros H; try contradiction.
  - rewrite exec_bind. cbn [modify].
    rewrite (keeps_bind currentFile); [reflexivity | |].
    + apply keeps_showFilePreview. reflexivity.
    + intros _. apply keeps_update_unchecked. reflexivity.
  - reflexivity.
Qed.

Example invalid_file_keeps_staged :
  currentFile
    (exec (handleFile no_format
             {| name := "report.pdf"; type := "application/pdf"; size := 10 |})
          file_staged)
  = Some statement_csv.
Proof. reflexivity. Qed.

Example valid_file_replaces_staged :
  currentFile
    (exec (handleFile no_format {| name := "may.json"; type := ""; size := 10 |})
          file_staged)
  = Some {| name := "may.json"; type := ""; size := 10 |}.
Proof. reflexivity. Qed.

(** C9, counterexample: after a completed upload the result panel is
    shown, and [clearFile] leaves it shown. *)
Lemma clearFile_results_still_shown : ~ reset_as_specified after_upload.
Proof.
  intros (_ & _ & Hres & _).
  specialize (Hres (with_textContent (JS.Str "") (with_display "block" element0))).
  assert (Hlook : dom (exec clearFile after_upload) !! "processingResults"
                  = Some (with_textContent (JS.Str "") (with_display "block" element0)))
    by (vm_compute; reflexivity).
  specialize (Hres Hlook). discriminate Hres.
Qed.

Lemma clearFile_run (s : State) :
  clearFile s =
  (inr tt,
   set_currentFile None
     (set_dom
        (alter (with_disabled true) "submitBtn"
           (alter (with_display "none") "filePreview"
              (alter (with_value "") "fileInput" (dom s)))) s)).
Proof.
  unfold clearFile.
  repeat (erewrite bind_run by apply update_if_present_run).
  reflexivity.
Qed.

(** C9, as the code has it: [clearFile] always returns; after it no file
    is staged, the file input is empty, the file-preview panel is hidden and
    the submit control is disabled (each where the element exists), and the
    result panel is as it was before the call. *)
Theorem clearFile_clears (s : State) :
  let s' := exec clearFile s in
  result clearFile s = inr tt
  /\ currentFile s' = None
  /\ hidden "filePreview" s'
  /\ submit_disabled s'
  /\ (forall e, dom s' !! "fileInput" = Some e -> value e = "")
  /\ dom s' !! "processingResults" = dom s !! "processingResults".
Proof.
  unfold result, exec, hidden, submit_disabled. rewrite clearFile_run.
  cbn [fst snd currentFile set_currentFile dom set_dom].
  repeat split.
  - intros e. rewrite lookup_alter_ne by discriminate.
    rewrite lookup_alter_eq. destruct (_ !! "filePreview"); [|discriminate].
    intros [= <-]. reflexivity.
  - intros e. rewrite lookup_alter_eq. destruct (_ !! "submitBtn"); [|discriminate].
    intros [= <-]. reflexivity.
  - intros e. rewrite !(lookup_alter_ne _ _ _ "fileInput") by discriminate.
    rewrite lookup_alter_eq. destruct (_ !! "fileInput"); [|discriminate].
    intros [= <-]. reflexivity.
  - rewrite !lookup_alter_ne by discriminate. reflexivity.
Qed.

(** ** Submitting *)

Lemma append_options_run (opts : list string) (formData : FormData) (s : State) :
  append_options opts formData s
  = (inr (formData ++ omap (option_field s) opts)%list, s).
Proof.
  revert formData. induction opts as [|o opts IH]; intros formData.
  - simpl. rewrite app_nil_r. reflexivity.
  - cbn [append_options omap list_omap]. unfold option_field at 1.
    unfold bind, getElementById, gets.
    destruct (dom s !! o) as [c|]; cbn [fmap option_fmap option_map].
    + rewrite IH, <- app_assoc. reflexivity.
    + apply IH.
Qed.

Lemma showProcessingState_run (s : State) :
  is_Some (dom s !! "uploadForm") ->
  is_Some (dom s !! "processingStatus") ->
  showProcessingState s = (inr tt, processing s).
Proof.
  intros Hform Hstatus. unfold showProcessingState.
  erewrite bind_run by (apply update_unchecked_run; exact Hform).
  erewrite bind_run.
  2:{ apply update_unchecked_run. cbn [dom set_dom].
      rewrite lookup_alter_ne by discriminate. exact Hstatus. }
  unfold simulateProgress, bind, gets, processing. cbn [progressBar set_dom].
  destruct (progressBar s); reflexivity.
Qed.

Lemma handleSubmit_run (s : State) (file : File) :
  currentFile s = Some file ->
  is_Some (dom s !! "uploadForm") ->
  is_Some (dom s !! "processingStatus") ->
  handleSubmit s
  = (inr tt,
     set_requests (requests s ++ [payload s file])
                  ({[ List.length (requests s) ]} ∪ inflight s)
                  (processing s)).
Proof.
  intros Hfile Hform Hstatus. unfold handleSubmit.
  unfold bind at 1, gets. rewrite Hfile.
  erewrite bind_run by apply append_options_run.
  erewrite bind_run by (apply showProcessingState_run; assumption).
  unfold fetch_upload, modify, payload, processing.
  destruct (progressBar s); reflexivity.
Qed.

Lemma handleSubmit_no_file (s : State) :
  currentFile s = None ->
  handleSubmit s = (inr tt, set_toasts (toasts s ++ [warning msg_no_file]) s).
Proof.
  intros Hfile. unfold handleSubmit, bind, gets. rewrite Hfile. reflexivity.
Qed.

Section FrameSettled.
Context {B : Type} (proj : State -> B).
Hypothesis proj_dom : forall d s, proj (set_dom d s) = proj s.
Hypothesis proj_toasts : forall t s, proj (set_toasts t s) = proj s.

Lemma keeps_showToast (msg : JS.value) (type : string) :
  keeps proj (showToast msg type).
Proof.
  unfold showToast. apply keeps_if; [|apply keeps_throw].
  apply keeps_modify. intros s. apply proj_toasts.
Qed.

(** Settling a request writes the page and the notifications only. *)
Lemma keeps_handleSubmit_settled (o : Settlement) :
  keeps proj (handleSubmit_settled o).
Proof.
  unfold handleSubmit_settled. apply keeps_try_catch.
  - destruct o as [|status [result|]]; try apply keeps_throw.
    apply keeps_bind; [apply keeps_hideProcessingState, proj_dom | intros _].
    apply keeps_bind; [apply keeps_lift | intros error].
    apply keeps_if.
    + apply keeps_bind; [apply keeps_showToast | intros _].
      apply keeps_showUploadForm, proj_dom.
    + apply keeps_bind; [apply keeps_showResults, proj_dom | intros _].
      apply keeps_bind; [apply keeps_lift | intros success].
      apply keeps_showToast.
  - intros _.
    apply keeps_bind; [apply keeps_hideProcessingState, proj_dom | intros _].
    apply keeps_bind; [apply keeps_showUploadForm, proj_dom | intros _].
    apply keeps_showToast.
Qed.

Hypothesis proj_currentFile : forall f s, proj (set_currentFile f s) = proj s.

Lemma keeps_handleFile fmt (file : File) : keeps proj (handleFile fmt file).
Proof.
  unfold handleFile. apply keeps_bind.
  - unfold validateFile.
    repeat apply keeps_if;
      first [ apply keeps_ret
            | apply keeps_bind;
              [apply keeps_showToast | intros _; apply keeps_ret] ].
  - intros ok. apply keeps_if; [apply keeps_ret|].
    apply keeps_bind; [apply keeps_modify, proj_currentFile | intros _].
    apply keeps_bind; [apply keeps_showFilePreview, proj_dom | intros _].
    apply keeps_update_unchecked, proj_dom.
Qed.

End FrameSettled.

(** Handlers that do not write the element [id0]. *)
Section FrameElement.
Variable id0 : string.

Lemma keeps_update_other (id : string) (f : Element -> Element) :
  id <> id0 -> keeps (element_of id0) (update id f).
Proof.
  intros Hne s. unfold element_of, exec, update, modify. cbn [snd dom set_dom].
  apply lookup_alter_ne, Hne.
Qed.

Lemma keeps_update_unchecked_other (id : string) (f : Element -> Element) :
  id <> id0 -> keeps (element_of id0) (update_unchecked id f).
Proof.
  intros Hne. apply keeps_bind; [apply keeps_gets|].
  intros [e|]; [apply keeps_update_other, Hne | apply keeps_throw].
Qed.

Lemma keeps_handleFile_other fmt (file : File) :
  id0 <> "fileName" -> id0 <> "fileSize" -> id0 <> "filePreview" ->
  id0 <> "submitBtn" ->
  keeps (element_of id0) (handleFile fmt file).
Proof.
  intros Hn Hs Hp Hb. unfold handleFile. apply keeps_bind.
  - unfold validateFile.
    repeat apply keeps_if;
      first [ apply keeps_ret
            | apply keeps_bind;
              [apply keeps_modify; reflexivity | intros _; apply keeps_ret] ].
  - intros ok. apply keeps_if; [apply keeps_ret|].
    apply keeps_bind; [apply keeps_modify; reflexivity | intros _].
    apply keeps_bind; [|intros _; apply keeps_update_unchecked_other; congruence].
    unfold showFilePreview.
    repeat (apply keeps_bind; [apply keeps_gets | intros ?]).
    repeat match goal with
           | |- context [match ?x with Some _ => _ | None => _ end] => destruct x
           end;
      repeat (apply keeps_bind; [apply keeps_update_other; congruence | intros ?]);
      first [apply keeps_update_other; congruence | apply keeps_ret].
Qed.

End FrameElement.

(** C1, counterexample: with request 0 in flight, a second call of
    [handleSubmit] sends a second request. *)
Lemma second_submit_fires : ~ submit_ignored_while_submitting awaiting_response.
Proof.
  intros H.
  assert (Hsub : submitting awaiting_response).
  { unfold submitting. intros Hempty.
    assert (Hin : 0%nat ∈ inflight awaiting_response) by (vm_compute; reflexivity).
    rewrite Hempty in Hin. exact (not_elem_of_empty _ Hin). }
  apply H in Hsub. apply (f_equal (fun s => List.length (requests s))) in Hsub.
  vm_compute in Hsub. discriminate Hsub.
Qed.

(** *** Submits from a displayed form

    [handleSubmit] hides the upload form before the request leaves, and
    the form is shown again only by the failed path of the settlement. When
    submit events come only from a displayed form, requests do not
    overlap. *)

Lemma update_unchecked_missing (id : string) (f : Element -> Element) (s : State) :
  dom s !! id = None -> update_unchecked id f s = (inl JS.TypeError, s).
Proof.
  intros He.
  unfold update_unchecked, bind, getElementById, gets. rewrite He. reflexivity.
Qed.

Lemma showProcessingState_throws (s : State) :
  dom s !! "uploadForm" = None \/ dom s !! "processingStatus" = None ->
  exists s', showProcessingState s = (inl JS.TypeError, s')
             /\ inflight s' = inflight s.
Proof.
  intros Hmissing. unfold showProcessingState.
  destruct (dom s !! "uploadForm") as [form|] eqn:Hform.
  - destruct Hmissing as [H|Hstatus]; [discriminate H|].
    erewrite bind_run by (apply update_unchecked_run; eauto).
    erewrite bind_throw.
    2:{ apply update_unchecked_missing. cbn [dom set_dom].
        rewrite lookup_alter_ne by discriminate. exact Hstatus. }
    eauto.
  - erewrite bind_throw by (apply update_unchecked_missing; exact Hform). eauto.
Qed.

Lemma handleSubmit_inflight (s : State) :
  inflight (exec handleSubmit s) = inflight s
  \/ (exists file, currentFile s = Some file)
      /\ is_Some (dom s !! "uploadForm") /\ is_Some (dom s !! "processingStatus").
Proof.
  destruct (currentFile s) as [file|] eqn:Hfile.
  - destruct (dom s !! "uploadForm") as [form|] eqn:Hform;
      [destruct (dom s !! "processingStatus") as [status|] eqn:Hstatus|];
      [right; eauto | |].
    all: left; unfold exec, handleSubmit, bind at 1, gets; rewrite Hfile;
      erewrite bind_run by apply append_options_run;
      destruct (showProcessingState_throws s) as (s' & Hthrow & Hsame); [auto|];
      erewrite bind_throw by exact Hthrow; exact Hsame.
  - left. unfold exec. rewrite handleSubmit_no_file by exact Hfile. reflexivity.
Qed.

Lemma step_one_in_flight fmt (s : State) (ev : Event) :
  one_in_flight s -> from_visible_form s ev -> one_in_flight (step fmt s ev).
Proof.
  intros Hone Hvisible. destruct ev as [file| |id r|i o|]; cbn [step].
  - pose proof (keeps_handleFile inflight ltac:(reflexivity) ltac:(reflexivity)
                  ltac:(reflexivity) fmt file s) as Hin.
    pose proof (keeps_handleFile_other "uploadForm" fmt file ltac:(discriminate)
                  ltac:(discriminate) ltac:(discriminate) ltac:(discriminate) s)
      as Hform.
    unfold element_of in Hform.
    unfold one_in_flight, form_hidden in *. rewrite Hin, Hform. exact Hone.
  - assert (Hnone : inflight s = ∅).
    { destruct Hone as [H | [Hhidden _]]; [exact H|].
      exfalso. exact (Hvisible eq_refl Hhidden). }
    destruct (handleSubmit_inflight s) as [Hsame | ([file Hfile] & Hform & Hstatus)].
    + left. rewrite Hsame. exact Hnone.
    + right. unfold exec. rewrite (handleSubmit_run s file Hfile Hform Hstatus).
      cbn [snd]. split.
      * unfold form_hidden, processing. destruct Hform as [e He].
        destruct (progressBar s); cbn [dom set_requests set_timers set_dom];
          rewrite lookup_alter_ne by discriminate;
          rewrite lookup_alter_eq, He; reflexivity.
      * exists (List.length (requests s)). cbn [inflight set_requests].
        rewrite Hnone. apply union_empty_r_L.
  - assert (Hsame : inflight (exec (tick id r) s) = inflight s
                    /\ dom (exec (tick id r) s) = dom s).
    { unfold exec, tick, bind, gets. destruct (timers s !! id); [|auto].
      destruct (JS.geb _ JS.lit_95); auto. }
    destruct Hsame as [Hin Hdom].
    unfold one_in_flight, form_hidden in *. rewrite Hin, Hdom. exact Hone.
  - destruct (decide (i ∈ inflight s)) as [Hin|]; [|exact Hone].
    left. rewrite (keeps_handleSubmit_settled inflight) by reflexivity.
    unfold settle. cbn [inflight set_requests].
    destruct Hone as [Hnone | [_ [i' Hi']]].
    + rewrite Hnone. apply difference_disjoint_L. set_solver.
    + rewrite Hi' in *. apply elem_of_singleton in Hin. subst i'.
      apply difference_diag_L.
  - unfold one_in_flight, form_hidden, exec. rewrite clearFile_run.
    cbn [snd inflight dom set_currentFile set_dom].
    rewrite !lookup_alter_ne by discriminate. exact Hone.
Qed.

(** X5: on a page with no request in flight, whatever the user does
    through displayed controls (every submit event comes from an upload form
    that is displayed), at most one request is in flight at any time, and
    while it is the form stays hidden. *)
Lemma one_request_from_visible_form fmt (evs : list Event) (s : State) :
  one_in_flight s -> user_events fmt s evs -> one_in_flight (run fmt s evs).
Proof.
  revert s. induction evs as [|ev evs IH]; intros s Hone Hevs; [exact Hone|].
  destruct Hevs as [Hvisible Hrest]. cbn [run fold_left].
  apply IH; [apply step_one_in_flight; assumption | exact Hrest].
Qed.

Lemma one_request_from_visible_form_witness :
  one_in_flight
    (run no_format page0
       [SelectFile statement_csv; Submit; Tick 0 one_half; Settle 0 Rejected; Submit]).
Proof.
  apply (one_request_from_visible_form no_format _ page0).
  - left. reflexivity.
  - cbn [user_events]. unfold from_visible_form.
    repeat (split;
            [first [ intros H; discriminate H
                   | intros _ H; vm_compute in H; discriminate H ]|]).
    exact I.
Defined.

(** ** The progress ticker *)

(** C2, counterexample: request 0 is rejected, no request is in flight
    any more, and the interval started by the submit still fires and moves
    the progress bar. *)
Lemma ticker_runs_after_settlement :
  ~ ticker_cancelled_on_settlement awaiting_response.
Proof.
  intros H.
  assert (Hin : 0%nat ∈ inflight awaiting_response) by (vm_compute; reflexivity).
  specialize (H 0%nat Rejected Hin 0%nat one_half).
  apply (f_equal (fun s => style_width <$> progressBar s)) in H.
  vm_compute in H. discriminate H.
Qed.

Lemma tick_run (id : nat) (r : JS.number) (s : State) :
  timers (exec (tick id r) s) =
  match timers s !! id with
  | None => timers s
  | Some width =>
      let width := JS.add width (JS.mul r JS.lit_15) in
      if JS.geb width JS.lit_95
      then delete id (timers s)
      else <[id := width]> (timers s)
  end.
Proof.
  unfold exec, tick, bind, gets. cbn [fst snd].
  destruct (timers s !! id) as [width|]; [|reflexivity].
  cbv zeta. destruct (JS.geb _ JS.lit_95); reflexivity.
Qed.

Lemma keeps_live_of_keeps {A} (m : M A) : keeps timers m -> keeps_live m.
Proof. intros H s id. unfold live. rewrite H. auto. Qed.

Lemma keeps_live_bind {A B} (m : M A) (k : A -> M B) :
  keeps_live m -> (forall a, keeps_live (k a)) -> keeps_live (bind m k).
Proof.
  intros Hm Hk s id Hlive. specialize (Hm s id Hlive).
  rewrite exec_bind. unfold exec in Hm.
  destruct (m s) as [[e|a] s1]; cbn [snd] in Hm; [exact Hm|].
  apply Hk, Hm.
Qed.

Lemma keeps_timers_append_options (opts : list string) (formData : FormData) :
  keeps timers (append_options opts formData).
Proof.
  intros s. unfold exec. rewrite append_options_run. reflexivity.
Qed.

Lemma keeps_live_simulateProgress : keeps_live simulateProgress.
Proof.
  intros s id Hlive. unfold live, simulateProgress, exec, bind, gets, modify in *.
  destruct (progressBar s); cbn [fst snd timers set_timers]; [|exact Hlive].
  rewrite lookup_insert. case_decide; [eauto | exact Hlive].
Qed.

(** A submit starts an interval and clears none. *)
Lemma keeps_live_handleSubmit : keeps_live handleSubmit.
Proof.
  unfold handleSubmit.
  apply keeps_live_bind; [apply keeps_live_of_keeps, keeps_gets | intros [file|]].
  - apply keeps_live_bind;
      [apply keeps_live_of_keeps, keeps_timers_append_options | intros formData].
    apply keeps_live_bind.
    + unfold showProcessingState.
      apply keeps_live_bind;
        [apply keeps_live_of_keeps, keeps_update_unchecked; reflexivity | intros _].
      apply keeps_live_bind;
        [apply keeps_live_of_keeps, keeps_update_unchecked; reflexivity | intros _].
      apply keeps_live_simulateProgress.
    + intros _. apply keeps_live_of_keeps, keeps_modify. reflexivity.
  - apply keeps_live_of_keeps, keeps_showToast. reflexivity.
Qed.

Lemma keeps_timers_clearFile : keeps timers clearFile.
Proof. intros s. unfold exec. rewrite clearFile_run. reflexivity. Qed.

(** C2, as the code has it: the settlement of a request, by a response
    or by a failure, leaves every live interval live; an interval is cleared
    only by its own callback, on the tick that takes its width to 95 or
    more. *)
Theorem ticker_outlives_settlement
    (formatFileSize : Z -> string) (s : State) (i : nat) (o : Settlement) :
  timers (step formatFileSize s (Settle i o)) = timers s
  /\ (forall id r,
        timers (step formatFileSize s (Tick id r)) =
        match timers s !! id with
        | None => timers s
        | Some width =>
            if JS.geb (JS.add width (JS.mul r JS.lit_15)) JS.lit_95
            then delete id (timers s)
            else <[id := JS.add width (JS.mul r JS.lit_15)]> (timers s)
        end)
  /\ (forall ev id,
        live s id -> ~ live (step formatFileSize s ev) id ->
        exists r width,
          ev = Tick id r /\ timers s !! id = Some width
          /\ JS.geb (JS.add width (JS.mul r JS.lit_15)) JS.lit_95 = true).
Proof.
  assert (Hsettle : forall i o, timers (step formatFileSize s (Settle i o)) = timers s).
  { intros i' o'. cbn [step]. destruct (decide (i' ∈ inflight s)); [|reflexivity].
    rewrite (keeps_handleSubmit_settled timers); reflexivity. }
  split; [apply Hsettle|]. split; [intros id r; cbn [step]; apply tick_run|].
  intros ev id Hlive Hgone. destruct ev as [file| |id' r|i' o'|].
  - exfalso. apply Hgone. cbn [step]. unfold live.
    rewrite (keeps_handleFile timers) by reflexivity. exact Hlive.
  - exfalso. apply Hgone. cbn [step]. apply keeps_live_handleSubmit, Hlive.
  - cbn [step] in Hgone. unfold live in Hgone. rewrite tick_run in Hgone.
    destruct (timers s !! id') as [width|] eqn:Hid'; [|contradiction].
    cbv zeta in Hgone.
    destruct (JS.geb (JS.add width (JS.mul r JS.lit_15)) JS.lit_95) eqn:Hfull.
    + destruct (decide (id' = id)) as [->|Hne].
      * exists r, width. auto.
      * exfalso. apply Hgone. rewrite lookup_delete_ne by exact Hne. exact Hlive.
    + exfalso. apply Hgone. rewrite lookup_insert.
      case_decide; [eauto | exact Hlive].
  - exfalso. apply Hgone. unfold live. rewrite Hsettle. exact Hlive.
  - exfalso. apply Hgone. cbn [step]. unfold live.
    rewrite keeps_timers_clearFile. exact Hlive.
Qed.

(** ** Transport failures *)

Lemma failed_path_run (s : State) :
  is_Some (dom s !! "uploadForm") ->
  is_Some (dom s !! "processingStatus") ->
  (hideProcessingState ;; showUploadForm ;;
   showToast (JS.Str msg_upload_failed) "danger") s
  = (inr tt, failed s).
Proof.
  intros Hform Hstatus. unfold hideProcessingState, showUploadForm.
  erewrite bind_run by (apply update_unchecked_run; exact Hstatus).
  erewrite bind_run.
  2:{ apply update_unchecked_run. cbn [dom set_dom].
      rewrite lookup_alter_ne by discriminate. exact Hform. }
  reflexivity.
Qed.

(** X6: a rejected request and a response whose body is not JSON,
    whatever its status, take the failed path: the processing indicator is
    hidden, the upload form is shown again, the one notification added is
    the generic failure message with severity [danger], and nothing else of
    the state changes. *)
Lemma rejected_or_malformed_fails (s : State) (o : Settlement) :
  is_Some (dom s !! "uploadForm") ->
  is_Some (dom s !! "processingStatus") ->
  o = Rejected \/ (exists status, o = Responded status None) ->
  handleSubmit_settled o s = (inr tt, failed s).
Proof.
  intros Hform Hstatus Ho. unfold handleSubmit_settled, try_catch.
  destruct Ho as [-> | [status ->]]; cbn [throw];
    apply failed_path_run; assumption.
Qed.

Lemma rejected_or_malformed_fails_witness :
  handleSubmit_settled (Responded 502 None) awaiting_response
  = (inr tt, failed awaiting_response).
Proof.
  apply rejected_or_malformed_fails.
  - eexists. vm_compute. reflexivity.
  - eexists. vm_compute. reflexivity.
  - right. exists 502. reflexivity.
Defined.

Lemma failed_after_hide (s : State) :
  failed (set_dom (alter (with_display "none") "processingStatus" (dom s)) s)
  = failed s.
Proof.
  unfold failed. cbn [dom toasts set_dom]. rewrite alter_alter_eq.
  reflexivity.
Qed.

(** X7: a response whose body carries a truthy [error] field, whatever
    its status. When the value of [error] has a text (a string, a number, a
    boolean, an object without a [toString] of its own), the indicator is
    hidden, that value is shown in a notification of severity [danger], the
    form is back, the result panel is not touched and nothing else of the
    state changes. When it has none, [showToast] throws inside the [try]
    block and the response ends on the failed path, with the generic
    message in place of the value. *)
Lemma backend_error_shown (s : State) (status : Z) (body error : JS.value) :
  is_Some (dom s !! "uploadForm") ->
  is_Some (dom s !! "processingStatus") ->
  JS.get body "error" = inr error -> JS.truthy error = true ->
  handleSubmit_settled (Responded status (Some body)) s
  = (inr tt,
     if JS.printable error
     then set_dom (alter (with_display "block") "uploadForm"
                     (alter (with_display "none") "processingStatus" (dom s)))
            (set_toasts (toasts s ++ [{| message := error; severity := "danger" |}]) s)
     else failed s).
Proof.
  intros Hform Hstatus Hget Htruthy. unfold handleSubmit_settled, try_catch.
  unfold hideProcessingState at 1.
  erewrite bind_run by (apply update_unchecked_run; exact Hstatus).
  rewrite Hget. unfold bind at 1. cbn [lift ret]. rewrite Htruthy.
  unfold bind at 1, showToast at 1.
  destruct (JS.printable error); unfold modify, throw.
  - unfold showUploadForm. rewrite update_unchecked_run; [reflexivity|].
    cbn [dom set_dom set_toasts]. rewrite lookup_alter_ne by discriminate.
    exact Hform.
  - rewrite failed_path_run, failed_after_hide; [reflexivity| |];
      cbn [dom set_dom]; rewrite ?lookup_alter_ne by discriminate;
      [exact Hform|].
    destruct Hstatus as [e He]. rewrite lookup_alter_eq, He. eauto.
Qed.

Lemma backend_error_shown_witness :
  handleSubmit_settled (Responded 200 (Some bad_format)) awaiting_response
  = (inr tt,
     set_dom (alter (with_display "block") "uploadForm"
                (alter (with_display "none") "processingStatus"
                   (dom awaiting_response)))
       (set_toasts (toasts awaiting_response ++ [danger (JS.Str "bad format")])
                   awaiting_response))
  /\ handleSubmit_settled (Responded 400 (Some error_without_text)) awaiting_response
     = (inr tt, failed awaiting_response).
Proof.
  split.
  - apply (backend_error_shown awaiting_response 200 bad_format (JS.Str "bad format")).
    + eexists. vm_compute. reflexivity.
    + eexists. vm_compute. reflexivity.
    + reflexivity.
    + reflexivity.
  - apply (backend_error_shown awaiting_response 400 error_without_text
             (JS.Obj [("toString", JS.Num (JS.of_Z 0))])).
    + eexists. vm_compute. reflexivity.
    + eexists. vm_compute. reflexivity.
    + reflexivity.
    + reflexivity.
Defined.

(** C3, the failing input: a 500 response whose body is JSON without
    an [error] field. [handleSubmit] never reads the status: it renders the
    result panel, leaves the upload form hidden and shows a notification of
    severity [success]; the failed path is not taken. [apiRequest], on the
    same response, throws. *)
Theorem server_error_shown_as_success :
  let s := step no_format awaiting_response
             (Settle 0 (Responded 500 (Some server_error_body))) in
  toasts s = [{| message := JS.Undefined; severity := "success" |}]
  /\ display <$> dom s !! "processingResults" = Some "block"
  /\ display <$> dom s !! "uploadForm" = Some "none"
  /\ s <> failed (settle 0 awaiting_response)
  /\ apiRequest_settled (Responded 500 (Some server_error_body)) page0
     = (inl (JS.HttpError 500),
        set_toasts [{| message := JS.Str msg_request_failed; severity := "danger" |}]
                   page0).
Proof.
  cbv zeta. repeat split; try (vm_compute; reflexivity).
  intros H. apply (f_equal toasts) in H. vm_compute in H. discriminate H.
Qed.

(** ** The multipart body *)

(** C4, counterexample: on a page with the four option boxes the body
    has a field [autoCategories] and none called [autoCategorize]. *)
Lemma payload_option_names_differ :
  requests (exec handleSubmit file_staged) = [sent_for_statement]
  /\ ~ payload_as_specified statement_csv sent_for_statement.
Proof.
  split; [vm_compute; reflexivity|].
  intros (_ & Hperm & _).
  assert (Hin : In "autoCategorize" ("file" :: Spec.specified_option_names))
    by (simpl; auto).
  apply (Permutation_in _ (Permutation_sym Hperm)) in Hin.
  simpl in Hin. intuition discriminate.
Qed.

(** C4, as the code has it: the body holds the staged file under
    [file], followed, for each of the names [autoCategories],
    [skipDuplicates], [extractDates], [detectMerchants] in this order, by one
    field of that name holding [true] or [false], the checked state of the
    box with that id; a name whose box is not on the page gets no field. *)
Theorem handleSubmit_payload (s : State) (file : File) :
  currentFile s = Some file ->
  is_Some (dom s !! "uploadForm") ->
  is_Some (dom s !! "processingStatus") ->
  requests (exec handleSubmit s)
  = (requests s ++
     [("file", FormFile file) ::
      omap (fun o =>
              (fun box => (o, FormText (if checked box then "true" else "false")))
                <$> dom s !! o)
           ["autoCategories"; "skipDuplicates"; "extractDates"; "detectMerchants"]])%list.
Proof.
  intros Hfile Hform Hstatus. unfold exec.
  rewrite (handleSubmit_run s file Hfile Hform Hstatus). reflexivity.
Qed.

Lemma handleSubmit_payload_witness :
  requests (exec handleSubmit file_staged)
  = (requests file_staged ++
     [("file", FormFile statement_csv) ::
      omap (fun o =>
              (fun box => (o, FormText (if checked box then "true" else "false")))
                <$> dom file_staged !! o)
           ["autoCategories"; "skipDuplicates"; "extractDates"; "detectMerchants"]])%list.
Proof.
  apply (handleSubmit_payload file_staged statement_csv).
  - vm_compute. reflexivity.
  - eexists. vm_compute. reflexivity.
  - eexists. vm_compute. reflexivity.
Defined.

(** ** The result summary *)

Lemma render_run (els : list (string * JS.value)) (s : State) :
  fold_right
    (fun '(id, v) rest => update_if_present id (with_textContent v) ;; rest)
    (ret tt) els s
  = (inr tt, set_dom (render els (dom s)) s).
Proof.
  revert s. induction els as [|[id v] els IH]; intros s.
  - cbn [fold_right render fold_left]. rewrite set_dom_same. reflexivity.
  - cbn [fold_right]. erewrite bind_run by apply update_if_present_run.
    rewrite IH. reflexivity.
Qed.

Lemma showResults_run (data success : JS.value) (m : string) (s : State) :
  is_Some (dom s !! "processingResults") ->
  JS.get data "success" = inr success ->
  JS.or success (JS.Str "") = JS.Str m ->
  showResults data s
  = (inr tt,
     set_dom (alter (with_display "block") "processingResults"
                (render (elements (processed_count m)) (dom s))) s).
Proof.
  intros [e He] Hget Hor. unfold showResults.
  unfold bind at 1, getElementById, gets. rewrite He, Hget.
  unfold bind at 1. cbn [lift ret]. rewrite Hor.
  unfold bind at 1. cbn [message_match ret].
  fold (processed_count m). fold (elements (processed_count m)).
  erewrite bind_run by apply render_run.
  reflexivity.
Qed.

Lemma text_of_rendered (m : string) (s s' : State) (id : string) (v : JS.value) :
  dom s' = alter (with_display "block") "processingResults"
             (render (elements (processed_count m)) (dom s)) ->
  In (id, v) (elements (processed_count m)) ->
  is_Some (dom s !! id) ->
  text_of s' id = Some v.
Proof.
  intros Hdom Hin [e He]. unfold text_of. rewrite Hdom.
  unfold render, elements in *. cbn [fold_left].
  cbn [In] in Hin.
  destruct Hin as [H|[H|[H|[H|[]]]]]; injection H as <- <-;
    rewrite ?lookup_alter_ne by discriminate;
    rewrite lookup_alter_eq;
    rewrite ?lookup_alter_ne by discriminate;
    rewrite He; reflexivity.
Qed.

Lemma display_of_rendered (els : list (string * JS.value)) (s s' : State) :
  dom s' = alter (with_display "block") "processingResults" (render els (dom s)) ->
  is_Some (dom s !! "processingResults") ->
  display <$> dom s' !! "processingResults" = Some "block".
Proof.
  intros Hdom Hsome. rewrite Hdom, lookup_alter_eq.
  assert (H : is_Some (render els (dom s) !! "processingResults")).
  { clear Hdom. unfold render. revert Hsome. generalize (dom s).
    induction els as [|[id v] els IH]; intros d Hd; [exact Hd|].
    cbn [fold_left]. apply IH. apply lookup_alter_is_Some. exact Hd. }
  destruct H as [e ->]. reflexivity.
Qed.

(** *** The count pattern *)

Lemma prefix_spec (a s : string) :
  String.prefix a s = true <-> exists b, s = a ++ b.
Proof.
  revert s. induction a as [|c a IH]; intros s.
  - split; [intros _; exists s; reflexivity | intros _; destruct s; reflexivity].
  - destruct s as [|c' s]; cbn [String.prefix].
    + split; [discriminate | intros [b Hb]; discriminate Hb].
    + destruct (ascii_dec c c') as [<-|Hne].
      * rewrite IH. split; intros [b Hb]; exists b.
        -- rewrite append_String, Hb. reflexivity.
        -- rewrite append_String in Hb. injection Hb as ->. reflexivity.
      * split; [discriminate|]. intros [b Hb].
        rewrite append_String in Hb. injection Hb as <- _. contradiction.
Qed.

Lemma all_digits_String (c : ascii) (ds : string) :
  Re.all_digits (String c ds) = Re.is_digit c && Re.all_digits ds.
Proof. reflexivity. Qed.

Lemma count_here_sound (s ds : string) :
  Re.count_here s = Some ds ->
  ds <> "" /\ Re.all_digits ds = true
  /\ exists post, s = ds ++ " transactions" ++ post.
Proof.
  revert ds. induction s as [|c s IH]; intros ds; cbn [Re.count_here]; [discriminate|].
  destruct (Re.is_digit c) eqn:Hc; [|discriminate].
  destruct (Re.count_here s) as [ds'|] eqn:Hs.
  - intros [= <-]. destruct (IH ds' eq_refl) as (_ & Hds & post & ->).
    rewrite all_digits_String, Hc, Hds. repeat split; [discriminate|].
    exists post. rewrite append_String. reflexivity.
  - destruct (String.prefix Re.lit_transactions s) eqn:Hp; [|discriminate].
    intros [= <-]. apply prefix_spec in Hp as [post ->].
    rewrite all_digits_String, Hc. repeat split; [discriminate|].
    exists post. reflexivity.
Qed.

Lemma count_here_complete (ds post : string) :
  ds <> "" -> Re.all_digits ds = true ->
  Re.count_here (ds ++ " transactions" ++ post) = Some ds.
Proof.
  induction ds as [|c ds IH]; intros Hne Hds; [contradiction|].
  rewrite all_digits_String in Hds. apply andb_prop in Hds as [Hc Hds].
  rewrite append_String. cbn [Re.count_here]. rewrite Hc.
  destruct ds as [|c' ds].
  - rewrite append_empty.
    replace (Re.count_here (" transactions" ++ post)) with (@None string)
      by reflexivity.
    replace (String.prefix Re.lit_transactions (" transactions" ++ post)) with true.
    + reflexivity.
    + symmetry. apply prefix_spec. exists post. reflexivity.
  - rewrite IH by (discriminate || assumption). reflexivity.
Qed.

Lemma count_match_sound (s ds : string) :
  Re.count_match s = Some ds ->
  exists pre suffix, s = pre ++ suffix /\ Re.count_here suffix = Some ds.
Proof.
  induction s as [|c s IH]; cbn [Re.count_match].
  - cbn [Re.count_here]. discriminate.
  - destruct (Re.count_here (String c s)) as [ds'|] eqn:Hhere.
    + intros [= <-]. exists "", (String c s). auto.
    + intros H. destruct (IH H) as (pre & suffix & -> & Hs).
      exists (String c pre), suffix. auto.
Qed.

Lemma count_match_complete (pre suffix : string) :
  is_Some (Re.count_here suffix) -> is_Some (Re.count_match (pre ++ suffix)).
Proof.
  intros [ds Hds]. induction pre as [|c pre IH].
  - rewrite append_empty. destruct suffix; cbn [Re.count_match]; rewrite Hds; eauto.
  - rewrite append_String. cbn [Re.count_match].
    destruct (Re.count_here (String c (pre ++ suffix))); eauto.
Qed.

(** The regular expression matches exactly the messages that contain a
    count. *)
Lemma count_match_contains (m : string) :
  is_Some (Re.count_match m) <-> Spec.contains_count m.
Proof.
  split.
  - intros [ds Hds]. apply count_match_sound in Hds as (pre & suffix & -> & Hs).
    apply count_here_sound in Hs as (Hne & Hdigits & post & ->).
    exists pre, ds, post. auto.
  - intros (pre & ds & post & -> & Hne & Hdigits).
    apply count_match_complete. rewrite count_here_complete by assumption. eauto.
Qed.

(** A message that opens with its count, as the backend writes it. *)
Lemma count_match_leading (digits post : string) :
  digits <> "" -> Re.all_digits digits = true ->
  Re.count_match (digits ++ " transactions" ++ post) = Some digits.
Proof.
  intros Hne Hds.
  pose proof (count_here_complete digits post Hne Hds) as Hhere.
  destruct (digits ++ " transactions" ++ post); cbn [Re.count_match];
    rewrite Hhere; reflexivity.
Qed.

Lemma processed_count_none (m : string) :
  ~ Spec.contains_count m -> processed_count m = "0".
Proof.
  intros H. unfold processed_count.
  destruct (Re.count_match m) as [ds|] eqn:Hm; [|reflexivity].
  exfalso. apply H, count_match_contains. eauto.
Qed.

(** ** Binary64 rounding

    [Math.floor(N * c)] for an integer [N] and a constant [c] with a 53-bit
    mantissa, traced through [SFmul]: the exact product is shifted right to
    53 bits, rounded to nearest with ties to even, and renormalized. *)

Lemma mul_bounds (a b lo hi : Z) :
  0 <= lo -> lo <= a < hi -> lo <= b < hi -> lo * lo <= a * b < hi * hi.
Proof.
  intros Hlo Ha Hb. split.
  - apply Z.mul_le_mono_nonneg; lia.
  - apply Z.mul_lt_mono_nonneg; lia.
Qed.

Lemma scaled_range (r X S : Z) : 0 < S -> 0 <= r * S < X * S -> 0 <= r < X.
Proof.
  intros HS [H1 H2]. split.
  - apply (Z.mul_le_mono_pos_r _ _ S HS). simpl. exact H1.
  - apply (Z.mul_lt_mono_pos_r S _ _ HS). exact H2.
Qed.

Lemma quotient_range (P m rem Y lo hi : Z) :
  0 < Y -> P = m * Y + rem -> 0 <= rem < Y -> lo * Y <= P < hi * Y ->
  lo <= m < hi.
Proof.
  intros HY -> Hrem [Hlo Hhi]. split.
  - apply Z.lt_succ_r. apply (Z.mul_lt_mono_pos_r Y _ _ HY). lia.
  - apply (Z.mul_lt_mono_pos_r Y _ _ HY). lia.
Qed.

Lemma digits2_bounds (p : positive) :
  2 ^ (Z.pos (digits2_pos p) - 1) <= Z.pos p < 2 ^ Z.pos (digits2_pos p).
Proof.
  induction p as [p IH|p IH|]; cbn [digits2_pos].
  - rewrite Pos2Z.inj_succ.
    replace (Z.succ (Z.pos (digits2_pos p)) - 1) with (Z.succ (Z.pos (digits2_pos p) - 1)) by lia.
    rewrite !Z.pow_succ_r by lia. lia.
  - rewrite Pos2Z.inj_succ.
    replace (Z.succ (Z.pos (digits2_pos p)) - 1) with (Z.succ (Z.pos (digits2_pos p) - 1)) by lia.
    rewrite !Z.pow_succ_r by lia. lia.
  - simpl. lia.
Qed.

Lemma digits2_unique (p : positive) (d : Z) :
  2 ^ (d - 1) <= Z.pos p < 2 ^ d -> Z.pos (digits2_pos p) = d.
Proof.
  intros [Hlo Hhi]. pose proof (digits2_bounds p) as [Hlo' Hhi'].
  assert (0 < d).
  { destruct (Z.le_gt_cases d 0) as [Hd|Hd]; [|exact Hd].
    assert (2 ^ d <= 2 ^ 0) by (apply Z.pow_le_mono_r; lia). simpl in *. lia. }
  assert (d - 1 < Z.pos (digits2_pos p)).
  { apply (Z.pow_lt_mono_r_iff 2); lia. }
  assert (Z.pos (digits2_pos p) - 1 < d).
  { apply (Z.pow_lt_mono_r_iff 2); lia. }
  lia.
Qed.

(** [iter_pos] is iteration. *)
Lemma iter_pos_nat {A} (f : A -> A) (p : positive) (x : A) :
  SpecFloat.iter_pos f p x = Nat.iter (Pos.to_nat p) f x.
Proof.
  revert x. induction p as [p IH|p IH|]; intros x; cbn [SpecFloat.iter_pos].
  - rewrite !IH, Pos2Nat.inj_xI.
    replace (S (2 * Pos.to_nat p)) with (Pos.to_nat p + (Pos.to_nat p + 1))%nat by lia.
    rewrite !Nat.iter_add. reflexivity.
  - rewrite !IH, Pos2Nat.inj_xO.
    replace (2 * Pos.to_nat p)%nat with (Pos.to_nat p + Pos.to_nat p)%nat by lia.
    rewrite Nat.iter_add. reflexivity.
  - reflexivity.
Qed.

Lemma shr_1_shifted (m0 : Z) (k : nat) (mrs : shr_record) :
  0 <= shr_m mrs -> shifted m0 k mrs ->
  0 <= shr_m (shr_1 mrs) /\ shifted m0 (S k) (shr_1 mrs).
Proof.
  intros Hm (rem & Hm0 & Hrem & Hr & Hs). unfold shifted.
  rewrite Nat2Z.inj_succ, Z.pow_succ_r by lia.
  destruct mrs as [m r s]. cbn [shr_m shr_r shr_s] in *.
  set (X := 2 ^ Z.of_nat k) in *.
  assert (HX : 0 < X) by (apply Z.pow_pos_nonneg; lia).
  destruct r, s; bool_fact Hr; bool_fact Hs;
    (destruct m as [|[p|p|]|p]; cbn [shr_1 shr_m shr_r shr_s orb]; [| | | |lia]);
    (split; [lia|]).
  all: first [ exists rem; cbn [shr_m shr_r shr_s];
               split; [lia|]; split; [lia|]; split; bool_goal
             | exists (X + rem); cbn [shr_m shr_r shr_s];
               split; [lia|]; split; [lia|]; split; bool_goal ].
Qed.

Lemma iter_shr_1_shifted (m0 : Z) (k : nat) :
  0 <= m0 ->
  let mrs := Nat.iter k shr_1 (Build_shr_record m0 false false) in
  0 <= shr_m mrs /\ shifted m0 k mrs.
Proof.
  intros Hm0. induction k as [|k IH].
  - cbn. split; [exact Hm0|]. exists 0. cbn.
    split; [lia|]. split; [lia|]. split; bool_goal.
  - cbn [Nat.iter nat_rect] in *. destruct IH as [Hm IH].
    apply shr_1_shifted; assumption.
Qed.

Lemma rne_spec (m0 : Z) (n : positive) :
  0 <= m0 ->
  exists m rem,
    m0 = m * 2 ^ Z.pos n + rem
    /\ 0 <= rem < 2 ^ Z.pos n
    /\ 0 <= m
    /\ (rne m0 n = m \/ rne m0 n = m + 1)
    /\ (rne m0 n = m + 1 -> 2 ^ Z.pos n <= 2 * rem)
    /\ (2 ^ Z.pos n < 2 * rem -> rne m0 n = m + 1).
Proof.
  intros Hm0. unfold rne. rewrite iter_pos_nat.
  destruct (iter_shr_1_shifted m0 (Pos.to_nat n) Hm0) as [Hm (rem & Heq & Hrem & Hr & Hs)].
  rewrite positive_nat_Z in *.
  destruct (Nat.iter _ _ _) as [m r s]. cbn [shr_m shr_r shr_s] in *.
  exists m, rem. split; [exact Heq|]. split; [exact Hrem|]. split; [exact Hm|].
  destruct r, s; bool_fact Hr; bool_fact Hs;
    cbn [loc_of_shr_record round_nearest_even];
    try destruct (Z.even m); lia.
Qed.

Lemma fexp_normal (e : Z) : -1021 <= e -> fexp 53 1024 e = e - 53.
Proof. intros H. unfold fexp, emin. lia. Qed.

(** The second pass of [binary_round_aux]: a mantissa that rounding
    took to [2^53] is shifted once more. *)
Lemma renormalize (m1 e : Z) :
  2 ^ 52 <= m1 <= 2 ^ 53 -> -1074 <= e ->
  shr_fexp 53 1024 m1 e loc_Exact =
  if m1 =? 2 ^ 53
  then (Build_shr_record (2 ^ 52) false false, e + 1)
  else (Build_shr_record m1 false false, e).
Proof.
  intros Hm1 He. unfold shr_fexp. cbn [shr_record_of_loc].
  destruct (m1 =? 2 ^ 53) eqn:Htop.
  - apply Z.eqb_eq in Htop. subst m1.
    replace (Zdigits2 (2 ^ 53)) with 54 by reflexivity.
    rewrite fexp_normal by lia.
    replace (54 + e - 53 - e) with 1 by lia. reflexivity.
  - apply Z.eqb_neq in Htop.
    destruct m1 as [|p|p]; try lia. cbn [Zdigits2].
    rewrite (digits2_unique p 53) by lia.
    rewrite fexp_normal by lia.
    replace (53 + e - 53 - e) with 0 by lia. reflexivity.
Qed.

Lemma binary_round_aux_shift (s : bool) (mx : positive) (ex : Z) (n : positive) :
  Z.pos (digits2_pos mx) = 53 + Z.pos n ->
  -1074 <= ex + Z.pos n <= 970 ->
  binary_round_aux 53 1024 s (Z.pos mx) ex loc_Exact =
  if rne (Z.pos mx) n =? 2 ^ 53
  then S754_finite s (2 ^ 52) (ex + Z.pos n + 1)
  else S754_finite s (Z.to_pos (rne (Z.pos mx) n)) (ex + Z.pos n).
Proof.
  intros Hd He.
  assert (Hm1 : 2 ^ 52 <= rne (Z.pos mx) n <= 2 ^ 53).
  { pose proof (digits2_bounds mx) as Hb. rewrite Hd in Hb.
    replace (53 + Z.pos n - 1) with (52 + Z.pos n) in Hb by lia.
    replace (53 + Z.pos n) with (Z.succ (52 + Z.pos n)) in Hb by lia.
    rewrite Z.pow_succ_r, Z.pow_add_r in Hb by lia.
    destruct (rne_spec (Z.pos mx) n) as (m & rem & Heq & Hrem & Hm & Hcase & _); [lia|].
    assert (2 ^ 52 <= m < 2 * 2 ^ 52).
    { apply (quotient_range (Z.pos mx) m rem (2 ^ Z.pos n)); try assumption.
      - apply Z.pow_pos_nonneg; lia.
      - rewrite <- Z.mul_assoc. exact Hb. }
    change (2 ^ 53) with (2 * 2 ^ 52). lia. }
  unfold binary_round_aux. unfold shr_fexp at 1. cbn [Zdigits2 shr_record_of_loc].
  rewrite Hd, fexp_normal by lia.
  replace (53 + Z.pos n + ex - 53 - ex) with (Z.pos n) by lia.
  cbn [shr]. fold (rne (Z.pos mx) n).
  rewrite renormalize by lia.
  destruct (rne (Z.pos mx) n =? 2 ^ 53) eqn:Htop; cbn [shr_m].
  - replace (ex + Z.pos n + 1 <=? 1024 - 53) with true by (symmetry; apply Z.leb_le; lia).
    reflexivity.
  - destruct (rne (Z.pos mx) n) as [|p|p] eqn:Hr; try lia.
    replace (ex + Z.pos n <=? 1024 - 53) with true by (symmetry; apply Z.leb_le; lia).
    reflexivity.
Qed.

Lemma binary_round_aux_exact (s : bool) (m : positive) (e : Z) :
  Z.pos (digits2_pos m) = 53 -> -1074 <= e <= 971 ->
  binary_round_aux 53 1024 s (Z.pos m) e loc_Exact = S754_finite s m e.
Proof.
  intros Hd He. pose proof (digits2_bounds m) as Hb. rewrite Hd in Hb.
  unfold binary_round_aux.
  rewrite (renormalize (Z.pos m) e) by (simpl in *; lia).
  replace (Z.pos m =? 2 ^ 53) with false by (symmetry; apply Z.eqb_neq; simpl in *; lia).
  cbn [shr_m loc_of_shr_record round_nearest_even].
  rewrite (renormalize (Z.pos m) e) by (simpl in *; lia).
  replace (Z.pos m =? 2 ^ 53) with false by (symmetry; apply Z.eqb_neq; simpl in *; lia).
  cbn [shr_m].
  replace (e <=? 1024 - 53) with true by (symmetry; apply Z.leb_le; lia).
  reflexivity.
Qed.

Lemma pos_iter_xO (p k : positive) :
  Z.pos (Pos.iter xO p k) = Z.pos p * 2 ^ Z.pos k.
Proof.
  induction k as [|k IH] using Pos.peano_ind.
  - cbn [Pos.iter]. lia.
  - rewrite Pos.iter_succ, Pos2Z.inj_succ, Z.pow_succ_r by lia.
    rewrite Pos2Z.inj_xO, IH. lia.
Qed.

(** A positive integer below [2^53] converts exactly: the mantissa is
    the integer shifted left to 53 bits. *)
Lemma of_Z_normal (N : Z) :
  0 < N < 2 ^ 53 ->
  exists (mN : positive) (k : Z),
    0 <= k /\ Z.pos mN = N * 2 ^ k
    /\ Z.pos (digits2_pos mN) = 53
    /\ 2 ^ (52 - k) <= N < 2 ^ (53 - k)
    /\ JS.of_Z N = S754_finite false mN (- k).
Proof.
  intros HN. destruct N as [|p|p]; try lia.
  pose proof (digits2_bounds p) as Hb.
  set (d := Z.pos (digits2_pos p)) in *.
  assert (Hd : 1 <= d <= 53).
  { split; [lia|]. destruct (Z.le_gt_cases d 53) as [H|H]; [exact H|].
    assert (2 ^ 53 <= 2 ^ (d - 1)) by (apply Z.pow_le_mono_r; lia). lia. }
  unfold JS.of_Z, JS.prec, JS.emax. cbn [binary_normalize]. unfold binary_round.
  fold d. rewrite fexp_normal by lia. unfold shl_align.
  destruct (d + 0 - 53 - 0) as [|q|q] eqn:Hk; try lia.
  - exists p, 0. assert (Hd53 : d = 53) by lia.
    split; [lia|]. split; [simpl; lia|]. split; [exact Hd53|]. split.
    + replace (52 - 0) with (d - 1) by lia. replace (53 - 0) with d by lia. exact Hb.
    + replace (d + 0 - 53) with 0 by lia.
      apply binary_round_aux_exact; [exact Hd53 | lia].
  - exists (Pos.iter xO p q), (Z.pos q).
    assert (Hq : Z.pos q = 53 - d) by lia.
    assert (Hmz : Z.pos (digits2_pos (Pos.iter xO p q)) = 53).
    { apply digits2_unique. rewrite pos_iter_xO, Hq.
      assert (E1 : 2 ^ (53 - 1) = 2 ^ (d - 1) * 2 ^ (53 - d))
        by (rewrite <- Z.pow_add_r by lia; f_equal; lia).
      assert (E2 : 2 ^ 53 = 2 ^ d * 2 ^ (53 - d))
        by (rewrite <- Z.pow_add_r by lia; f_equal; lia).
      rewrite E1, E2.
      assert (0 < 2 ^ (53 - d)) by (apply Z.pow_pos_nonneg; lia).
      split.
      - apply Z.mul_le_mono_nonneg_r; lia.
      - apply Z.mul_lt_mono_pos_r; lia. }
    split; [lia|]. split; [apply pos_iter_xO|]. split; [exact Hmz|]. split.
    + rewrite Hq. replace (52 - (53 - d)) with (d - 1) by lia.
      replace (53 - (53 - d)) with d by lia. lia.
    + replace (d + 0 - 53) with (- Z.pos q) by lia.
      apply binary_round_aux_exact; [exact Hmz | lia].
Qed.

Lemma floor_finite (m : positive) (e : Z) :
  e < 0 ->
  JS.floor (S754_finite false m e) = JS.of_Z (Z.pos m / 2 ^ (- e)).
Proof.
  intros He. unfold JS.floor.
  replace (0 <=? e) with false by (symmetry; apply Z.leb_gt; exact He).
  reflexivity.
Qed.

(** The product of an integer [N] below [2^50] and a constant
    [M * 2^-53], rounded to binary64 and floored: the exact product
    [N * M / 2^53] is cut to 53 bits at a unit [X / 2^53], to nearest, and
    the floor divides the mantissa by [T = 2^53 / X]. *)
Lemma floor_mul_char (N : Z) (M : positive) :
  0 < N < 2 ^ 50 -> Z.pos (digits2_pos M) = 53 ->
  exists X T m rem m1,
    0 < X /\ 8 <= T /\ X * T = 2 ^ 53
    /\ N * Z.pos M = m * X + rem /\ 0 <= rem < X /\ 0 <= m
    /\ N * Z.pos M < X * 2 ^ 53
    /\ (m1 = m \/ m1 = m + 1)
    /\ (m1 = m + 1 -> X <= 2 * rem)
    /\ (X < 2 * rem -> m1 = m + 1)
    /\ JS.floor (JS.mul (JS.of_Z N) (S754_finite false M (-53))) = JS.of_Z (m1 / T).
Proof.
  intros HN HdM.
  destruct (of_Z_normal N) as (mN & k & Hk & HmN & HdN & HNb & ->); [lia|].
  assert (Hk3 : 3 <= k <= 52).
  { split.
    - destruct (Z.le_gt_cases 3 k) as [H|H]; [exact H|].
      assert (2 ^ 50 <= 2 ^ (52 - k)) by (apply Z.pow_le_mono_r; lia). lia.
    - destruct (Z.le_gt_cases k 52) as [H|H]; [exact H|].
      assert (2 ^ (53 - k) <= 2 ^ 0) by (apply Z.pow_le_mono_r; lia).
      change (2 ^ 0) with 1 in *. lia. }
  pose proof (digits2_bounds mN) as HbN. rewrite HdN in HbN.
  pose proof (digits2_bounds M) as HbM. rewrite HdM in HbM.
  change (53 - 1) with 52 in *.
  pose proof (digits2_bounds (mN * M)) as HbP.
  set (dP := Z.pos (digits2_pos (mN * M))) in *.
  rewrite Pos2Z.inj_mul in HbP.
  assert (HP : 2 ^ 104 <= Z.pos mN * Z.pos M < 2 ^ 106).
  { change (2 ^ 104) with (2 ^ 52 * 2 ^ 52). change (2 ^ 106) with (2 ^ 53 * 2 ^ 53).
    apply mul_bounds; lia. }
  assert (HdP : dP = 105 \/ dP = 106).
  { assert (104 < dP) by (apply (Z.pow_lt_mono_r_iff 2); lia).
    assert (dP - 1 < 106) by (apply (Z.pow_lt_mono_r_iff 2); lia).
    lia. }
  assert (Hn : exists n : positive, dP = 53 + Z.pos n /\ 52 <= Z.pos n <= 53).
  { destruct HdP as [H|H]; [exists 52%positive | exists 53%positive]; lia. }
  destruct Hn as (n & HdPn & Hn). clear HP HdP HbN.
  unfold JS.mul, JS.prec, JS.emax. cbn [SFmul xorb].
  rewrite (binary_round_aux_shift false (mN * M) (- k + -53) n) by (fold dP; lia).
  destruct (rne_spec (Z.pos (mN * M)) n) as (m & remP & HPeq & HremP & Hm & Hcase & Hup & Hgt);
    [lia|].
  set (m1 := rne (Z.pos (mN * M)) n) in *.
  rewrite Pos2Z.inj_mul in HPeq.
  set (j := Z.pos n - k). set (t := 53 - j).
  assert (Hj : 0 <= j <= 50) by (unfold j; lia).
  assert (Ht : 3 <= t <= 53) by (unfold t; lia).
  assert (HX : 0 < 2 ^ j) by (apply Z.pow_pos_nonneg; lia).
  assert (HS : 0 < 2 ^ k) by (apply Z.pow_pos_nonneg; lia).
  assert (Hnk : 2 ^ Z.pos n = 2 ^ j * 2 ^ k)
    by (rewrite <- Z.pow_add_r by lia; f_equal; unfold j; lia).
  assert (HXT : 2 ^ j * 2 ^ t = 2 ^ 53)
    by (rewrite <- Z.pow_add_r by lia; f_equal; unfold t; lia).
  assert (HT8 : 8 <= 2 ^ t)
    by (change 8 with (2 ^ 3); apply Z.pow_le_mono_r; lia).
  assert (HdPhi : 2 ^ dP = 2 ^ 53 * (2 ^ j * 2 ^ k))
    by (rewrite <- !Z.pow_add_r by lia; f_equal; unfold j; lia).
  assert (HdPlo : 2 ^ (dP - 1) = 2 ^ 52 * (2 ^ j * 2 ^ k))
    by (rewrite <- !Z.pow_add_r by lia; f_equal; unfold j; lia).
  rewrite HdPhi, HdPlo in HbP. rewrite Hnk in *.
  clear HdPhi HdPlo Hnk.
  set (X := 2 ^ j) in *. set (T := 2 ^ t) in *. set (S := 2 ^ k) in *.
  set (A := N * Z.pos M).
  assert (HPA : Z.pos mN * Z.pos M = A * S) by (unfold A; rewrite HmN; ring).
  rewrite HPA in *. clear HPA HmN.
  assert (Hrem : remP = (A - m * X) * S).
  { replace ((A - m * X) * S) with (A * S - m * (X * S)) by ring. lia. }
  assert (Hm52 : 2 ^ 52 <= m < 2 ^ 53).
  { apply (quotient_range (A * S) m remP (X * S)); try assumption.
    apply Z.mul_pos_pos; assumption. }
  subst remP.
  apply scaled_range in HremP; [|exact HS].
  exists X, T, m, (A - m * X), m1.
  split; [exact HX|]. split; [exact HT8|]. split; [exact HXT|].
  split; [lia|]. split; [exact HremP|]. split; [exact Hm|].
  split.
  { apply (Z.mul_lt_mono_pos_r S _ _ HS).
    replace (X * 2 ^ 53 * S) with (2 ^ 53 * (X * S)) by ring. lia. }
  split; [exact Hcase|].
  split.
  { intros H. specialize (Hup H).
    apply (Z.mul_le_mono_pos_r _ _ S HS).
    replace (2 * (A - m * X) * S) with (2 * ((A - m * X) * S)) by ring. exact Hup. }
  split.
  { intros H. apply Hgt.
    replace (2 * ((A - m * X) * S)) with (2 * (A - m * X) * S) by ring.
    apply Z.mul_lt_mono_pos_r; assumption. }
  assert (Hm1 : 2 ^ 52 <= m1 <= 2 ^ 53) by lia.
  replace (- k + -53 + Z.pos n + 1) with (- (t - 1)) by (unfold t, j; lia).
  replace (- k + -53 + Z.pos n) with (- t) by (unfold t, j; lia).
  destruct (m1 =? 2 ^ 53) eqn:Htop.
  - apply Z.eqb_eq in Htop. rewrite Htop.
    rewrite floor_finite by lia. f_equal.
    rewrite Z.opp_involutive.
    replace (Z.pos (2 ^ 52)) with (2 ^ 52) by reflexivity.
    change (2 ^ 53) with (2 * 2 ^ 52).
    unfold T. replace t with (Z.succ (t - 1)) at 2 by lia.
    rewrite Z.pow_succ_r by lia.
    rewrite Z.div_mul_cancel_l; [reflexivity | | lia].
    apply Z.pow_nonzero; lia.
  - rewrite floor_finite by lia. f_equal.
    rewrite Z.opp_involutive, Z2Pos.id by lia. reflexivity.
Qed.

Lemma div_from_scaled (m1 T X K B : Z) :
  0 < X -> 0 < T -> X * T = B ->
  K * B < (m1 + 1) * X -> m1 * X < (K + 1) * B ->
  m1 / T = K.
Proof.
  intros HX HT <- Hlo Hhi.
  assert (K * T < m1 + 1).
  { apply (Z.mul_lt_mono_pos_r X _ _ HX).
    replace (K * T * X) with (K * (X * T)) by ring. exact Hlo. }
  assert (m1 < (K + 1) * T).
  { apply (Z.mul_lt_mono_pos_r X _ _ HX).
    replace ((K + 1) * T * X) with ((K + 1) * (X * T)) by ring. exact Hhi. }
  symmetry. apply (Z.div_unique m1 T K (m1 - K * T)); lia.
Qed.

Lemma unit_bound (X T : Z) : 0 < X -> 8 <= T -> X * T = 2 ^ 53 -> X <= 2 ^ 50.
Proof.
  intros HX HT HXT.
  assert (X * 8 <= X * T) by (apply Z.mul_le_mono_nonneg_l; lia).
  change (2 ^ 53) with (2 ^ 50 * 8) in HXT. lia.
Qed.

Lemma lit_0_8_eq : JS.lit_0_8 = S754_finite false 7205759403792794 (-53).
Proof. reflexivity. Qed.

Lemma lit_0_6_eq : JS.lit_0_6 = S754_finite false 5404319552844595 (-53).
Proof. reflexivity. Qed.

(** [Math.floor(N * 0.8)] is the exact floor of [8 N / 10] below [2^50]. *)
Lemma floor_mul_0_8 (N : Z) :
  0 <= N < 2 ^ 50 ->
  JS.floor (JS.mul (JS.of_Z N) JS.lit_0_8) = JS.of_Z (8 * N / 10).
Proof.
  intros HN. destruct (Z.eq_dec N 0) as [->|Hne]; [reflexivity|].
  rewrite lit_0_8_eq.
  destruct (floor_mul_char N 7205759403792794) as
    (X & T & m & rem & m1 & HX & HT & HXT & HA & Hrem & Hm & _ & Hcase & Hup & _ & ->);
    [lia | reflexivity |].
  f_equal.
  replace (8 * N / 10) with (4 * N / 5)
    by (change 8 with (2 * 4); change 10 with (2 * 5);
        rewrite <- Z.mul_assoc, Z.div_mul_cancel_l by lia; reflexivity).
  pose proof (Z.div_mod (4 * N) 5 ltac:(lia)) as Hdiv.
  pose proof (Z.mod_pos_bound (4 * N) 5 ltac:(lia)) as Hmod.
  set (K := 4 * N / 5) in *. set (r5 := (4 * N) mod 5) in *.
  pose proof (unit_bound X T HX HT HXT) as HX50.
  change (2 ^ 50) with 1125899906842624 in *.
  apply (div_from_scaled m1 T X K (2 ^ 53) HX ltac:(lia) HXT);
    change (2 ^ 53) with 9007199254740992.
  - assert (m * X < (m1 + 1) * X).
    { apply Z.mul_lt_mono_pos_r; lia. }
    lia.
  - destruct Hcase as [->| ->].
    + lia.
    + specialize (Hup eq_refl).
      replace ((m + 1) * X) with (m * X + X) by ring. lia.
Qed.

(** [Math.floor(N * 0.6)] is the exact floor of [6 N / 10] below [2^50]. *)
Lemma floor_mul_0_6 (N : Z) :
  0 <= N < 2 ^ 50 ->
  JS.floor (JS.mul (JS.of_Z N) JS.lit_0_6) = JS.of_Z (6 * N / 10).
Proof.
  intros HN. destruct (Z.eq_dec N 0) as [->|Hne]; [reflexivity|].
  rewrite lit_0_6_eq.
  destruct (floor_mul_char N 5404319552844595) as
    (X & T & m & rem & m1 & HX & HT & HXT & HA & Hrem & Hm & Hlt & Hcase & Hup & Hgt & ->);
    [lia | reflexivity |].
  f_equal.
  replace (6 * N / 10) with (3 * N / 5)
    by (change 6 with (2 * 3); change 10 with (2 * 5);
        rewrite <- Z.mul_assoc, Z.div_mul_cancel_l by lia; reflexivity).
  pose proof (Z.div_mod (3 * N) 5 ltac:(lia)) as Hdiv.
  pose proof (Z.mod_pos_bound (3 * N) 5 ltac:(lia)) as Hmod.
  set (K := 3 * N / 5) in *. set (r5 := (3 * N) mod 5) in *.
  pose proof (unit_bound X T HX HT HXT) as HX50.
  change (2 ^ 50) with 1125899906842624 in *.
  destruct (Z.eq_dec r5 0) as [Hr0|Hr0].
  - (* 3N/5 is an integer and the product falls just below it: it rounds up *)
    change (2 ^ 53) with 9007199254740992 in *.
    assert (HKX : K <= X) by lia.
    assert (HKT : (K * T - m) * X = rem + (2 * K - N)).
    { replace ((K * T - m) * X) with (K * (X * T) - m * X) by ring.
      rewrite HXT. lia. }
    assert (Hq : K * T - m = 1).
    { assert (0 < K * T - m).
      { apply (Z.mul_lt_mono_pos_r X _ _ HX). lia. }
      assert (K * T - m < 2).
      { apply (Z.mul_lt_mono_pos_r X _ _ HX). lia. }
      lia. }
    rewrite Hq, Z.mul_1_l in HKT.
    assert (Hm1 : m1 = m + 1) by (apply Hgt; lia).
    replace m1 with (K * T) by lia.
    apply Z.div_mul. lia.
  - apply (div_from_scaled m1 T X K (2 ^ 53) HX ltac:(lia) HXT);
      change (2 ^ 53) with 9007199254740992.
    + assert (m * X < (m1 + 1) * X).
      { apply Z.mul_lt_mono_pos_r; lia. }
      lia.
    + destruct Hcase as [->| ->].
      * lia.
      * specialize (Hup eq_refl).
        replace ((m + 1) * X) with (m * X + X) by ring. lia.
Qed.

(** ** The derived statistics *)

Lemma decimal_acc_nonneg (ds : string) (acc : Z) :
  Re.all_digits ds = true -> 0 <= acc -> 0 <= Re.decimal_acc acc ds.
Proof.
  revert acc. induction ds as [|c ds IH]; intros acc Hds Hacc; [exact Hacc|].
  rewrite all_digits_String in Hds. apply andb_prop in Hds as [Hc Hds].
  cbn [Re.decimal_acc]. apply IH; [exact Hds|].
  unfold Re.is_digit in Hc. apply andb_prop in Hc as [Hlo _].
  apply N.leb_le in Hlo. lia.
Qed.

Lemma count_match_decimal (m digits : string) :
  Re.count_match m = Some digits -> 0 <= Re.decimal digits.
Proof.
  intros H. apply count_match_sound in H as (pre & suffix & _ & H).
  apply count_here_sound in H as (_ & Hds & _).
  apply decimal_acc_nonneg; [exact Hds | lia].
Qed.

Lemma or_Str (m : string) : JS.or (JS.Str m) (JS.Str "") = JS.Str m.
Proof. destruct m; reflexivity. Qed.

(** C5, counterexample: for N = 9007199254740991 the product
    [N * 0.8] rounds up to the integer 7205759403792793, one more than the
    floor of 8N/10. *)
Lemma derived_count_beyond_precision :
  ~ derived_as_specified "9007199254740991 transactions processed" page0.
Proof.
  intros H. destruct (H "9007199254740991" eq_refl) as [Hcat _].
  vm_compute in Hcat. discriminate Hcat.
Qed.

(** C5, as the code has it: when the first match of
    [(\d+) transactions] in the success message is the count N, written with
    the digits [digits], and N is below 2^50, the processed count shows
    [digits], the categorized count the floor of 8N/10, the merchants found
    the floor of 6N/10 and the confidence score 85%, each where its element
    is on the page. *)
Theorem showResults_derived (data : JS.value) (m digits : string) (s : State) :
  is_Some (dom s !! "processingResults") ->
  JS.get data "success" = inr (JS.Str m) ->
  Re.count_match m = Some digits ->
  Re.decimal digits < 2 ^ 50 ->
  let N := Re.decimal digits in
  let s' := exec (showResults data) s in
  result (showResults data) s = inr tt
  /\ (is_Some (dom s !! "processedCount") ->
      text_of s' "processedCount" = Some (JS.Str digits))
  /\ (is_Some (dom s !! "categorizedCount") ->
      text_of s' "categorizedCount" = Some (JS.Num (JS.of_Z (8 * N / 10))))
  /\ (is_Some (dom s !! "merchantsFound") ->
      text_of s' "merchantsFound" = Some (JS.Num (JS.of_Z (6 * N / 10))))
  /\ (is_Some (dom s !! "confidenceScore") ->
      text_of s' "confidenceScore" = Some (JS.Str "85%")).
Proof.
  intros Hdiv Hget Hmatch Hsmall N s'.
  pose proof (count_match_decimal m digits Hmatch) as Hpos.
  pose proof (showResults_run data (JS.Str m) m s Hdiv Hget (or_Str m)) as Hrun.
  assert (Hcount : processed_count m = digits)
    by (unfold processed_count; rewrite Hmatch; reflexivity).
  rewrite Hcount in Hrun.
  assert (Hdom : dom s' = alter (with_display "block") "processingResults"
                           (render (elements (processed_count m)) (dom s)))
    by (subst s'; unfold exec; rewrite Hrun, Hcount; reflexivity).
  split; [unfold result; rewrite Hrun; reflexivity|].
  repeat split; intros Hel;
    apply (text_of_rendered m s s' _ _ Hdom); try exact Hel;
    rewrite Hcount; unfold elements, to_number; cbn [In]; fold N.
  - auto.
  - rewrite floor_mul_0_8 by lia. auto.
  - rewrite floor_mul_0_6 by lia. auto 6.
  - auto 6.
Qed.

(** The response of the specification's example rendered on the upload
    page: processed 42, categorized 33, merchants 25, confidence 85%. *)
Lemma showResults_derived_witness :
  let s' := exec (showResults success_42) page0 in
  result (showResults success_42) page0 = inr tt
  /\ text_of s' "processedCount" = Some (JS.Str "42")
  /\ text_of s' "categorizedCount" = Some (JS.Num (JS.of_Z 33))
  /\ text_of s' "merchantsFound" = Some (JS.Num (JS.of_Z 25))
  /\ text_of s' "confidenceScore" = Some (JS.Str "85%").
Proof.
  destruct (showResults_derived success_42 "42 transactions processed" "42" page0)
    as (Hret & Hp & Hc & Hm & Hs).
  - eexists. vm_compute. reflexivity.
  - reflexivity.
  - vm_compute. reflexivity.
  - vm_compute. reflexivity.
  - cbv zeta. split; [exact Hret|].
    split; [apply Hp; eexists; vm_compute; reflexivity|].
    split; [apply Hc; eexists; vm_compute; reflexivity|].
    split; [apply Hm; eexists; vm_compute; reflexivity|].
    apply Hs; eexists; vm_compute; reflexivity.
Defined.

(** * Further properties of the upload flow *)

(** ** Elements a handler does not write *)

Section FrameElementMore.
Variable id0 : string.

Lemma keeps_update_if_present_other (id : string) (f : Element -> Element) :
  id <> id0 -> keeps (element_of id0) (update_if_present id f).
Proof.
  intros Hne. apply keeps_bind; [apply keeps_gets|].
  intros [e|]; [apply keeps_update_other, Hne | apply keeps_ret].
Qed.

Lemma keeps_showResults_other (data : JS.value) :
  id0 <> "processingResults" -> id0 <> "processedCount" ->
  id0 <> "categorizedCount" -> id0 <> "merchantsFound" ->
  id0 <> "confidenceScore" ->
  keeps (element_of id0) (showResults data).
Proof.
  intros H1 H2 H3 H4 H5. unfold showResults.
  apply keeps_bind; [apply keeps_gets | intros [e|]]; [|apply keeps_ret].
  apply keeps_bind; [apply keeps_lift | intros success].
  apply keeps_bind; [apply keeps_message_match | intros processedMatch].
  apply keeps_bind; [|intros _; apply keeps_update_other; congruence].
  cbn [fold_right].
  repeat (apply keeps_bind;
          [apply keeps_update_if_present_other; congruence | intros _]).
  apply keeps_ret.
Qed.

Lemma keeps_handleSubmit_other :
  id0 <> "uploadForm" -> id0 <> "processingStatus" ->
  keeps (element_of id0) handleSubmit.
Proof.
  intros H1 H2. unfold handleSubmit.
  apply keeps_bind; [apply keeps_gets | intros [file|]].
  - apply keeps_bind.
    + intros s. unfold exec. rewrite append_options_run. reflexivity.
    + intros formData. apply keeps_bind; [|intros _; apply keeps_modify; reflexivity].
      unfold showProcessingState.
      apply keeps_bind; [apply keeps_update_unchecked_other; congruence | intros _].
      apply keeps_bind; [apply keeps_update_unchecked_other; congruence | intros _].
      unfold simulateProgress.
      apply keeps_bind; [apply keeps_gets | intros [e|]];
        [apply keeps_modify; reflexivity | apply keeps_ret].
  - apply keeps_modify. reflexivity.
Qed.

Lemma keeps_handleSubmit_settled_other (o : Settlement) :
  id0 <> "uploadForm" -> id0 <> "processingStatus" ->
  id0 <> "processingResults" -> id0 <> "processedCount" ->
  id0 <> "categorizedCount" -> id0 <> "merchantsFound" ->
  id0 <> "confidenceScore" ->
  keeps (element_of id0) (handleSubmit_settled o).
Proof.
  intros H1 H2 H3 H4 H5 H6 H7. unfold handleSubmit_settled.
  assert (Hhide : keeps (element_of id0) hideProcessingState)
    by (apply keeps_update_unchecked_other; congruence).
  assert (Hshow : keeps (element_of id0) showUploadForm)
    by (apply keeps_update_unchecked_other; congruence).
  assert (Htoast : forall m t, keeps (element_of id0) (showToast m t))
    by (intros m t; apply keeps_showToast; reflexivity).
  apply keeps_try_catch.
  - destruct o as [|status [body|]]; try apply keeps_throw.
    apply keeps_bind; [exact Hhide | intros _].
    apply keeps_bind; [apply keeps_lift | intros error].
    apply keeps_if.
    + apply keeps_bind; [apply Htoast | intros _; exact Hshow].
    + apply keeps_bind; [apply keeps_showResults_other; assumption | intros _].
      apply keeps_bind; [apply keeps_lift | intros success; apply Htoast].
  - intros _. apply keeps_bind; [exact Hhide | intros _].
    apply keeps_bind; [exact Hshow | intros _; apply Htoast].
Qed.

End FrameElementMore.

(** ** Every settlement is handled *)

Lemma get_other_key (v x : JS.value) (k k' : string) :
  JS.get v k = inr x -> exists y, JS.get v k' = inr y.
Proof. destruct v; cbn [JS.get]; intros H; try discriminate H; eauto. Qed.

Lemma try_catch_ok {A} (body : M A) (handler : JS.error -> M A)
    (s s' : State) (a : A) :
  body s = (inr a, s') -> try_catch body handler s = (inr a, s').
Proof. intros H. unfold try_catch. rewrite H. reflexivity. Qed.

Lemma try_catch_throw {A} (body : M A) (handler : JS.error -> M A)
    (s s' : State) (e : JS.error) :
  body s = (inl e, s') -> try_catch body handler s = handler e s'.
Proof. intros H. unfold try_catch. rewrite H. reflexivity. Qed.

Lemma failed_facts (s : State) :
  is_Some (dom s !! "uploadForm") ->
  is_Some (dom s !! "processingStatus") ->
  display <$> dom (failed s) !! "processingStatus" = Some "none"
  /\ display <$> dom (failed s) !! "uploadForm" = Some "block"
  /\ toasts (failed s) = (toasts s ++ [danger (JS.Str msg_upload_failed)])%list.
Proof.
  intros [form Hform] [status Hstatus]. unfold failed.
  cbn [dom toasts set_toasts set_dom]. repeat split.
  - rewrite lookup_alter_ne by discriminate. rewrite lookup_alter_eq, Hstatus.
    reflexivity.
  - rewrite lookup_alter_eq, lookup_alter_ne by discriminate. rewrite Hform.
    reflexivity.
Qed.

(** X1: when the upload form and the processing indicator are on the
    page, the handling of a settlement never throws, whatever the settlement:
    it leaves the processing indicator hidden and shows exactly one
    notification, of severity [success], or of severity [danger] with the
    upload form displayed again. *)
Theorem settlement_recovers (s : State) (o : Settlement) :
  is_Some (dom s !! "uploadForm") ->
  is_Some (dom s !! "processingStatus") ->
  let s' := exec (handleSubmit_settled o) s in
  result (handleSubmit_settled o) s = inr tt
  /\ display <$> dom s' !! "processingStatus" = Some "none"
  /\ exists t,
       toasts s' = (toasts s ++ [t])%list
       /\ (severity t = "success"
           \/ (severity t = "danger"
               /\ display <$> dom s' !! "uploadForm" = Some "block")).
Proof.
  intros Hform Hstatus.
  assert (Hfailed : forall s0,
    is_Some (dom s0 !! "uploadForm") -> is_Some (dom s0 !! "processingStatus") ->
    toasts s0 = toasts s ->
    forall r : (JS.error + unit) * State, r = (inr tt, failed s0) ->
    fst r = inr tt
    /\ display <$> dom (snd r) !! "processingStatus" = Some "none"
    /\ exists t,
         toasts (snd r) = (toasts s ++ [t])%list
         /\ (severity t = "success"
             \/ (severity t = "danger"
                 /\ display <$> dom (snd r) !! "uploadForm" = Some "block"))).
  { intros s0 Hf Hs Ht r ->. cbn [fst snd].
    destruct (failed_facts s0 Hf Hs) as (H1 & H2 & H3).
    split; [reflexivity|]. split; [exact H1|].
    exists (danger (JS.Str msg_upload_failed)). rewrite H3, Ht. auto. }
  cbv zeta. unfold result, exec.
  destruct o as [|status [body|]].
  1,3: apply (Hfailed s Hform Hstatus eq_refl);
       unfold handleSubmit_settled, try_catch; cbn [throw];
       apply failed_path_run; assumption.
  set (s1 := set_dom (alter (with_display "none") "processingStatus" (dom s)) s).
  assert (Hform1 : is_Some (dom s1 !! "uploadForm")).
  { unfold s1. cbn [dom set_dom]. rewrite lookup_alter_ne by discriminate.
    exact Hform. }
  assert (Hstatus1 : is_Some (dom s1 !! "processingStatus")).
  { unfold s1. cbn [dom set_dom]. apply lookup_alter_is_Some. exact Hstatus. }
  assert (Hhide : hideProcessingState s = (inr tt, s1))
    by (apply update_unchecked_run; exact Hstatus).
  assert (Hnone : display <$> dom s1 !! "processingStatus" = Some "none").
  { destruct Hstatus as [st Hstatus]. unfold s1. cbn [dom set_dom].
    rewrite lookup_alter_eq, Hstatus. reflexivity. }
  destruct (JS.get body "error") as [e|error] eqn:Hget.
  - (* the body is null *)
    unfold handleSubmit_settled. erewrite try_catch_throw.
    2:{ cbv beta iota. erewrite bind_run by exact Hhide.
        apply bind_throw. rewrite Hget. reflexivity. }
    apply (Hfailed s1 Hform1 Hstatus1 eq_refl).
    apply failed_path_run; assumption.
  - destruct (JS.truthy error) eqn:Htruthy.
    + (* the backend reports an error *)
      destruct (JS.printable error) eqn:Htext.
      * unfold handleSubmit_settled. erewrite try_catch_ok.
        2:{ cbv beta iota. erewrite bind_run by exact Hhide.
            erewrite bind_run by (rewrite Hget; reflexivity).
            rewrite Htruthy.
            erewrite bind_run by (apply showToast_run; exact Htext).
            apply update_unchecked_run. exact Hform1. }
        cbn [fst snd dom toasts set_dom set_toasts]. split; [reflexivity|].
        split.
        -- rewrite lookup_alter_ne by discriminate. exact Hnone.
        -- exists (danger error). split; [reflexivity|]. right.
           split; [reflexivity|].
           destruct Hform1 as [form Hform1]. rewrite lookup_alter_eq, Hform1.
           reflexivity.
      * (* the value of [error] has no text *)
        unfold handleSubmit_settled. erewrite try_catch_throw.
        2:{ cbv beta iota. erewrite bind_run by exact Hhide.
            erewrite bind_run by (rewrite Hget; reflexivity).
            rewrite Htruthy. apply bind_throw. apply showToast_throws, Htext. }
        apply (Hfailed s1 Hform1 Hstatus1 eq_refl).
        apply failed_path_run; assumption.
    + (* no error field: the result summary *)
      pose proof (keeps_showResults toasts ltac:(reflexivity) body s1) as Htoasts.
      pose proof (keeps_showResults_other "uploadForm" body ltac:(discriminate)
                    ltac:(discriminate) ltac:(discriminate) ltac:(discriminate)
                    ltac:(discriminate) s1) as Hkeep_form.
      pose proof (keeps_showResults_other "processingStatus" body ltac:(discriminate)
                    ltac:(discriminate) ltac:(discriminate) ltac:(discriminate)
                    ltac:(discriminate) s1) as Hkeep_status.
      unfold exec, element_of in Htoasts, Hkeep_form, Hkeep_status.
      destruct (showResults body s1) as [[e|[]] s2] eqn:Hresults; cbn [snd] in *.
      * (* [message.match] is not a function *)
        unfold handleSubmit_settled. erewrite try_catch_throw.
        2:{ cbv beta iota. erewrite bind_run by exact Hhide.
            erewrite bind_run by (rewrite Hget; reflexivity).
            rewrite Htruthy. apply bind_throw. exact Hresults. }
        apply (Hfailed s2).
        -- rewrite Hkeep_form. exact Hform1.
        -- rewrite Hkeep_status. exact Hstatus1.
        -- rewrite Htoasts. reflexivity.
        -- apply failed_path_run;
             [rewrite Hkeep_form; exact Hform1 | rewrite Hkeep_status; exact Hstatus1].
      * destruct (get_other_key body error "error" "success" Hget) as [success Hsuccess].
        destruct (JS.printable success) eqn:Htext.
        -- unfold handleSubmit_settled. erewrite try_catch_ok.
           2:{ cbv beta iota. erewrite bind_run by exact Hhide.
               erewrite bind_run by (rewrite Hget; reflexivity).
               rewrite Htruthy. erewrite bind_run by exact Hresults.
               erewrite bind_run by (rewrite Hsuccess; reflexivity).
               apply showToast_run, Htext. }
           cbn [fst snd dom toasts set_toasts].
           split; [reflexivity|]. split.
           ++ rewrite Hkeep_status. exact Hnone.
           ++ exists {| message := success; severity := "success" |}.
              rewrite Htoasts. auto.
        -- (* no result panel, and the value of [success] has no text *)
           unfold handleSubmit_settled. erewrite try_catch_throw.
           2:{ cbv beta iota. erewrite bind_run by exact Hhide.
               erewrite bind_run by (rewrite Hget; reflexivity).
               rewrite Htruthy. erewrite bind_run by exact Hresults.
               erewrite bind_run by (rewrite Hsuccess; reflexivity).
               apply showToast_throws, Htext. }
           apply (Hfailed s2).
           ++ rewrite Hkeep_form. exact Hform1.
           ++ rewrite Hkeep_status. exact Hstatus1.
           ++ rewrite Htoasts. reflexivity.
           ++ apply failed_path_run;
                [rewrite Hkeep_form; exact Hform1
                | rewrite Hkeep_status; exact Hstatus1].
Qed.

Lemma settlement_recovers_witness :
  let s' := exec (handleSubmit_settled (Responded 400 (Some bad_format))) awaiting_response in
  result (handleSubmit_settled (Responded 400 (Some bad_format))) awaiting_response = inr tt
  /\ display <$> dom s' !! "processingStatus" = Some "none"
  /\ exists t,
       toasts s' = (toasts awaiting_response ++ [t])%list
       /\ (severity t = "success"
           \/ (severity t = "danger"
               /\ display <$> dom s' !! "uploadForm" = Some "block")).
Proof.
  apply (settlement_recovers awaiting_response (Responded 400 (Some bad_format))).
  - eexists. vm_compute. reflexivity.
  - eexists. vm_compute. reflexivity.
Defined.

(** ** A success field that is not a string *)

Lemma message_match_not_text (success : JS.value) (s : State) :
  truthy_not_text success ->
  message_match (JS.or success (JS.Str "")) s = (inl JS.TypeError, s).
Proof.
  intros [Htruthy Hnot]. unfold JS.or. rewrite Htruthy.
  destruct success; try reflexivity. exfalso. exact (Hnot s0 eq_refl).
Qed.

(** X2: a response without a truthy [error] field whose [success] field
    is truthy but not a string (for instance [true]) is handled as an upload
    failure: on a page with the result panel, [message.match] throws before
    anything is rendered and the failed path runs. *)
Theorem success_not_text_fails
    (s : State) (status : Z) (body error success : JS.value) :
  is_Some (dom s !! "uploadForm") ->
  is_Some (dom s !! "processingStatus") ->
  is_Some (dom s !! "processingResults") ->
  JS.get body "error" = inr error -> JS.truthy error = false ->
  JS.get body "success" = inr success -> truthy_not_text success ->
  handleSubmit_settled (Responded status (Some body)) s = (inr tt, failed s).
Proof.
  intros Hform Hstatus Hresults Herror Hfalsy Hsuccess Hnot.
  set (s1 := set_dom (alter (with_display "none") "processingStatus" (dom s)) s).
  assert (Hhide : hideProcessingState s = (inr tt, s1))
    by (apply update_unchecked_run; exact Hstatus).
  assert (Hshow : showResults body s1 = (inl JS.TypeError, s1)).
  { unfold showResults. destruct Hresults as [panel Hpanel].
    erewrite bind_run.
    2:{ unfold getElementById, gets, s1. cbn [dom set_dom].
        rewrite lookup_alter_ne by discriminate. rewrite Hpanel. reflexivity. }
    cbv beta iota.
    erewrite bind_run by (rewrite Hsuccess; reflexivity).
    apply bind_throw. apply message_match_not_text, Hnot. }
  unfold handleSubmit_settled. erewrite try_catch_throw.
  2:{ cbv beta iota. erewrite bind_run by exact Hhide.
      erewrite bind_run by (rewrite Herror; reflexivity).
      rewrite Hfalsy. apply bind_throw. exact Hshow. }
  rewrite failed_path_run.
  - unfold s1. rewrite failed_after_hide. reflexivity.
  - unfold s1. cbn [dom set_dom]. rewrite lookup_alter_ne by discriminate.
    exact Hform.
  - unfold s1. cbn [dom set_dom]. apply lookup_alter_is_Some. exact Hstatus.
Qed.

Lemma success_not_text_fails_witness :
  handleSubmit_settled (Responded 200 (Some success_true)) awaiting_response
  = (inr tt, failed awaiting_response).
Proof.
  apply (success_not_text_fails awaiting_response 200 success_true
           JS.Undefined (JS.Bool true)).
  - eexists. vm_compute. reflexivity.
  - eexists. vm_compute. reflexivity.
  - eexists. vm_compute. reflexivity.
  - reflexivity.
  - reflexivity.
  - reflexivity.
  - split; [reflexivity | discriminate].
Defined.

(** ** Invariants over the events of a page *)

Lemma run_invariant fmt (I : State -> Prop) :
  (forall s ev, I s -> I (step fmt s ev)) ->
  forall evs s, I s -> I (run fmt s evs).
Proof.
  intros Hstep evs. induction evs as [|ev evs IH]; intros s Hs; [exact Hs|].
  cbn [run fold_left]. apply IH, Hstep, Hs.
Qed.

Section FrameSubmit.
Context {B : Type} (proj : State -> B).
Hypothesis proj_dom : forall d s, proj (set_dom d s) = proj s.
Hypothesis proj_toasts : forall t s, proj (set_toasts t s) = proj s.
Hypothesis proj_timers : forall t n s, proj (set_timers t n s) = proj s.

Lemma keeps_append_options (opts : list string) (formData : FormData) :
  keeps proj (append_options opts formData).
Proof. intros s. unfold exec. rewrite append_options_run. reflexivity. Qed.

Lemma keeps_showProcessingState : keeps proj showProcessingState.
Proof.
  unfold showProcessingState.
  apply keeps_bind; [apply keeps_update_unchecked, proj_dom | intros _].
  apply keeps_bind; [apply keeps_update_unchecked, proj_dom | intros _].
  unfold simulateProgress.
  apply keeps_bind; [apply keeps_gets | intros [e|]];
    [apply keeps_modify; intros s; apply proj_timers | apply keeps_ret].
Qed.

Hypothesis proj_progressBar : forall p s, proj (set_progressBar p s) = proj s.

Lemma keeps_tick (id : nat) (r : JS.number) : keeps proj (tick id r).
Proof.
  unfold tick. apply keeps_bind; [apply keeps_gets | intros [width|]];
    [|apply keeps_ret].
  apply keeps_bind.
  - apply keeps_if; (apply keeps_bind; [|intros _; apply keeps_ret]);
      apply keeps_modify; intros s; apply proj_timers.
  - intros w. apply keeps_modify. intros s. apply proj_progressBar.
Qed.

Hypothesis proj_requests : forall r i s, proj (set_requests r i s) = proj s.

Lemma keeps_handleSubmit : keeps proj handleSubmit.
Proof.
  unfold handleSubmit.
  apply keeps_bind; [apply keeps_gets | intros [file|]].
  - apply keeps_bind; [apply keeps_append_options | intros formData].
    apply keeps_bind; [apply keeps_showProcessingState | intros _].
    apply keeps_modify. intros s. apply proj_requests.
  - apply keeps_modify. intros s. apply proj_toasts.
Qed.

End FrameSubmit.

Lemma handleFile_currentFile fmt (file : File) (s : State) :
  currentFile (exec (handleFile fmt file) s) = currentFile s
  \/ (currentFile (exec (handleFile fmt file) s) = Some file
      /\ Spec.acceptable file).
Proof.
  unfold handleFile. rewrite exec_bind.
  destruct (validateFile_decides file s) as [[Hok Hv] | [Hbad [msg Hv]]];
    rewrite Hv; cbn [negb].
  - right. split; [|exact Hok]. rewrite exec_bind. cbn [modify].
    rewrite (keeps_bind currentFile); [reflexivity | |].
    + apply keeps_showFilePreview. reflexivity.
    + intros _. apply keeps_update_unchecked. reflexivity.
  - left. reflexivity.
Qed.

Lemma handleSubmit_file (s : State) (file : File) :
  currentFile s = Some file ->
  handleSubmit s = (showProcessingState ;; fetch_upload (payload s file)) s.
Proof.
  intros Hfile. unfold handleSubmit. unfold bind at 1, gets. rewrite Hfile.
  erewrite bind_run by apply append_options_run. reflexivity.
Qed.

Lemma handleSubmit_requests (s : State) :
  requests (exec handleSubmit s) = requests s
  \/ exists file,
       currentFile s = Some file
       /\ requests (exec handleSubmit s) = (requests s ++ [payload s file])%list.
Proof.
  destruct (currentFile s) as [file|] eqn:Hfile.
  - unfold exec. rewrite (handleSubmit_file s file Hfile).
    pose proof (keeps_showProcessingState requests ltac:(reflexivity)
                  ltac:(reflexivity) s) as Hkeep.
    unfold exec in Hkeep.
    destruct (showProcessingState s) as [[e|[]] s1] eqn:Hshow; cbn [snd] in Hkeep.
    + left. erewrite bind_throw by exact Hshow. exact Hkeep.
    + right. exists file. split; [reflexivity|].
      erewrite bind_run by exact Hshow.
      unfold fetch_upload, modify. cbn [snd requests set_requests].
      rewrite Hkeep. reflexivity.
  - left. unfold exec. rewrite handleSubmit_no_file by exact Hfile. reflexivity.
Qed.

Lemma valid_request_payload (s : State) (file : File) :
  Spec.acceptable file -> valid_request (payload s file).
Proof. intros H. unfold valid_request, payload. eauto. Qed.

(** X3: a request is sent only for a file that passed validation. On a
    page where the staged file, if any, and the files of the requests already
    sent passed validation, this stays so after any sequence of file
    selections, submits, ticks, settlements and resets: every request body
    opens with the field [file] holding a file that [validateFile]
    accepts. *)
Theorem requests_carry_validated_files
    (formatFileSize : Z -> string) (evs : list Event) (s : State) :
  validated s -> validated (run formatFileSize s evs).
Proof.
  apply run_invariant. clear s evs. intros s ev [Hstaged Hsent].
  destruct ev as [file| |id r|i o|]; cbn [step]; unfold validated.
  - rewrite (keeps_handleFile requests) by reflexivity.
    split; [|exact Hsent]. intros f Hf.
    destruct (handleFile_currentFile formatFileSize file s) as [Hsame | [Hnew Hok]].
    + apply Hstaged. rewrite <- Hsame. exact Hf.
    + rewrite Hnew in Hf. injection Hf as <-. exact Hok.
  - rewrite (keeps_handleSubmit currentFile) by reflexivity.
    split; [exact Hstaged|].
    destruct (handleSubmit_requests s) as [-> | (file & Hfile & ->)];
      [exact Hsent|].
    apply Forall_app. split; [exact Hsent|].
    apply Forall_cons. split; [|apply Forall_nil_2].
    apply valid_request_payload, Hstaged, Hfile.
  - rewrite (keeps_tick currentFile), (keeps_tick requests) by reflexivity.
    auto.
  - destruct (decide (i ∈ inflight s)); [|auto].
    rewrite (keeps_handleSubmit_settled currentFile) by reflexivity.
    rewrite (keeps_handleSubmit_settled requests) by reflexivity.
    split; [exact Hstaged | exact Hsent].
  - unfold exec. rewrite clearFile_run. cbn [snd currentFile requests set_currentFile set_dom].
    split; [discriminate | exact Hsent].
Qed.

Lemma requests_carry_validated_files_witness :
  validated
    (run no_format page0
       [SelectFile report_pdf; Submit; SelectFile statement_csv; Submit;
        Settle 0 Rejected; Submit]).
Proof.
  apply (requests_carry_validated_files no_format _ page0).
  split; [discriminate | apply Forall_nil_2].
Defined.




(** ** The progress bar stays within 95 *)

Lemma shr_1_nonneg (mrs : shr_record) : 0 <= shr_m mrs -> 0 <= shr_m (shr_1 mrs).
Proof.
  destruct mrs as [m r s]. destruct m as [|[p|p|]|p]; cbn; lia.
Qed.

Lemma shr_nonneg (mrs : shr_record) (e n : Z) :
  0 <= shr_m mrs -> 0 <= shr_m (fst (shr mrs e n)).
Proof.
  intros Hm. unfold shr. destruct n as [|p|p]; cbn [fst]; try exact Hm.
  rewrite iter_pos_nat. induction (Pos.to_nat p) as [|k IH]; [exact Hm|].
  cbn [Nat.iter]. apply shr_1_nonneg, IH.
Qed.

Lemma shr_fexp_nonneg (prec emax m e : Z) (l : location) :
  0 <= m -> 0 <= shr_m (fst (shr_fexp prec emax m e l)).
Proof.
  intros Hm. unfold shr_fexp. apply shr_nonneg.
  destruct l as [|[]]; cbn; exact Hm.
Qed.

Lemma round_nearest_even_nonneg (m : Z) (l : location) :
  0 <= m -> 0 <= round_nearest_even m l.
Proof.
  intros Hm. destruct l as [|[]]; cbn [round_nearest_even]; try lia.
  destruct (Z.even m); lia.
Qed.

Lemma binary_round_aux_nonneg (prec emax m e : Z) (l : location) :
  0 <= m -> nonneg (binary_round_aux prec emax false m e l) = true.
Proof.
  intros Hm. unfold binary_round_aux.
  pose proof (shr_fexp_nonneg prec emax m e l Hm) as H1.
  destruct (shr_fexp prec emax m e l) as [mrs' e']. cbn [fst] in H1.
  pose proof (shr_fexp_nonneg prec emax _ e' loc_Exact
                (round_nearest_even_nonneg _ (loc_of_shr_record mrs') H1)) as H2.
  destruct (shr_fexp prec emax _ e' loc_Exact) as [mrs'' e'']. cbn [fst] in H2.
  destruct (shr_m mrs'') as [|p|p]; [reflexivity | | lia].
  destruct (e'' <=? emax - prec); reflexivity.
Qed.

Lemma mul_lit_15_nonneg (r : JS.number) :
  nonneg r = true -> nonneg (JS.mul r JS.lit_15) = true.
Proof.
  destruct r as [[]|[]| |[] m e]; intros H; try discriminate H; try reflexivity.
  unfold JS.mul, JS.lit_15, SFmul. apply binary_round_aux_nonneg. lia.
Qed.

Lemma add_nonneg (x y : JS.number) :
  nonneg x = true -> nonneg y = true -> nonneg (JS.add x y) = true.
Proof.
  destruct x as [[]|[]| |[] mx ex]; intros Hx; try discriminate Hx;
    destruct y as [[]|[]| |[] my ey]; intros Hy; try discriminate Hy;
    try reflexivity.
  unfold JS.add, SFadd. cbv zeta. cbn [cond_Zopp].
  destruct (shl_align mx _ _) as [ax ?], (shl_align my _ _) as [ay ?].
  cbn [fst]. change (Z.pos ax + Z.pos ay) with (Z.pos (ax + ay)).
  cbn [binary_normalize]. unfold binary_round.
  match goal with
  | |- context [shl_align ?m ?e ?e'] => destruct (shl_align m e e') as [mz ez]
  end.
  apply binary_round_aux_nonneg. lia.
Qed.

Lemma geb_false_at_most_95 (w : JS.number) :
  nonneg w = true -> JS.geb w JS.lit_95 = false -> at_most_95 w.
Proof.
  unfold JS.geb, at_most_95, SFleb. intros Hw.
  destruct (SFcompare w JS.lit_95) as [[]|] eqn:Hc; try discriminate;
    try reflexivity.
  destruct w as [[]|[]| |[] m e]; discriminate.
Qed.

Lemma preserves_bind {A B} (P : State -> Prop) (m : M A) (k : A -> M B) :
  preserves P m -> (forall a, preserves P (k a)) -> preserves P (bind m k).
Proof.
  intros Hm Hk s Hs. rewrite exec_bind. specialize (Hm s Hs). unfold exec in Hm.
  destruct (m s) as [[e|a] s']; cbn [snd] in Hm; [exact Hm | apply Hk, Hm].
Qed.

Lemma widths_nonneg_keeps {A} (m : M A) :
  keeps timers m -> preserves widths_nonneg m.
Proof. intros Hm s Hs id w. rewrite Hm. apply Hs. Qed.

Lemma bar_within_keeps {A} (m : M A) :
  keeps progressBar m -> preserves bar_within m.
Proof. intros Hm s Hs e w. rewrite Hm. apply Hs. Qed.

Lemma widths_nonneg_handleSubmit : preserves widths_nonneg handleSubmit.
Proof.
  unfold handleSubmit.
  apply preserves_bind; [apply widths_nonneg_keeps, keeps_gets | intros [file|]].
  - apply preserves_bind;
      [apply widths_nonneg_keeps, keeps_timers_append_options | intros formData].
    apply preserves_bind;
      [|intros _; apply widths_nonneg_keeps, keeps_modify; reflexivity].
    unfold showProcessingState.
    apply preserves_bind;
      [apply widths_nonneg_keeps, keeps_update_unchecked; reflexivity | intros _].
    apply preserves_bind;
      [apply widths_nonneg_keeps, keeps_update_unchecked; reflexivity | intros _].
    intros s Hs id w. unfold simulateProgress, exec, bind, gets, modify.
    destruct (progressBar s); cbn [snd timers set_timers]; [|apply Hs].
    rewrite lookup_insert. case_decide; [|apply Hs].
    intros [= <-]. reflexivity.
  - apply widths_nonneg_keeps, keeps_modify. reflexivity.
Qed.

Lemma progress_ok_tick (id : nat) (r : JS.number) :
  nonneg r = true -> preserves progress_ok (tick id r).
Proof.
  intros Hr s [Hwidths Hbar]. unfold tick, exec, bind, gets.
  destruct (timers s !! id) as [width|] eqn:Hlive; [|split; assumption].
  assert (Hnew : nonneg (JS.add width (JS.mul r JS.lit_15)) = true).
  { apply add_nonneg; [exact (Hwidths id width Hlive) | apply mul_lit_15_nonneg, Hr]. }
  destruct (JS.geb _ JS.lit_95) eqn:Hge;
    unfold clearInterval, set_width, modify, ret, progress_ok,
      widths_nonneg, bar_within;
    cbn [snd timers progressBar set_timers set_progressBar]; split.
  - intros id' w Hw. apply lookup_delete_Some in Hw as [_ Hw].
    exact (Hwidths id' w Hw).
  - intros e w He Hw. destruct (progressBar s) as [bar|]; [|discriminate He].
    injection He as <-. injection Hw as <-. reflexivity.
  - intros id' w. rewrite lookup_insert. case_decide; [|apply Hwidths].
    intros [= <-]. exact Hnew.
  - intros e w He Hw. destruct (progressBar s) as [bar|]; [|discriminate He].
    injection He as <-. injection Hw as <-.
    apply geb_false_at_most_95; assumption.
Qed.

Lemma progress_ok_step fmt (s : State) (ev : Event) :
  (forall id r, ev = Tick id r -> nonneg r = true) ->
  progress_ok s -> progress_ok (step fmt s ev).
Proof.
  intros Hr [Hwidths Hbar]. destruct ev as [file| |id r|i o|]; cbn [step].
  - split.
    + apply widths_nonneg_keeps; [|exact Hwidths].
      apply keeps_handleFile; reflexivity.
    + apply bar_within_keeps; [|exact Hbar].
      apply keeps_handleFile; reflexivity.
  - split.
    + apply widths_nonneg_handleSubmit, Hwidths.
    + apply bar_within_keeps; [|exact Hbar].
      apply keeps_handleSubmit; reflexivity.
  - apply progress_ok_tick; [eapply Hr; reflexivity | split; assumption].
  - destruct (decide (i ∈ inflight s)); [|split; assumption]. split.
    + apply widths_nonneg_keeps;
        [apply keeps_handleSubmit_settled; reflexivity | exact Hwidths].
    + apply bar_within_keeps;
        [apply keeps_handleSubmit_settled; reflexivity | exact Hbar].
  - unfold exec. rewrite clearFile_run. split; assumption.
Qed.

(** X8: the progress bar never shows more than 95. When [Math.random()]
    returns neither NaN nor a negative number, then on a page where no
    interval holds a negative width and the bar is within 95, after any
    sequence of events every live interval still holds a width that is not
    negative and every number assigned to the width of the bar is at most
    95: the indicator cannot reach 100 before the response arrives. *)
Theorem progress_bar_within_95
    (formatFileSize : Z -> string) (evs : list Event) (s : State) :
  random_ticks evs -> progress_ok s -> progress_ok (run formatFileSize s evs).
Proof.
  revert s. induction evs as [|ev evs IH]; intros s Hr Hs; [exact Hs|].
  cbn [run fold_left]. apply IH.
  - intros id r Hin. apply (Hr id r). right. exact Hin.
  - apply progress_ok_step; [|exact Hs].
    intros id r ->. apply (Hr id r). left. reflexivity.
Qed.

Lemma progress_bar_within_95_witness :
  progress_ok
    (run no_format page0
       [SelectFile statement_csv; Submit; Tick 0 one_half; Tick 0 one_half]).
Proof.
  apply (progress_bar_within_95 no_format _ page0).
  - intros id r [H|[H|[H|[H|[]]]]]; try discriminate H;
      injection H as _ <-; reflexivity.
  - split.
    + intros id w H. vm_compute in H. discriminate H.
    + intros e w He Hw. vm_compute in He. injection He as <-.
      discriminate Hw.
Defined.

(** * [utils.formatNumber] *)

Lemma is_digit_word (c : ascii) : Re.is_digit c = true -> Group.is_word c = true.
Proof.
  unfold Re.is_digit, Group.is_word. cbv zeta. intros ->. reflexivity.
Qed.

Lemma not_word_not_digit (c : ascii) : Group.is_word c = false -> Re.is_digit c = false.
Proof.
  intros Hw. destruct (Re.is_digit c) eqn:Hd; [|reflexivity].
  apply is_digit_word in Hd. congruence.
Qed.

Lemma all_digits_cons (c : ascii) (s : string) :
  Re.all_digits (String c s) = true <-> Re.is_digit c = true /\ Re.all_digits s = true.
Proof. unfold Re.all_digits. cbn [list_ascii_of_string forallb]. apply andb_true_iff. Qed.

(** Induction on strings three code units at a time. *)
Lemma string_ind3 (P : string -> Prop) :
  P "" -> (forall a, P (String a "")) -> (forall a b, P (String a (String b ""))) ->
  (forall a b c s, P s -> P (String a (String b (String c s)))) ->
  forall s, P s.
Proof.
  intros H0 H1 H2 H3.
  assert (H : forall s, P s /\ (forall a, P (String a s))
                        /\ (forall a b, P (String a (String b s)))).
  { induction s as [|c s (IH0 & IH1 & IH2)]; [auto|].
    split; [apply IH1|]. split; [intros a; apply IH2|].
    intros a b. apply H3, IH0. }
  intros s. apply H.
Qed.

Lemma no_digit_app (s t : string) :
  s <> "" -> Group.no_digit (s ++ t) = Group.no_digit s.
Proof. destruct s; [congruence | reflexivity]. Qed.

(** The lookahead stops at a code unit that is not a digit as it stops at
    the end of the text. *)
Lemma groups_sep (c : ascii) (t s : string) :
  Re.is_digit c = false -> Group.groups (s ++ String c t) = Group.groups s.
Proof.
  intros Hc. induction s as [|a|a b|a b d s IH] using string_ind3;
    rewrite ?append_String, ?append_empty; cbn [Group.groups].
  - destruct t as [|x [|y t]]; try reflexivity. rewrite Hc. reflexivity.
  - destruct t as [|x t]; [reflexivity|].
    rewrite Hc, andb_false_r. reflexivity.
  - rewrite Hc, andb_false_r. reflexivity.
  - rewrite IH. destruct s as [|x s]; [|reflexivity].
    rewrite append_empty. cbn [Group.no_digit Group.groups]. rewrite Hc.
    reflexivity.
Qed.

Lemma groups_empty : Group.groups "" = false.
Proof. reflexivity. Qed.

Lemma replace_cons (prev : option ascii) (c : ascii) (s : string) :
  Group.replace prev (String c s)
  = if Group.matches prev (String c s)
    then String "," (String c (Group.replace (Some c) s))
    else String c (Group.replace (Some c) s).
Proof. reflexivity. Qed.

Lemma replace_empty (prev : option ascii) : Group.replace prev "" = "".
Proof.
  cbn [Group.replace]. unfold Group.matches. rewrite groups_empty, andb_false_r.
  reflexivity.
Qed.

Lemma replace_sep (c : ascii) (t s : string) (prev : option ascii) :
  Group.is_word c = false ->
  Group.replace prev (s ++ String c t)
  = Group.replace prev s ++ String c (Group.replace (Some c) t).
Proof.
  intros Hw. pose proof (not_word_not_digit c Hw) as Hd.
  revert prev. induction s as [|a s IH]; intros prev.
  - rewrite replace_empty, append_empty, replace_cons.
    unfold Group.matches. rewrite (groups_sep c t "" Hd : Group.groups (String c t) = _).
    rewrite andb_false_r. reflexivity.
  - rewrite append_String, !replace_cons, IH.
    unfold Group.matches.
    rewrite (groups_sep c t (String a s) Hd : Group.groups (String a (s ++ String c t)) = _).
    unfold Group.not_boundary. cbn [Group.head].
    destruct (_ && _); reflexivity.
Qed.

Lemma replace_prev (p q : option ascii) (s : string) :
  Group.word_at p = Group.word_at q -> Group.replace p s = Group.replace q s.
Proof.
  intros H. destruct s; cbn [Group.replace]; unfold Group.matches, Group.not_boundary;
    rewrite H; reflexivity.
Qed.

(** X9: [formatNumber] works on each side of a separator on its own.
    For a code unit [c] that is not a word character (a decimal point, a
    minus sign, a blank), the text [s c t] is formatted as [s], [c] and
    [t] formatted one after the other: the digits after a decimal point
    are grouped by thousands like those before it. *)
Theorem formatNumber_separator (s t : string) (c : ascii) :
  Group.is_word c = false ->
  formatNumber (s ++ String c t) = formatNumber s ++ String c (formatNumber t).
Proof.
  intros Hw. unfold formatNumber. rewrite replace_sep by exact Hw.
  f_equal. f_equal. apply replace_prev. cbn [Group.word_at]. exact Hw.
Qed.

Lemma formatNumber_separator_witness :
  formatNumber "1234.5678" = "1,234.5,678"
  /\ formatNumber ("1234" ++ String "." "5678")
     = formatNumber "1234" ++ String "." (formatNumber "5678").
Proof.
  split; [reflexivity|].
  apply (formatNumber_separator "1234" "5678" "."). reflexivity.
Defined.

Lemma groups_app3 (x y z : ascii) (s : string) :
  Re.is_digit x = true -> Re.is_digit y = true -> Re.is_digit z = true ->
  s <> "" ->
  Group.groups (s ++ String x (String y (String z ""))) = Group.groups s.
Proof.
  intros Hx Hy Hz. induction s as [|a|a b|a b d s IH] using string_ind3; intros Hs;
    rewrite ?append_String, ?append_empty; cbn [Group.groups].
  - congruence.
  - cbn [Group.no_digit]. rewrite Hz. cbn [negb orb]. rewrite !andb_false_r.
    reflexivity.
  - cbn [Group.no_digit]. rewrite Hy. cbn [negb orb]. rewrite !andb_false_r.
    reflexivity.
  - destruct s as [|e s].
    + rewrite append_empty. cbn [Group.groups Group.no_digit].
      rewrite Hx, Hy, Hz. reflexivity.
    + rewrite IH by discriminate. rewrite append_String. reflexivity.
Qed.

Lemma replace_three (c x y z : ascii) :
  Re.is_digit c = true ->
  Re.is_digit x = true -> Re.is_digit y = true -> Re.is_digit z = true ->
  Group.replace (Some c) (String x (String y (String z "")))
  = String "," (String x (String y (String z ""))).
Proof.
  intros Hc Hx Hy Hz. group_step.
  rewrite (is_digit_word c Hc), (is_digit_word x Hx), Hx, Hy, Hz.
  cbn [Bool.eqb andb orb negb]. rewrite !andb_false_r. reflexivity.
Qed.

Lemma replace_app3 (x y z : ascii) (s : string) (prev : option ascii) :
  Re.is_digit x = true -> Re.is_digit y = true -> Re.is_digit z = true ->
  Re.all_digits s = true -> s <> "" ->
  Group.replace prev (s ++ String x (String y (String z "")))
  = Group.replace prev s ++ String "," (String x (String y (String z ""))).
Proof.
  intros Hx Hy Hz. revert prev. induction s as [|a s IH]; intros prev Hs Hne;
    [congruence|].
  apply all_digits_cons in Hs as [Ha Hs].
  rewrite append_String, !replace_cons. unfold Group.matches.
  rewrite (groups_app3 x y z (String a s) Hx Hy Hz Hne
           : Group.groups (String a (s ++ _)) = _).
  unfold Group.not_boundary. cbn [Group.head].
  assert (Hrest : Group.replace (Some a) (s ++ String x (String y (String z "")))
                  = Group.replace (Some a) s
                    ++ String "," (String x (String y (String z "")))).
  { destruct s as [|b s].
    - rewrite append_empty, replace_empty, append_empty.
      apply replace_three; assumption.
    - apply IH; [exact Hs | discriminate]. }
  rewrite Hrest. destruct (_ && _); reflexivity.
Qed.

Lemma replace_short (s : string) :
  Re.all_digits s = true -> (String.length s <= 3)%nat -> Group.replace None s = s.
Proof.
  intros Hs Hlen.
  destruct s as [|a [|b [|c [|d s]]]]; cbn [String.length] in Hlen; try lia;
    repeat match goal with
           | H : Re.all_digits (String _ _) = true |- _ =>
               apply all_digits_cons in H as [? ?]
           end;
    group_step;
    repeat match goal with
           | H : Re.is_digit ?c = true |- _ =>
               rewrite ?(is_digit_word c H), ?H; clear H
           end;
    cbn [Bool.eqb andb orb negb]; rewrite ?andb_false_r; reflexivity.
Qed.

(** X10: [formatNumber] groups a run of decimal digits by thousands. A
    run of at most three digits is left as it is, and a run that ends in
    three more digits is the run before them formatted, a comma, and the
    three digits. The two equations fix the result on every text of
    digits. *)
Theorem formatNumber_groups_digits (a b : string) :
  Re.all_digits a = true -> Re.all_digits b = true ->
  ((String.length a <= 3)%nat -> formatNumber a = a)
  /\ (a <> "" -> String.length b = 3%nat ->
      formatNumber (a ++ b) = formatNumber a ++ "," ++ b).
Proof.
  intros Ha Hb. split.
  - apply replace_short, Ha.
  - intros Hne Hlen.
    destruct b as [|x [|y [|z [|w b]]]]; try discriminate Hlen.
    apply all_digits_cons in Hb as [Hx Hb].
    apply all_digits_cons in Hb as [Hy Hb].
    apply all_digits_cons in Hb as [Hz _].
    apply replace_app3; assumption.
Qed.

Lemma formatNumber_groups_digits_witness :
  ((String.length "1234" <= 3)%nat -> formatNumber "1234" = "1234")
  /\ ("1234" <> "" -> String.length "567" = 3%nat ->
      formatNumber ("1234" ++ "567") = formatNumber "1234" ++ "," ++ "567").
Proof.
  apply (formatNumber_groups_digits "1234" "567"); reflexivity.
Defined.

Lemma without_commas_replace (s : string) (prev : option ascii) :
  without_commas (Group.replace prev s) = without_commas s.
Proof.
  revert prev. induction s as [|c s IH]; intros prev.
  - rewrite replace_empty. reflexivity.
  - rewrite replace_cons.
    destruct (Group.matches prev (String c s)); cbn [without_commas Ascii.eqb];
      cbn; rewrite IH; reflexivity.
Qed.

(** X11: [formatNumber] only inserts commas: on any text, taking the
    commas out of the result gives the text without its commas, so no digit,
    sign or point is dropped, changed or moved. *)
Theorem formatNumber_only_inserts_commas (s : string) :
  without_commas (formatNumber s) = without_commas s.
Proof. apply without_commas_replace. Qed.

(** * [utils.debounce] *)

Section DebounceProperties.
Context {Args : Type}.
Import Debounce.

Lemma executedFunction_armed (c : Closure Args) (a : Args) :
  at_most_one_pending Args c ->
  armed Args (executedFunction Args a c) (next_id Args c) a.
Proof.
  intros Hc. unfold armed, executedFunction. cbn. split; [reflexivity|].
  destruct Hc as [Hidle | (id & b & Ht & Hp)].
  - rewrite Hidle. destruct (timeout Args c); cbn;
      rewrite ?delete_empty; apply insert_empty.
  - rewrite Ht, Hp. cbn. rewrite delete_singleton_eq. apply insert_empty.
Qed.

Lemma fire_hit (c : Closure Args) (id : nat) (a : Args) :
  armed Args c id a ->
  pending Args (fire Args id c) = ∅
  /\ calls Args (fire Args id c) = (calls Args c ++ [a])%list.
Proof.
  intros [Ht Hp]. unfold fire. rewrite Hp, lookup_singleton_eq. cbn.
  rewrite Ht. cbn. rewrite delete_singleton_eq, delete_empty. auto.
Qed.

Lemma fire_miss (c : Closure Args) (id id' : nat) (a : Args) :
  armed Args c id a -> id' <> id -> fire Args id' c = c.
Proof.
  intros [Ht Hp] Hne. unfold fire. rewrite Hp, lookup_singleton_ne by congruence.
  reflexivity.
Qed.

Lemma fire_idle (c : Closure Args) (id : nat) :
  pending Args c = ∅ -> fire Args id c = c.
Proof. intros Hp. unfold fire. rewrite Hp, lookup_empty. reflexivity. Qed.

Lemma step_at_most_one_pending (c : Closure Args) (ev : Event Args) :
  at_most_one_pending Args c -> at_most_one_pending Args (step Args c ev).
Proof.
  intros Hc. destruct ev as [a|id']; cbn [step].
  - right. eauto using executedFunction_armed.
  - destruct Hc as [Hidle | (id & b & Harmed)].
    + rewrite fire_idle by exact Hidle. left. exact Hidle.
    + destruct (decide (id' = id)) as [->|Hne].
      * left. apply (fire_hit c id b Harmed).
      * rewrite (fire_miss c id id' b Harmed Hne). right. eauto.
Qed.

Lemma run_at_most_one_pending (evs : list (Event Args)) (c : Closure Args) :
  at_most_one_pending Args c -> at_most_one_pending Args (run Args c evs).
Proof.
  revert c. induction evs as [|ev evs IH]; intros c Hc; [exact Hc|].
  cbn [run fold_left]. apply IH, step_at_most_one_pending, Hc.
Qed.

Lemma run_calls (burst : list Args) (a : Args) (c : Closure Args) :
  at_most_one_pending Args c ->
  let c' := run Args c (List.map (Call Args) (burst ++ [a])) in
  armed Args c' (next_id Args c + length burst) a
  /\ calls Args c' = calls Args c.
Proof.
  cbv zeta. revert c. induction burst as [|b burst IH]; intros c Hc.
  - cbn. rewrite Nat.add_0_r. split; [|reflexivity].
    apply executedFunction_armed, Hc.
  - cbn [app List.map run fold_left step length].
    destruct (IH (executedFunction Args b c)) as [Harmed Hcalls].
    { right. eauto using executedFunction_armed. }
    cbn [next_id executedFunction calls] in Harmed, Hcalls.
    rewrite Nat.add_succ_r. auto.
Qed.

Lemma run_fires_idle (ids : list nat) (c : Closure Args) :
  pending Args c = ∅ -> run Args c (List.map (Fire Args) ids) = c.
Proof.
  intros Hp. induction ids as [|id ids IH]; [reflexivity|].
  cbn [List.map run fold_left step]. rewrite fire_idle by exact Hp. exact IH.
Qed.

Lemma run_fires_armed (ids : list nat) (c : Closure Args) (id : nat) (a : Args) :
  armed Args c id a ->
  calls Args (run Args c (List.map (Fire Args) ids))
  = (calls Args c ++ if decide (id ∈ ids) then [a] else [])%list.
Proof.
  intros Harmed. induction ids as [|id' ids IH].
  - rewrite decide_False by apply not_elem_of_nil. cbn. rewrite app_nil_r.
    reflexivity.
  - cbn [List.map run fold_left step].
    destruct (decide (id' = id)) as [->|Hne].
    + destruct (fire_hit c id a Harmed) as [Hidle Hcalls].
      fold (run Args (fire Args id c) (List.map (Fire Args) ids)).
      rewrite run_fires_idle by exact Hidle.
      rewrite decide_True by (apply elem_of_cons; left; reflexivity). exact Hcalls.
    + rewrite (fire_miss c id id' a Harmed Hne).
      fold (run Args c (List.map (Fire Args) ids)). rewrite IH.
      destruct (decide (id ∈ ids)) as [Hin|Hout].
      * rewrite decide_True by (apply elem_of_cons; right; exact Hin). reflexivity.
      * rewrite decide_False; [reflexivity|].
        intros Hin. apply elem_of_cons in Hin as [Heq|Hin]; congruence.
Qed.

End DebounceProperties.

(** X12: a debounced function runs [func] once for a burst of calls,
    with the arguments of the last call. Whatever happened before, a burst
    of calls runs [func] not at all; when timers come due after it, [func]
    runs exactly once, with the arguments of the last call of the burst, if
    the timer of that call is among them, and not at all otherwise: the
    timers of the earlier calls were cleared. *)
Theorem debounce_runs_last_call
    (Args : Type) (n : nat) (evs : list (Debounce.Event Args)) (burst : list Args) (a : Args)
    (ids : list nat) :
  let c := Debounce.run Args (Debounce.start Args n) evs in
  let id := (Debounce.next_id Args c + length burst)%nat in
  Debounce.calls Args
    (Debounce.run Args c
       (List.map (Debounce.Call Args) (burst ++ [a])
        ++ List.map (Debounce.Fire Args) ids))
  = (Debounce.calls Args c ++ if decide (id ∈ ids) then [a] else [])%list.
Proof.
  cbv zeta. set (c := Debounce.run Args (Debounce.start Args n) evs).
  assert (Hc : Debounce.at_most_one_pending Args c).
  { apply run_at_most_one_pending. left. reflexivity. }
  unfold Debounce.run at 1. rewrite fold_left_app.
  fold (Debounce.run Args c (List.map (Debounce.Call Args) (burst ++ [a]))).
  destruct (run_calls burst a c Hc) as [Harmed Hcalls].
  rewrite <- Hcalls. apply run_fires_armed, Harmed.
Qed.

(** * The dashboard *)

(** ** The period buttons *)

Section PeriodButtons.
Context {Chart : Type}.
Import Dashboard.

Lemma with_active_same (b : Button) : active b = false -> with_active false b = b.
Proof. destruct b as [p a]. cbn. intros ->. reflexivity. Qed.

Lemma none_active (bs : list Button) :
  count_active bs = 0%nat -> with_active false <$> bs = bs.
Proof.
  unfold count_active. induction bs as [|b bs IH]; [reflexivity|].
  cbn [List.filter]. destruct (active b) eqn:Hb; [discriminate|].
  intros H. cbn [fmap list_fmap]. rewrite with_active_same by exact Hb.
  f_equal. apply IH, H.
Qed.

Lemma deactivate_first_all (bs : list Button) :
  (count_active bs <= 1)%nat -> deactivate_first bs = with_active false <$> bs.
Proof.
  unfold count_active. induction bs as [|b bs IH]; [reflexivity|].
  cbn [List.filter deactivate_first fmap list_fmap].
  destruct (active b) eqn:Hb; cbn [List.length]; intros H.
  - f_equal. symmetry. apply none_active. unfold count_active. lia.
  - rewrite with_active_same by exact Hb. f_equal. apply IH, H.
Qed.

Lemma selected_lookup (k j : nat) (bs : list Button) :
  selected k bs !! j
  = (fun b => {| period := period b; active := bool_decide (j = k) |}) <$> bs !! j.
Proof. unfold selected. apply list_lookup_imap. Qed.

Lemma activate_selected (k : nat) (bs : list Button) :
  alter (with_active true) k (with_active false <$> bs) = selected k bs.
Proof.
  apply list_eq. intros j. rewrite selected_lookup.
  destruct (decide (j = k)) as [->|Hne].
  - rewrite list_lookup_alter_eq, list_lookup_fmap, bool_decide_eq_true_2 by reflexivity.
    destruct (bs !! k); reflexivity.
  - rewrite list_lookup_alter_ne, list_lookup_fmap, bool_decide_eq_false_2 by congruence.
    destruct (bs !! j); reflexivity.
Qed.

Lemma count_active_selected (k : nat) (bs : list Button) :
  (count_active (selected k bs) <= 1)%nat.
Proof.
  unfold count_active, selected.
  assert (H : forall n,
    (List.length (List.filter active
       (imap (fun j b => {| period := period b;
                            active := bool_decide (n + j = k)%nat |}) bs)) <= 1)%nat
    /\ ((k < n)%nat ->
        List.length (List.filter active
          (imap (fun j b => {| period := period b;
                               active := bool_decide (n + j = k)%nat |}) bs))
        = 0%nat)).
  { induction bs as [|b bs IH]; intros n; [cbn; lia|].
    rewrite imap_cons. cbn [List.filter active].
    assert (Hext : imap ((fun j b0 => {| period := period b0;
                                          active := bool_decide (n + j = k)%nat |}) ∘ S) bs
                   = imap (fun j b0 => {| period := period b0;
                                           active := bool_decide (S n + j = k)%nat |}) bs).
    { apply imap_ext. intros j x _. cbn. rewrite Nat.add_succ_r. reflexivity. }
    rewrite Hext. destruct (IH (S n)) as [Hle Hzero].
    destruct (bool_decide (n + 0 = k)%nat) eqn:Hk; cbn [List.length].
    - apply bool_decide_eq_true in Hk.
      split; [rewrite Hzero by lia; lia | intros; lia].
    - apply bool_decide_eq_false in Hk.
      split; [exact Hle | intros Hlt; apply Hzero; lia]. }
  apply (H 0%nat).
Qed.

Lemma selected_selected (k k' : nat) (bs : list Button) :
  selected k (selected k' bs) = selected k bs.
Proof.
  apply list_eq. intros j. rewrite !selected_lookup.
  destruct (bs !! j); reflexivity.
Qed.

Lemma click_buttons (k : nat) (d : Dash Chart) (b : Button) :
  (count_active (buttons Chart d) <= 1)%nat -> buttons Chart d !! k = Some b ->
  click Chart k d
  = updateSpendingChart Chart (period b)
      (set_buttons Chart (selected k (buttons Chart d)) d).
Proof.
  intros Hone Hk. unfold click. rewrite Hk. cbv zeta. cbn [buttons set_buttons].
  rewrite deactivate_first_all by exact Hone. rewrite activate_selected.
  reflexivity.
Qed.

(** Clicks keep the buttons as they were or leave one [selected]. *)
Lemma clicks_buttons (ks : list nat) (d : Dash Chart) :
  (count_active (buttons Chart d) <= 1)%nat ->
  buttons Chart (clicks Chart ks d) = buttons Chart d
  \/ exists k, buttons Chart (clicks Chart ks d) = selected k (buttons Chart d).
Proof.
  revert d. induction ks as [|k ks IH]; intros d Hone; [left; reflexivity|].
  cbn [clicks fold_left]. fold (clicks Chart ks (click Chart k d)).
  destruct (buttons Chart d !! k) as [b|] eqn:Hk.
  - rewrite (click_buttons k d b Hone Hk).
    destruct (IH (updateSpendingChart Chart (period b)
                    (set_buttons Chart (selected k (buttons Chart d)) d)))
      as [Hsame | [k' Hsel]].
    + apply count_active_selected.
    + right. exists k. exact Hsame.
    + right. exists k'. rewrite Hsel. cbn [buttons updateSpendingChart set_page set_buttons].
      apply selected_selected.
  - assert (Hnone : click Chart k d = d) by (unfold click; rewrite Hk; reflexivity).
    rewrite Hnone. apply IH, Hone.
Qed.

End PeriodButtons.

(** X13: one period button is active at a time. On a page where at most
    one period button is active, after any clicks on period buttons and a
    last click on the button at index [k], that button is active and no
    other is, the periods of the buttons are as they were, and the last
    notification is [Loading <period> data...] with the period of that
    button. *)
Theorem period_click_selects
    (Chart : Type) (ks : list nat) (k : nat) (b : Dashboard.Button)
    (d : Dashboard.Dash Chart) :
  (Dashboard.count_active (Dashboard.buttons Chart d) <= 1)%nat ->
  Dashboard.buttons Chart d !! k = Some b ->
  let d1 := Dashboard.clicks Chart ks d in
  let d2 := Dashboard.clicks Chart (ks ++ [k]) d in
  Dashboard.buttons Chart d2 = Dashboard.selected k (Dashboard.buttons Chart d)
  /\ toasts (Dashboard.page Chart d2)
     = (toasts (Dashboard.page Chart d1)
        ++ [info ("Loading " ++ Dashboard.period b ++ " data...")])%list.
Proof.
  intros Hone Hk. cbv zeta.
  assert (Hsplit : Dashboard.clicks Chart (ks ++ [k]) d
                   = Dashboard.click Chart k (Dashboard.clicks Chart ks d)).
  { unfold Dashboard.clicks. rewrite fold_left_app. reflexivity. }
  rewrite Hsplit. clear Hsplit.
  set (d1 := Dashboard.clicks Chart ks d).
  assert (Hd1 : (Dashboard.count_active (Dashboard.buttons Chart d1) <= 1)%nat
                /\ Dashboard.buttons Chart d1 !! k
                   = Some (Dashboard.with_active
                             (Dashboard.active
                                (default b (Dashboard.buttons Chart d1 !! k))) b)
                /\ Dashboard.selected k (Dashboard.buttons Chart d1)
                   = Dashboard.selected k (Dashboard.buttons Chart d)).
  { subst d1. destruct (clicks_buttons ks d Hone) as [Hsame | [k' Hsel]].
    - rewrite Hsame, Hk. cbn. destruct b; auto.
    - rewrite Hsel. split; [apply count_active_selected|]. split.
      + rewrite selected_lookup, Hk. reflexivity.
      + apply selected_selected. }
  destruct Hd1 as (Hone1 & Hk1 & Hsel).
  rewrite (click_buttons k d1 _ Hone1 Hk1). rewrite Hsel. split; reflexivity.
Qed.

Lemma period_click_selects_witness :
  Dashboard.buttons unit (Dashboard.clicks unit ([2; 7; 1] ++ [0])%nat%list dashboard0)
  = Dashboard.selected 0 period_buttons
  /\ toasts (Dashboard.page unit (Dashboard.clicks unit ([2; 7; 1] ++ [0])%nat%list dashboard0))
     = (toasts (Dashboard.page unit (Dashboard.clicks unit [2; 7; 1]%nat dashboard0))
        ++ [info "Loading week data..."])%list.
Proof.
  apply (period_click_selects unit [2; 7; 1]%nat 0
           {| Dashboard.period := "week"; Dashboard.active := false |} dashboard0).
  - vm_compute. lia.
  - reflexivity.
Defined.

(** ** Loading the charts *)

Lemma apiRequest_settled_json (o : Settlement) (s : State) :
  match json o with
  | Some v => apiRequest_settled o s = (inr v, s)
  | None =>
      exists e,
        apiRequest_settled o s
        = (inl e, set_toasts (toasts s ++ [request_failed]) s)
  end.
Proof.
  unfold json, apiRequest_settled, try_catch.
  destruct o as [|status [v|]]; cbn [throw]; [eauto| |].
  - destruct (ok status); cbn [negb]; [reflexivity | eauto].
  - destruct (ok status); cbn [negb]; eauto.
Qed.

(** X14: [apiRequest] returns the body of a response exactly when the
    status is from 200 to 299 and the body is JSON, and then shows nothing.
    On every other settlement (a rejected fetch, another status, a body that
    is not JSON) it throws, after one notification of severity [danger];
    in both cases it writes nothing else. *)
Theorem apiRequest_settled_outcome (o : Settlement) (s : State) :
  (exists status v,
     o = Responded status (Some v) /\ 200 <= status <= 299
     /\ apiRequest_settled o s = (inr v, s))
  \/ ((forall status v, o = Responded status (Some v) -> ~ 200 <= status <= 299)
      /\ exists e,
           apiRequest_settled o s
           = (inl e, set_toasts (toasts s ++ [request_failed]) s)).
Proof.
  pose proof (apiRequest_settled_json o s) as H. unfold json in H.
  destruct o as [|status [v|]].
  - right. split; [discriminate | exact H].
  - destruct (ok status) eqn:Hok; unfold ok in Hok.
    + left. exists status, v. repeat split; [lia | lia | exact H].
    + right. split; [|exact H]. intros status' v' [= <- <-]. lia.
  - right. split; [discriminate | exact H].
Qed.

Section Load.
Context {Chart : Type}.
Import Dashboard.

Lemma loadDashboardData_spending_failed
    (o : Settlement) (made : JS.error + Chart) (d : Dash Chart) :
  json o = None ->
  loadDashboardData_spending Chart o made d
  = (false, set_page Chart (set_toasts (toasts (page Chart d) ++ [request_failed])
                              (page Chart d)) d).
Proof.
  intros Hjson. unfold loadDashboardData_spending.
  pose proof (apiRequest_settled_json o (page Chart d)) as H. rewrite Hjson in H.
  destruct H as [e ->]. reflexivity.
Qed.

Lemma set_page_same (d : Dash Chart) : set_page Chart (page Chart d) d = d.
Proof. destruct d; reflexivity. Qed.

Lemma loadDashboardData_spending_data
    (o : Settlement) (made : JS.error + Chart) (d : Dash Chart) (data : JS.value) :
  json o = Some data ->
  loadDashboardData_spending Chart o made d
  = match createSpendingChart Chart "spendingTrendsChart" data made d with
    | (inl _, d) => (false, d)
    | (inr chart, d) =>
        (true, apiRequest Chart "/category-chart" (set_spending Chart (Some chart) d))
    end.
Proof.
  intros Hjson. unfold loadDashboardData_spending.
  pose proof (apiRequest_settled_json o (page Chart d)) as H. rewrite Hjson in H.
  rewrite H, set_page_same. reflexivity.
Qed.

Lemma loadDashboardData_category_failed
    (o : Settlement) (made : JS.error + Chart) (d : Dash Chart) :
  json o = None ->
  loadDashboardData_category Chart o made d
  = set_page Chart (set_toasts (toasts (page Chart d) ++ [request_failed])
                      (page Chart d)) d.
Proof.
  intros Hjson. unfold loadDashboardData_category.
  pose proof (apiRequest_settled_json o (page Chart d)) as H. rewrite Hjson in H.
  destruct H as [e ->]. reflexivity.
Qed.

Lemma loadDashboardData_category_data
    (o : Settlement) (made : JS.error + Chart) (d : Dash Chart) (data : JS.value) :
  json o = Some data ->
  loadDashboardData_category Chart o made d
  = match createCategoryChart Chart "categoryChart" data made d with
    | (inl _, d) => d
    | (inr chart, d) => set_category Chart (Some chart) d
    end.
Proof.
  intros Hjson. unfold loadDashboardData_category.
  pose proof (apiRequest_settled_json o (page Chart d)) as H. rewrite Hjson in H.
  rewrite H, set_page_same. reflexivity.
Qed.

(** Building a chart writes the log of constructions only. *)
Lemma createSpendingChart_frame
    (canvasId : string) (data : JS.value) (made : JS.error + Chart) (d : Dash Chart) :
  let d' := snd (createSpendingChart Chart canvasId data made d) in
  page Chart d' = page Chart d /\ fetched Chart d' = fetched Chart d
  /\ spending Chart d' = spending Chart d /\ category Chart d' = category Chart d.
Proof.
  unfold createSpendingChart.
  destruct (dom (page Chart d) !! canvasId); [|cbn; auto].
  destruct (JS.get data "labels"); [cbn; auto|].
  destruct (JS.get data "amounts"); [cbn; auto|].
  destruct made; cbn; auto.
Qed.

Lemma createCategoryChart_frame
    (canvasId : string) (data : JS.value) (made : JS.error + Chart) (d : Dash Chart) :
  let d' := snd (createCategoryChart Chart canvasId data made d) in
  page Chart d' = page Chart d /\ fetched Chart d' = fetched Chart d
  /\ spending Chart d' = spending Chart d /\ category Chart d' = category Chart d.
Proof.
  unfold createCategoryChart.
  destruct (dom (page Chart d) !! canvasId); [|cbn; auto].
  destruct (JS.get data "categories"); [cbn; auto|].
  destruct (JS.get data "amounts"); [cbn; auto|].
  destruct made; cbn; auto.
Qed.

Lemma createSpendingChart_throws
    (data : JS.value) (made : JS.error + Chart) (d : Dash Chart) :
  is_Some (dom (page Chart d) !! "spendingTrendsChart") ->
  data = JS.Null \/ (exists e, made = inl e) ->
  exists e, fst (createSpendingChart Chart "spendingTrendsChart" data made d) = inl e.
Proof.
  intros [canvas Hcanvas] Hwhy. unfold createSpendingChart. rewrite Hcanvas.
  destruct Hwhy as [-> | [e ->]]; [cbn; eauto|].
  destruct (JS.get data "labels"); [cbn; eauto|].
  destruct (JS.get data "amounts"); cbn; eauto.
Qed.

(** The notifications a settled load adds: none, or one failure. *)
Lemma loadDashboardData_settled_toasts
    (o1 o2 : Settlement) (made1 made2 : JS.error + Chart) (d : Dash Chart) :
  let d' := loadDashboardData_settled Chart o1 made1 o2 made2 d in
  (toasts (page Chart d') = toasts (page Chart d)
   \/ toasts (page Chart d') = (toasts (page Chart d) ++ [request_failed])%list)
  /\ (json o1 = None ->
      toasts (page Chart d') = (toasts (page Chart d) ++ [request_failed])%list)
  /\ (json o1 <> None -> json o2 <> None ->
      toasts (page Chart d') = toasts (page Chart d)).
Proof.
  cbv zeta. unfold loadDashboardData_settled.
  destruct (json o1) as [data1|] eqn:H1.
  - rewrite (loadDashboardData_spending_data o1 made1 d data1 H1).
    pose proof (createSpendingChart_frame "spendingTrendsChart" data1 made1 d)
      as (Hpage1 & _). 
    destruct (createSpendingChart Chart "spendingTrendsChart" data1 made1 d)
      as [[e|chart1] d1]; cbn [snd] in Hpage1.
    + rewrite Hpage1. repeat split; auto; discriminate.
    + destruct (json o2) as [data2|] eqn:H2.
      * rewrite (loadDashboardData_category_data o2 made2 _ data2 H2).
        pose proof (createCategoryChart_frame "categoryChart" data2 made2
                      (apiRequest Chart "/category-chart"
                         (set_spending Chart (Some chart1) d1)))
          as (Hpage2 & _).
        destruct (createCategoryChart Chart "categoryChart" data2 made2 _)
          as [[e|chart2] d2]; cbn [snd] in Hpage2;
          cbn [page set_category]; rewrite Hpage2; cbn [page apiRequest set_fetched set_spending];
          rewrite Hpage1; repeat split; auto; discriminate.
      * rewrite loadDashboardData_category_failed by exact H2.
        cbn [page set_page toasts set_toasts apiRequest set_fetched set_spending].
        rewrite Hpage1. repeat split; auto; try discriminate. congruence.
  - rewrite loadDashboardData_spending_failed by exact H1.
    cbn [page set_page toasts set_toasts]. repeat split; auto. congruence.
Qed.

End Load.

(** X15: the dashboard stops loading at the first request that fails.
    When the request for the spending data is rejected, or answered with a
    status outside 200 to 299 or with a body that is not JSON, a run of
    [loadDashboardData] requests [/api/spending-chart] and nothing more,
    shows one notification of severity [danger], builds no chart and
    leaves both chart slots as they were: the category data is never
    requested. *)
Theorem load_stops_at_failed_request
    (Chart : Type) (o1 o2 : Settlement) (made1 made2 : JS.error + Chart)
    (d : Dashboard.Dash Chart) :
  json o1 = None ->
  Dashboard.load Chart o1 made1 o2 made2 d
  = Dashboard.set_page Chart
      (set_toasts (toasts (Dashboard.page Chart d) ++ [request_failed])
                  (Dashboard.page Chart d))
      (Dashboard.set_fetched Chart
         (Dashboard.fetched Chart d ++ ["/api/spending-chart"]) d).
Proof.
  intros Hjson. unfold Dashboard.load, Dashboard.loadDashboardData_settled.
  rewrite loadDashboardData_spending_failed by exact Hjson. reflexivity.
Qed.

Lemma load_stops_at_failed_request_witness :
  Dashboard.load unit (Responded 503 (Some spending_data)) (inr tt)
    (Responded 200 (Some category_data)) (inr tt) dashboard0
  = Dashboard.set_page unit
      (set_toasts (toasts (Dashboard.page unit dashboard0) ++ [request_failed])
                  (Dashboard.page unit dashboard0))
      (Dashboard.set_fetched unit
         (Dashboard.fetched unit dashboard0 ++ ["/api/spending-chart"]) dashboard0).
Proof.
  apply load_stops_at_failed_request. reflexivity.
Defined.

(** X16: an error while the spending chart is built is swallowed. When
    the spending data arrived, the canvas is on the page and
    [createSpendingChart] throws because the body is [null] or because the
    chart library throws, a run of [loadDashboardData] shows no notification
    at all, never requests the category data and leaves both chart slots as
    they were. *)
Theorem load_chart_error_is_silent
    (Chart : Type) (o1 o2 : Settlement) (made1 made2 : JS.error + Chart)
    (d : Dashboard.Dash Chart) (data : JS.value) :
  json o1 = Some data ->
  is_Some (dom (Dashboard.page Chart d) !! "spendingTrendsChart") ->
  data = JS.Null \/ (exists e, made1 = inl e) ->
  let d' := Dashboard.load Chart o1 made1 o2 made2 d in
  toasts (Dashboard.page Chart d') = toasts (Dashboard.page Chart d)
  /\ Dashboard.fetched Chart d'
     = (Dashboard.fetched Chart d ++ ["/api/spending-chart"])%list
  /\ Dashboard.spending Chart d' = Dashboard.spending Chart d
  /\ Dashboard.category Chart d' = Dashboard.category Chart d.
Proof.
  intros Hjson Hcanvas Hwhy. cbv zeta.
  unfold Dashboard.load, Dashboard.loadDashboardData_settled.
  rewrite (loadDashboardData_spending_data o1 made1 _ data Hjson).
  pose proof (createSpendingChart_frame "spendingTrendsChart" data made1
                (Dashboard.loadDashboardData Chart d)) as Hsame.
  destruct (createSpendingChart_throws data made1
              (Dashboard.loadDashboardData Chart d) Hcanvas Hwhy) as [e Hthrow].
  cbv zeta in Hsame.
  destruct (Dashboard.createSpendingChart Chart "spendingTrendsChart" data made1
              (Dashboard.loadDashboardData Chart d)) as [[e'|chart] d1];
    cbn [fst snd] in *; [|discriminate Hthrow].
  destruct Hsame as (Hpage & Hfetched & Hspending & Hcategory).
  rewrite Hpage, Hfetched, Hspending, Hcategory. repeat split; reflexivity.
Qed.

Lemma load_chart_error_is_silent_witness :
  let d' := Dashboard.load unit (Responded 200 (Some JS.Null)) (inr tt)
              (Responded 200 (Some category_data)) (inr tt) dashboard0 in
  toasts (Dashboard.page unit d') = toasts (Dashboard.page unit dashboard0)
  /\ Dashboard.fetched unit d'
     = (Dashboard.fetched unit dashboard0 ++ ["/api/spending-chart"])%list
  /\ Dashboard.spending unit d' = Dashboard.spending unit dashboard0
  /\ Dashboard.category unit d' = Dashboard.category unit dashboard0.
Proof.
  apply (load_chart_error_is_silent unit (Responded 200 (Some JS.Null)) _ _ _
           dashboard0 JS.Null).
  - reflexivity.
  - eexists. vm_compute. reflexivity.
  - left. reflexivity.
Defined.

(** X17: a load shows at most one notification, and only for a request.
    Whatever the two requests and the chart library answer, the part of
    [loadDashboardData] that runs after its first await adds no notification
    or the one failure notification of [apiRequest]; it adds that one when
    the first request fails, and none when both requests succeed, whatever
    happens to the charts. *)
Theorem load_notifies_requests_only
    (Chart : Type) (o1 o2 : Settlement) (made1 made2 : JS.error + Chart)
    (d : Dashboard.Dash Chart) :
  let d' := Dashboard.loadDashboardData_settled Chart o1 made1 o2 made2 d in
  let shown := toasts (Dashboard.page Chart d') in
  (shown = toasts (Dashboard.page Chart d)
   \/ shown = (toasts (Dashboard.page Chart d) ++ [request_failed])%list)
  /\ (json o1 = None ->
      shown = (toasts (Dashboard.page Chart d) ++ [request_failed])%list)
  /\ (json o1 <> None -> json o2 <> None ->
      shown = toasts (Dashboard.page Chart d)).
Proof. apply loadDashboardData_settled_toasts. Qed.

(** X18: [refresh] announces success before anything was reloaded.
    Whatever the reload it starts then gives, the notifications after it
    are those from before, [Dashboard refreshed] with severity [success],
    and after it at most the one failure notification of the reload; a
    failed first request gives the announcement followed by the failure. *)
Theorem refresh_announces_first
    (Chart : Type) (o1 o2 : Settlement) (made1 made2 : JS.error + Chart)
    (d : Dashboard.Dash Chart) :
  let d' := Dashboard.loadDashboardData_settled Chart o1 made1 o2 made2
              (Dashboard.refresh Chart d) in
  let before := toasts (Dashboard.page Chart d) in
  (toasts (Dashboard.page Chart d') = (before ++ [refreshed])%list
   \/ toasts (Dashboard.page Chart d')
      = (before ++ [refreshed; request_failed])%list)
  /\ (json o1 = None ->
      toasts (Dashboard.page Chart d')
      = (before ++ [refreshed; request_failed])%list).
Proof.
  cbv zeta.
  pose proof (loadDashboardData_settled_toasts o1 o2 made1 made2
                (Dashboard.refresh Chart d)) as (Hcases & Hfail & _).
  assert (Hrefresh : toasts (Dashboard.page Chart (Dashboard.refresh Chart d))
                     = (toasts (Dashboard.page Chart d) ++ [refreshed])%list)
    by reflexivity.
  rewrite Hrefresh, <- app_assoc in Hcases, Hfail. cbn [app] in Hcases, Hfail.
  split; assumption.
Qed.

Lemma createSpendingChart_object
    (Chart : Type) (canvasId : string) (props : list (string * JS.value))
    (chart : Chart) (d : Dashboard.Dash Chart) :
  is_Some (dom (Dashboard.page Chart d) !! canvasId) ->
  Dashboard.createSpendingChart Chart canvasId (JS.Obj props) (inr chart) d
  = (inr (Some chart),
     Dashboard.set_constructed Chart
       (Dashboard.constructed Chart d ++ [(canvasId, spending_config props)]) d).
Proof.
  intros [canvas Hcanvas]. unfold Dashboard.createSpendingChart.
  rewrite Hcanvas. reflexivity.
Qed.

Lemma createCategoryChart_object
    (Chart : Type) (canvasId : string) (props : list (string * JS.value))
    (chart : Chart) (d : Dashboard.Dash Chart) :
  is_Some (dom (Dashboard.page Chart d) !! canvasId) ->
  Dashboard.createCategoryChart Chart canvasId (JS.Obj props) (inr chart) d
  = (inr (Some chart),
     Dashboard.set_constructed Chart
       (Dashboard.constructed Chart d ++ [(canvasId, category_config props)]) d).
Proof.
  intros [canvas Hcanvas]. unfold Dashboard.createCategoryChart.
  rewrite Hcanvas. reflexivity.
Qed.

(** X19: with both answers in hand the dashboard has both charts. When
    both requests are answered with a status from 200 to 299 and a JSON
    object, both canvases are on the page and the chart library returns a
    chart for each, a run of [loadDashboardData] requests the spending data
    and then the category data, builds the line chart from [labels] and
    [amounts] and the doughnut chart from [categories] and [amounts], each
    replaced by an empty array when missing or falsy, stores the two charts
    and shows no notification. *)
Theorem load_builds_both_charts
    (Chart : Type) (status1 status2 : Z) (props1 props2 : list (string * JS.value))
    (chart1 chart2 : Chart) (d : Dashboard.Dash Chart) :
  ok status1 = true -> ok status2 = true ->
  is_Some (dom (Dashboard.page Chart d) !! "spendingTrendsChart") ->
  is_Some (dom (Dashboard.page Chart d) !! "categoryChart") ->
  Dashboard.load Chart
    (Responded status1 (Some (JS.Obj props1))) (inr chart1)
    (Responded status2 (Some (JS.Obj props2))) (inr chart2) d
  = {| Dashboard.page := Dashboard.page Chart d;
       Dashboard.buttons := Dashboard.buttons Chart d;
       Dashboard.spending := Some (Some chart1);
       Dashboard.category := Some (Some chart2);
       Dashboard.fetched :=
         Dashboard.fetched Chart d ++ ["/api/spending-chart"; "/api/category-chart"];
       Dashboard.constructed :=
         Dashboard.constructed Chart d
         ++ [("spendingTrendsChart", spending_config props1);
             ("categoryChart", category_config props2)];
       Dashboard.destroyed := Dashboard.destroyed Chart d |}.
Proof.
  intros Hok1 Hok2 Hcanvas1 Hcanvas2.
  unfold Dashboard.load, Dashboard.loadDashboardData_settled.
  erewrite loadDashboardData_spending_data
    by (unfold json; rewrite Hok1; reflexivity).
  rewrite createSpendingChart_object by exact Hcanvas1.
  erewrite loadDashboardData_category_data
    by (unfold json; rewrite Hok2; reflexivity).
  rewrite createCategoryChart_object by exact Hcanvas2.
  unfold Dashboard.loadDashboardData, Dashboard.apiRequest.
  unfold Dashboard.set_category, Dashboard.set_constructed,
    Dashboard.set_spending, Dashboard.set_fetched.
  cbn [Dashboard.page Dashboard.buttons Dashboard.spending Dashboard.category
       Dashboard.fetched Dashboard.constructed Dashboard.destroyed].
  rewrite <- !app_assoc. reflexivity.
Qed.

Lemma load_builds_both_charts_witness :
  Dashboard.load unit
    (Responded 200 (Some spending_data)) (inr tt)
    (Responded 200 (Some (JS.Obj []))) (inr tt) dashboard0
  = {| Dashboard.page := Dashboard.page unit dashboard0;
       Dashboard.buttons := Dashboard.buttons unit dashboard0;
       Dashboard.spending := Some (Some tt);
       Dashboard.category := Some (Some tt);
       Dashboard.fetched :=
         Dashboard.fetched unit dashboard0
         ++ ["/api/spending-chart"; "/api/category-chart"];
       Dashboard.constructed :=
         Dashboard.constructed unit dashboard0
         ++ [("spendingTrendsChart",
              spending_config
                [("labels", JS.Arr [JS.Str "Jan"; JS.Str "Feb"]);
                 ("amounts", JS.Arr [JS.Num (JS.of_Z 120); JS.Num (JS.of_Z 80)])]);
             ("categoryChart", category_config [])];
       Dashboard.destroyed := Dashboard.destroyed unit dashboard0 |}.
Proof.
  apply (load_builds_both_charts unit 200 200).
  - reflexivity.
  - reflexivity.
  - eexists. vm_compute. reflexivity.
  - eexists. vm_compute. reflexivity.
Defined.

(** ** When a submit sends a request *)

Lemma showProcessingState_throws_frame (s : State) :
  dom s !! "uploadForm" = None \/ dom s !! "processingStatus" = None ->
  exists s', showProcessingState s = (inl JS.TypeError, s')
             /\ requests s' = requests s /\ inflight s' = inflight s
             /\ toasts s' = toasts s.
Proof.
  intros Hmissing.
  destruct (showProcessingState_throws s Hmissing) as (s' & Hthrow & Hinflight).
  exists s'. split; [exact Hthrow|].
  pose proof (keeps_showProcessingState requests ltac:(reflexivity)
                ltac:(reflexivity) s) as Hrequests.
  pose proof (keeps_showProcessingState toasts ltac:(reflexivity)
                ltac:(reflexivity) s) as Htoasts.
  unfold exec in Hrequests, Htoasts. rewrite Hthrow in Hrequests, Htoasts.
  auto.
Qed.

(** X20: a submit sends a request exactly when a file is staged and the
    form and the processing indicator are on the page; it then returns and
    the request carries the staged file and the options. In every other
    state nothing is sent and nothing joins the requests in flight: with no
    file staged the submit returns after a warning, and with a file staged
    and one of the two elements missing it throws a TypeError and shows
    nothing. *)
Theorem handleSubmit_sends_when (s : State) :
  let s' := exec handleSubmit s in
  (exists file,
     currentFile s = Some file
     /\ is_Some (dom s !! "uploadForm") /\ is_Some (dom s !! "processingStatus")
     /\ result handleSubmit s = inr tt
     /\ requests s' = (requests s ++ [payload s file])%list)
  \/ (requests s' = requests s /\ inflight s' = inflight s /\ submit_refused s).
Proof.
  cbv zeta. destruct (currentFile s) as [file|] eqn:Hfile.
  - destruct (dom s !! "uploadForm") as [form|] eqn:Hform;
      [destruct (dom s !! "processingStatus") as [status|] eqn:Hstatus|].
    + left. exists file. unfold result, exec.
      rewrite (handleSubmit_run s file Hfile) by (rewrite ?Hform, ?Hstatus; eauto).
      repeat split; eauto.
    + right.
      destruct (showProcessingState_throws_frame s) as (s1 & Hthrow & Hr & Hi & Ht);
        [auto|].
      unfold submit_refused, result, exec.
      rewrite (handleSubmit_file s file Hfile).
      erewrite bind_throw by exact Hthrow. cbn [fst snd].
      split; [exact Hr|]. split; [exact Hi|]. right. rewrite Hfile.
      repeat split; eauto.
    + right.
      destruct (showProcessingState_throws_frame s) as (s1 & Hthrow & Hr & Hi & Ht);
        [auto|].
      unfold submit_refused, result, exec.
      rewrite (handleSubmit_file s file Hfile).
      erewrite bind_throw by exact Hthrow. cbn [fst snd].
      split; [exact Hr|]. split; [exact Hi|]. right. rewrite Hfile.
      repeat split; eauto.
  - right. unfold submit_refused, exec.
    rewrite handleSubmit_no_file by exact Hfile. cbn [snd requests inflight set_toasts].
    split; [reflexivity|]. split; [reflexivity|]. left. auto.
Qed.

(** ** The file preview *)

Lemma showFilePreview_run fmt (file : File) (s : State) :
  is_Some (dom s !! "filePreview") -> is_Some (dom s !! "fileName") ->
  is_Some (dom s !! "fileSize") ->
  showFilePreview fmt file s
  = (inr tt,
     set_dom
       (alter (with_display "block") "filePreview"
          (alter (with_textContent (JS.Str (fmt (size file)))) "fileSize"
             (alter (with_textContent (JS.Str (name file))) "fileName" (dom s))))
       s).
Proof.
  intros [p Hp] [n Hn] [z Hz].
  unfold showFilePreview, bind, getElementById, gets. rewrite Hp, Hn, Hz.
  reflexivity.
Qed.

Lemma showFilePreview_skips fmt (file : File) (s : State) :
  dom s !! "filePreview" = None \/ dom s !! "fileName" = None
  \/ dom s !! "fileSize" = None ->
  showFilePreview fmt file s = (inr tt, s).
Proof.
  intros Hmissing. unfold showFilePreview, bind, getElementById, gets.
  destruct (dom s !! "filePreview"), (dom s !! "fileName"), (dom s !! "fileSize");
    try reflexivity.
  destruct Hmissing as [H|[H|H]]; discriminate H.
Qed.

Lemma preview_shows_staged_same fmt (s s' : State) :
  currentFile s' = currentFile s ->
  element_of "filePreview" s' = element_of "filePreview" s ->
  element_of "fileName" s' = element_of "fileName" s ->
  element_of "fileSize" s' = element_of "fileSize" s ->
  preview_shows_staged fmt s -> preview_shows_staged fmt s'.
Proof.
  unfold element_of, preview_shows_staged.
  intros Hfile Hp Hn Hz Hinv file p n z. rewrite Hfile, Hp, Hn, Hz. apply Hinv.
Qed.

Lemma handleFile_preview fmt (file : File) (s : State) :
  preview_shows_staged fmt s -> preview_shows_staged fmt (exec (handleFile fmt file) s).
Proof.
  intros Hinv. unfold handleFile. rewrite exec_bind.
  destruct (validateFile_decides file s) as [[Hok Hv] | [Hbad [msg Hv]]];
    rewrite Hv; cbn [negb].
  2:{ apply (preview_shows_staged_same fmt s); [reflexivity..|exact Hinv]. }
  rewrite exec_bind. cbn [modify]. rewrite exec_bind.
  set (s1 := set_currentFile (Some file) s).
  assert (Hbtn : forall s2 id, id <> "submitBtn" ->
            dom (exec (update_unchecked "submitBtn" (with_disabled false)) s2) !! id
            = dom s2 !! id).
  { intros s2 id Hid.
    apply (keeps_update_unchecked_other id "submitBtn" (with_disabled false)).
    congruence. }
  assert (Hcur : forall s2,
            currentFile (exec (update_unchecked "submitBtn" (with_disabled false)) s2)
            = currentFile s2).
  { intros s2. apply (keeps_update_unchecked currentFile); reflexivity. }
  destruct (dom s1 !! "filePreview") as [p0|] eqn:Hp0;
    [destruct (dom s1 !! "fileName") as [n0|] eqn:Hn0;
       [destruct (dom s1 !! "fileSize") as [z0|] eqn:Hz0|]|].
  - rewrite showFilePreview_run by (rewrite ?Hp0, ?Hn0, ?Hz0; eauto).
    intros f p n z. rewrite Hcur, !Hbtn by discriminate.
    cbn [currentFile dom set_dom s1 set_currentFile].
    cbn [dom s1 set_currentFile] in Hp0, Hn0, Hz0.
    repeat (rewrite ?lookup_alter_eq; rewrite lookup_alter_ne by discriminate).
    rewrite ?lookup_alter_eq, Hp0, Hn0, Hz0.
    intros [= <-] [= <-] [= <-] [= <-]. auto.
  - rewrite showFilePreview_skips by auto.
    intros f p n z _ _ _. rewrite Hbtn, Hz0 by discriminate. discriminate.
  - rewrite showFilePreview_skips by auto.
    intros f p n z _ _. rewrite Hbtn, Hn0 by discriminate. discriminate.
  - rewrite showFilePreview_skips by auto.
    intros f p n z _. rewrite Hbtn, Hp0 by discriminate. discriminate.
Qed.

(** X21: the preview shows the staged file. On a page where the preview
    panel shows the name and the size of the staged file, this stays so
    after any sequence of events: whenever a file is staged and the panel,
    the name and the size element are on the page, the panel is displayed,
    the name element holds the name of that file and the size element its
    formatted size. *)
Theorem preview_follows_staged_file
    (formatFileSize : Z -> string) (evs : list Event) (s : State) :
  preview_shows_staged formatFileSize s ->
  preview_shows_staged formatFileSize (run formatFileSize s evs).
Proof.
  apply run_invariant. clear s evs. intros s ev Hinv.
  destruct ev as [file| |id r|i o|]; cbn [step].
  - apply handleFile_preview, Hinv.
  - apply (preview_shows_staged_same formatFileSize s); [| | | |exact Hinv].
    + apply (keeps_handleSubmit currentFile); reflexivity.
    + apply keeps_handleSubmit_other; discriminate.
    + apply keeps_handleSubmit_other; discriminate.
    + apply keeps_handleSubmit_other; discriminate.
  - apply (preview_shows_staged_same formatFileSize s); [| | | |exact Hinv];
      first [apply (keeps_tick currentFile) | apply (keeps_tick (element_of _))];
      reflexivity.
  - destruct (decide (i ∈ inflight s)); [|exact Hinv].
    apply (preview_shows_staged_same formatFileSize s); [| | | |exact Hinv].
    + apply (keeps_handleSubmit_settled currentFile ltac:(reflexivity)
               ltac:(reflexivity) o (settle i s)).
    + apply (keeps_handleSubmit_settled_other "filePreview" o
               ltac:(discriminate) ltac:(discriminate) ltac:(discriminate)
               ltac:(discriminate) ltac:(discriminate) ltac:(discriminate)
               ltac:(discriminate) (settle i s)).
    + apply (keeps_handleSubmit_settled_other "fileName" o
               ltac:(discriminate) ltac:(discriminate) ltac:(discriminate)
               ltac:(discriminate) ltac:(discriminate) ltac:(discriminate)
               ltac:(discriminate) (settle i s)).
    + apply (keeps_handleSubmit_settled_other "fileSize" o
               ltac:(discriminate) ltac:(discriminate) ltac:(discriminate)
               ltac:(discriminate) ltac:(discriminate) ltac:(discriminate)
               ltac:(discriminate) (settle i s)).
  - unfold exec. rewrite clearFile_run. intros f p n z H. discriminate H.
Qed.

Lemma preview_follows_staged_file_witness :
  preview_shows_staged no_format
    (run no_format page0
       [SelectFile statement_csv; SelectFile report_pdf; Submit;
        Settle 0 Rejected]).
Proof.
  apply (preview_follows_staged_file no_format _ page0).
  intros f p n z H. discriminate H.
Defined.

(** ** After a successful upload *)

Lemma step_upload_done fmt (s : State) (ev : Event) :
  upload_done s -> from_visible_form s ev ->
  upload_done (step fmt s ev) /\ requests (step fmt s ev) = requests s.
Proof.
  intros [Hnone Hhidden] Hvisible. unfold upload_done, form_hidden in *.
  destruct ev as [file| |id r|i o|]; cbn [step].
  - pose proof (keeps_handleFile_other "uploadForm" fmt file ltac:(discriminate)
                  ltac:(discriminate) ltac:(discriminate) ltac:(discriminate) s)
      as Hform.
    unfold element_of in Hform.
    rewrite (keeps_handleFile inflight), (keeps_handleFile requests), Hform
      by reflexivity.
    auto.
  - exfalso. exact (Hvisible eq_refl Hhidden).
  - assert (Hdom : dom (exec (tick id r) s) = dom s)
      by (apply (keeps_tick dom); reflexivity).
    rewrite (keeps_tick inflight), (keeps_tick requests), Hdom by reflexivity.
    auto.
  - destruct (decide (i ∈ inflight s)) as [Hin|]; [|auto].
    rewrite Hnone in Hin. exfalso. exact (not_elem_of_empty _ Hin).
  - unfold exec. rewrite clearFile_run.
    cbn [snd inflight requests dom set_currentFile set_dom].
    rewrite !lookup_alter_ne by discriminate. auto.
Qed.

(** X22: a page takes one successful upload. Once nothing is in flight
    and the upload form is hidden, which is the state a response taken as a
    success leaves, no handler shows the form again: whatever the user does
    through displayed controls, no further request is sent and the form
    stays hidden. *)
Theorem no_upload_after_success
    (formatFileSize : Z -> string) (evs : list Event) (s : State) :
  upload_done s -> user_events formatFileSize s evs ->
  upload_done (run formatFileSize s evs)
  /\ requests (run formatFileSize s evs) = requests s.
Proof.
  revert s. induction evs as [|ev evs IH]; intros s Hdone Hevs; [auto|].
  destruct Hevs as [Hvisible Hrest]. cbn [run fold_left].
  destruct (step_upload_done formatFileSize s ev Hdone Hvisible) as [Hdone' Hsame].
  fold (run formatFileSize (step formatFileSize s ev) evs).
  destruct (IH _ Hdone' Hrest) as [Hfinal Hrequests].
  split; [exact Hfinal | congruence].
Qed.

Lemma no_upload_after_success_witness :
  upload_done
    (run no_format after_upload
       [SelectFile statement_csv; Tick 0 one_half; Settle 0 Rejected; ClearFile])
  /\ requests
       (run no_format after_upload
          [SelectFile statement_csv; Tick 0 one_half; Settle 0 Rejected; ClearFile])
     = requests after_upload.
Proof.
  apply (no_upload_after_success no_format).
  - split; vm_compute; reflexivity.
  - cbn [user_events]. unfold from_visible_form.
    repeat (split; [intros H; discriminate H|]). exact I.
Defined.

(** * Submitting again *)

(** On a page without the processing indicator the handling of a
    settlement throws out of its [catch] block and writes nothing. *)
Lemma settlement_without_indicator (s : State) (o : Settlement) :
  dom s !! "processingStatus" = None -> exec (handleSubmit_settled o) s = s.
Proof.
  intros Hstatus.
  assert (Hhide : hideProcessingState s = (inl JS.TypeError, s))
    by (apply update_unchecked_missing; exact Hstatus).
  assert (Hcatch : forall e : JS.error,
            (hideProcessingState ;; showUploadForm ;;
             showToast (JS.Str msg_upload_failed) "danger") s
            = (inl JS.TypeError, s))
    by (intros _; apply bind_throw; exact Hhide).
  unfold exec, handleSubmit_settled.
  destruct o as [|status [body|]].
  - erewrite try_catch_throw by reflexivity. rewrite Hcatch by constructor.
    reflexivity.
  - erewrite try_catch_throw by (apply bind_throw; exact Hhide).
    rewrite Hcatch by constructor. reflexivity.
  - erewrite try_catch_throw by reflexivity. rewrite Hcatch by constructor.
    reflexivity.
Qed.

(** The handling of a settlement leaves the upload form as it is, or it
    ends with a notification of severity [danger]. *)
Lemma settlement_form (s : State) (o : Settlement) :
  is_Some (dom s !! "uploadForm") ->
  is_Some (dom s !! "processingStatus") ->
  let s' := exec (handleSubmit_settled o) s in
  element_of "uploadForm" s' = element_of "uploadForm" s
  \/ exists t, toasts s' = (toasts s ++ [t])%list /\ severity t = "danger".
Proof.
  intros Hform Hstatus. cbv zeta.
  assert (Hfailed : forall s0,
    is_Some (dom s0 !! "uploadForm") -> is_Some (dom s0 !! "processingStatus") ->
    toasts s0 = toasts s ->
    forall r : (JS.error + unit) * State, r = (inr tt, failed s0) ->
    exists t, toasts (snd r) = (toasts s ++ [t])%list /\ severity t = "danger").
  { intros s0 Hf Hs Ht r ->. cbn [snd].
    destruct (failed_facts s0 Hf Hs) as (_ & _ & H3).
    exists (danger (JS.Str msg_upload_failed)). rewrite H3, Ht. auto. }
  unfold exec.
  destruct o as [|status [body|]].
  1,3: right; apply (Hfailed s Hform Hstatus eq_refl);
       unfold handleSubmit_settled, try_catch; cbn [throw];
       apply failed_path_run; assumption.
  set (s1 := set_dom (alter (with_display "none") "processingStatus" (dom s)) s).
  assert (Hform1 : is_Some (dom s1 !! "uploadForm")).
  { unfold s1. cbn [dom set_dom]. rewrite lookup_alter_ne by discriminate.
    exact Hform. }
  assert (Hstatus1 : is_Some (dom s1 !! "processingStatus")).
  { unfold s1. cbn [dom set_dom]. apply lookup_alter_is_Some. exact Hstatus. }
  assert (Hhide : hideProcessingState s = (inr tt, s1))
    by (apply update_unchecked_run; exact Hstatus).
  destruct (JS.get body "error") as [e|error] eqn:Hget.
  - right. unfold handleSubmit_settled. erewrite try_catch_throw.
    2:{ cbv beta iota. erewrite bind_run by exact Hhide.
        apply bind_throw. rewrite Hget. reflexivity. }
    apply (Hfailed s1 Hform1 Hstatus1 eq_refl).
    apply failed_path_run; assumption.
  - destruct (JS.truthy error) eqn:Htruthy.
    + right. destruct (JS.printable error) eqn:Htext.
      * unfold handleSubmit_settled. erewrite try_catch_ok.
        2:{ cbv beta iota. erewrite bind_run by exact Hhide.
            erewrite bind_run by (rewrite Hget; reflexivity).
            rewrite Htruthy.
            erewrite bind_run by (apply showToast_run; exact Htext).
            apply update_unchecked_run. exact Hform1. }
        cbn [snd toasts set_dom set_toasts]. exists (danger error). auto.
      * unfold handleSubmit_settled. erewrite try_catch_throw.
        2:{ cbv beta iota. erewrite bind_run by exact Hhide.
            erewrite bind_run by (rewrite Hget; reflexivity).
            rewrite Htruthy. apply bind_throw. apply showToast_throws, Htext. }
        apply (Hfailed s1 Hform1 Hstatus1 eq_refl).
        apply failed_path_run; assumption.
    + pose proof (keeps_showResults toasts ltac:(reflexivity) body s1) as Htoasts.
      pose proof (keeps_showResults_other "uploadForm" body ltac:(discriminate)
                    ltac:(discriminate) ltac:(discriminate) ltac:(discriminate)
                    ltac:(discriminate) s1) as Hkeep_form.
      pose proof (keeps_showResults_other "processingStatus" body ltac:(discriminate)
                    ltac:(discriminate) ltac:(discriminate) ltac:(discriminate)
                    ltac:(discriminate) s1) as Hkeep_status.
      unfold exec, element_of in Htoasts, Hkeep_form, Hkeep_status.
      assert (Hfailed2 : forall s2,
        dom s2 !! "uploadForm" = dom s1 !! "uploadForm" ->
        dom s2 !! "processingStatus" = dom s1 !! "processingStatus" ->
        toasts s2 = toasts s1 ->
        forall r : (JS.error + unit) * State,
          r = (hideProcessingState ;; showUploadForm ;;
               showToast (JS.Str msg_upload_failed) "danger") s2 ->
          exists t, toasts (snd r) = (toasts s ++ [t])%list /\ severity t = "danger").
      { intros s2 Hf Hs Ht r ->. apply (Hfailed s2).
        - rewrite Hf. exact Hform1.
        - rewrite Hs. exact Hstatus1.
        - rewrite Ht. reflexivity.
        - apply failed_path_run; [rewrite Hf; exact Hform1 | rewrite Hs; exact Hstatus1]. }
      destruct (showResults body s1) as [[e|[]] s2] eqn:Hresults; cbn [snd] in *.
      * right. unfold handleSubmit_settled. erewrite try_catch_throw.
        2:{ cbv beta iota. erewrite bind_run by exact Hhide.
            erewrite bind_run by (rewrite Hget; reflexivity).
            rewrite Htruthy. apply bind_throw. exact Hresults. }
        apply (Hfailed2 s2 Hkeep_form Hkeep_status Htoasts). reflexivity.
      * destruct (get_other_key body error "error" "success" Hget) as [success Hsuccess].
        destruct (JS.printable success) eqn:Htext.
        -- left. unfold handleSubmit_settled. erewrite try_catch_ok.
           2:{ cbv beta iota. erewrite bind_run by exact Hhide.
               erewrite bind_run by (rewrite Hget; reflexivity).
               rewrite Htruthy. erewrite bind_run by exact Hresults.
               erewrite bind_run by (rewrite Hsuccess; reflexivity).
               apply showToast_run, Htext. }
           unfold element_of. cbn [snd dom set_toasts]. rewrite Hkeep_form.
           unfold s1. cbn [dom set_dom]. apply lookup_alter_ne. discriminate.
        -- right. unfold handleSubmit_settled. erewrite try_catch_throw.
           2:{ cbv beta iota. erewrite bind_run by exact Hhide.
               erewrite bind_run by (rewrite Hget; reflexivity).
               rewrite Htruthy. erewrite bind_run by exact Hresults.
               erewrite bind_run by (rewrite Hsuccess; reflexivity).
               apply showToast_throws, Htext. }
           apply (Hfailed2 s2 Hkeep_form Hkeep_status Htoasts). reflexivity.
Qed.

(** A submit leaves a hidden form hidden. *)
Lemma handleSubmit_keeps_form_hidden (s : State) :
  form_hidden s -> form_hidden (exec handleSubmit s).
Proof.
  unfold form_hidden. intros Hhidden.
  destruct (dom s !! "uploadForm") as [form|] eqn:Hform; [|discriminate Hhidden].
  destruct (currentFile s) as [file|] eqn:Hfile.
  - destruct (dom s !! "processingStatus") as [status|] eqn:Hstatus.
    + unfold exec.
      rewrite (handleSubmit_run s file Hfile) by (rewrite ?Hform, ?Hstatus; eauto).
      cbn [snd dom set_requests]. unfold processing.
      destruct (progressBar s); cbn [dom set_timers set_dom];
        rewrite lookup_alter_ne by discriminate;
        rewrite lookup_alter_eq, Hform; reflexivity.
    + unfold exec. rewrite (handleSubmit_file s file Hfile).
      erewrite bind_throw.
      2:{ unfold showProcessingState.
          erewrite bind_run by (apply update_unchecked_run; rewrite Hform; eauto).
          apply bind_throw. apply update_unchecked_missing. cbn [dom set_dom].
          rewrite lookup_alter_ne by discriminate. exact Hstatus. }
      cbn [snd dom set_dom]. rewrite lookup_alter_eq, Hform. reflexivity.
  - unfold exec. rewrite handleSubmit_no_file by exact Hfile.
    cbn [snd dom set_toasts]. rewrite Hform. exact Hhidden.
Qed.

(** Only the settlement of a request in flight that ends with a
    notification of severity [danger] shows a hidden form again. *)
Lemma form_shown_by_failed_settlement fmt (s : State) (ev : Event) :
  form_hidden s -> ~ form_hidden (step fmt s ev) ->
  exists i o t,
    ev = Settle i o /\ i ∈ inflight s
    /\ toasts (step fmt s ev) = (toasts s ++ [t])%list /\ severity t = "danger".
Proof.
  intros Hhidden Hshown.
  assert (Hsame : forall s', element_of "uploadForm" s' = element_of "uploadForm" s ->
                             form_hidden s').
  { intros s' Hel. unfold form_hidden, element_of in *. rewrite Hel. exact Hhidden. }
  destruct ev as [file| |id r|i o|]; cbn [step] in *.
  - exfalso. apply Hshown, Hsame.
    apply keeps_handleFile_other; discriminate.
  - exfalso. apply Hshown, handleSubmit_keeps_form_hidden, Hhidden.
  - exfalso. apply Hshown, Hsame.
    apply (keeps_tick (element_of "uploadForm")); reflexivity.
  - destruct (decide (i ∈ inflight s)) as [Hin|Hout]; [|contradiction].
    exists i, o.
    assert (Hform : is_Some (dom (settle i s) !! "uploadForm")).
    { unfold form_hidden in Hhidden. cbn [settle dom set_requests].
      destruct (dom s !! "uploadForm"); [eauto | discriminate Hhidden]. }
    destruct (dom (settle i s) !! "processingStatus") as [status|] eqn:Hstatus.
    + destruct (settlement_form (settle i s) o Hform) as [Hel | [t Ht]];
        [rewrite Hstatus; eauto | |].
      * exfalso. apply Hshown, Hsame. exact Hel.
      * exists t. auto.
    + exfalso. apply Hshown.
      rewrite settlement_without_indicator by exact Hstatus.
      apply Hsame. reflexivity.
  - exfalso. apply Hshown, Hsame. unfold exec, element_of.
    rewrite clearFile_run. cbn [snd dom set_currentFile set_dom].
    rewrite !lookup_alter_ne by discriminate. reflexivity.
Qed.

(** C1, as the code has it: [handleSubmit] does not look at requests in
    flight. With a file staged, and the form and the processing indicator on
    the page, every call sends one more request, which joins those already
    in flight, and hides the upload form. A hidden form is shown again by
    no event but the settlement of a request in flight that ends with a
    notification of severity [danger]: the backend's error message or the
    generic failure message, never a success. *)
Theorem handleSubmit_fires_again (s : State) (file : File) :
  currentFile s = Some file ->
  is_Some (dom s !! "uploadForm") ->
  is_Some (dom s !! "processingStatus") ->
  let s' := exec handleSubmit s in
  List.length (requests s') = S (List.length (requests s))
  /\ inflight s' = {[ List.length (requests s) ]} ∪ inflight s
  /\ submitting s'
  /\ display <$> dom s' !! "uploadForm" = Some "none"
  /\ forall (formatFileSize : Z -> string) (s0 : State) (ev : Event),
       form_hidden s0 -> ~ form_hidden (step formatFileSize s0 ev) ->
       exists i o t,
         ev = Settle i o /\ i ∈ inflight s0
         /\ toasts (step formatFileSize s0 ev) = (toasts s0 ++ [t])%list
         /\ severity t = "danger".
Proof.
  intros Hfile Hform Hstatus. cbv zeta.
  split; [|split; [|split; [|split]]];
    [| | | |intros fmt s0 ev; apply form_shown_by_failed_settlement].
  all: unfold exec; rewrite (handleSubmit_run s file Hfile Hform Hstatus);
    cbn [snd requests inflight set_requests dom].
  - rewrite length_app. cbn [List.length]. lia.
  - reflexivity.
  - unfold submitting. cbn [inflight set_requests]. intros Hempty.
    apply (not_elem_of_empty (C := gset nat) (List.length (requests s))).
    rewrite <- Hempty. apply elem_of_union_l, elem_of_singleton. reflexivity.
  - unfold processing. destruct Hform as [e He].
    destruct (progressBar s); cbn [dom set_timers set_dom];
      rewrite lookup_alter_ne by discriminate;
      rewrite lookup_alter_eq, He; reflexivity.
Qed.

Lemma handleSubmit_fires_again_witness :
  let s' := exec handleSubmit awaiting_response in
  List.length (requests s') = S (List.length (requests awaiting_response))
  /\ inflight s' = {[ List.length (requests awaiting_response) ]} ∪ inflight awaiting_response
  /\ submitting s'
  /\ display <$> dom s' !! "uploadForm" = Some "none"
  /\ forall (formatFileSize : Z -> string) (s0 : State) (ev : Event),
       form_hidden s0 -> ~ form_hidden (step formatFileSize s0 ev) ->
       exists i o t,
         ev = Settle i o /\ i ∈ inflight s0
         /\ toasts (step formatFileSize s0 ev) = (toasts s0 ++ [t])%list
         /\ severity t = "danger".
Proof.
  apply (handleSubmit_fires_again awaiting_response statement_csv).
  - vm_compute. reflexivity.
  - eexists. vm_compute. reflexivity.
  - eexists. vm_compute. reflexivity.
Defined.

(** A rejected request shows the form again: the settlement of the
    statement above exists. *)
Example rejection_shows_the_form :
  form_hidden awaiting_response
  /\ ~ form_hidden (step no_format awaiting_response (Settle 0 Rejected)).
Proof.
  split; [vm_compute; reflexivity|].
  intros H. vm_compute in H. discriminate H.
Qed.

(** * A success message without a count *)

Lemma showResults_not_text (data success : JS.value) (s : State) :
  is_Some (dom s !! "processingResults") ->
  JS.get data "success" = inr success -> truthy_not_text success ->
  showResults data s = (inl JS.TypeError, s).
Proof.
  intros [panel Hpanel] Hget Hnot. unfold showResults.
  erewrite bind_run
    by (unfold getElementById, gets; rewrite Hpanel; reflexivity).
  cbv beta iota. erewrite bind_run by (rewrite Hget; reflexivity).
  apply bind_throw. apply message_match_not_text, Hnot.
Qed.

(** Every value is falsy, a string, or a truthy value that is not a
    string. *)
Lemma success_value_cases (success : JS.value) :
  JS.truthy success = false \/ (exists m, success = JS.Str m)
  \/ truthy_not_text success.
Proof.
  destruct (JS.truthy success) eqn:Htruthy; [|auto].
  destruct success; eauto; right; right; split; auto; discriminate.
Qed.

(** C10, counterexample: the success value [true] holds no count, and
    [showResults] throws on it: [true] has no [match] method. *)
Lemma showResults_throws_on_true :
  ~ default_summary_as_specified success_true page0.
Proof.
  intros H. destruct (H (JS.Bool true) eq_refl) as [Hret _]; [discriminate|].
  vm_compute in Hret. discriminate Hret.
Qed.

(** C10, as the code has it: on a page with the result panel, for a
    response whose [success] value holds no count. When that value is
    absent, falsy or a string, [showResults] returns normally and shows the
    result panel, with processed count the string 0, categorized and
    merchants the number 0 and confidence 85%, each where its element is on
    the page. When it is truthy and not a string, [showResults] throws a
    TypeError and writes nothing. Every value is one or the other. *)
Theorem showResults_without_count (data success : JS.value) (s : State) :
  is_Some (dom s !! "processingResults") ->
  JS.get data "success" = inr success ->
  (forall m, success = JS.Str m -> ~ Spec.contains_count m) ->
  let s' := exec (showResults data) s in
  (JS.truthy success = false \/ (exists m, success = JS.Str m) ->
   result (showResults data) s = inr tt
   /\ display <$> dom s' !! "processingResults" = Some "block"
   /\ (is_Some (dom s !! "processedCount") ->
       text_of s' "processedCount" = Some (JS.Str "0"))
   /\ (is_Some (dom s !! "categorizedCount") ->
       text_of s' "categorizedCount" = Some (JS.Num (JS.of_Z 0)))
   /\ (is_Some (dom s !! "merchantsFound") ->
       text_of s' "merchantsFound" = Some (JS.Num (JS.of_Z 0)))
   /\ (is_Some (dom s !! "confidenceScore") ->
       text_of s' "confidenceScore" = Some (JS.Str "85%")))
  /\ (truthy_not_text success -> showResults data s = (inl JS.TypeError, s))
  /\ (JS.truthy success = false \/ (exists m, success = JS.Str m)
      \/ truthy_not_text success).
Proof.
  intros Hdiv Hget Hno s'.
  split; [|split;
           [intros Hnot; apply (showResults_not_text data success s Hdiv Hget Hnot)
           |apply success_value_cases]].
  intros Hmsg.
  assert (Hm : exists m, JS.or success (JS.Str "") = JS.Str m /\ processed_count m = "0").
  { destruct Hmsg as [Hfalsy | [m ->]].
    - exists "". unfold JS.or. rewrite Hfalsy. split; reflexivity.
    - exists m. split; [apply or_Str | apply processed_count_none, (Hno m eq_refl)]. }
  destruct Hm as (m & Hor & Hcount).
  pose proof (showResults_run data success m s Hdiv Hget Hor) as Hrun.
  assert (Hdom : dom s' = alter (with_display "block") "processingResults"
                           (render (elements (processed_count m)) (dom s)))
    by (subst s'; unfold exec; rewrite Hrun; reflexivity).
  split; [unfold result; rewrite Hrun; reflexivity|].
  split; [apply (display_of_rendered _ s s' Hdom Hdiv)|].
  repeat split; intros Hel;
    apply (text_of_rendered m s s' _ _ Hdom); try exact Hel;
    rewrite Hcount; unfold elements; cbn [In]; auto 6.
Qed.

Lemma showResults_without_count_witness :
  let s' := exec (showResults success_no_count) page0 in
  result (showResults success_no_count) page0 = inr tt
  /\ display <$> dom s' !! "processingResults" = Some "block"
  /\ text_of s' "processedCount" = Some (JS.Str "0")
  /\ text_of s' "categorizedCount" = Some (JS.Num (JS.of_Z 0))
  /\ text_of s' "merchantsFound" = Some (JS.Num (JS.of_Z 0))
  /\ text_of s' "confidenceScore" = Some (JS.Str "85%").
Proof.
  destruct (showResults_without_count success_no_count (JS.Str "File processed") page0)
    as (Hrenders & _ & _).
  - eexists. vm_compute. reflexivity.
  - reflexivity.
  - intros m [= <-] Hcount. apply count_match_contains in Hcount as [ds Hds].
    vm_compute in Hds. discriminate Hds.
  - destruct Hrenders as (Hret & Hshow & Hp & Hc & Hm & Hs); [right; eauto|].
    cbv zeta. split; [exact Hret|]. split; [exact Hshow|].
    split; [apply Hp; eexists; vm_compute; reflexivity|].
    split; [apply Hc; eexists; vm_compute; reflexivity|].
    split; [apply Hm; eexists; vm_compute; reflexivity|].
    apply Hs; eexists; vm_compute; reflexivity.
Defined.
